(** * RPKI-viz backend: canonicalisation and the snapshot / diff / serial engine

    A shallow embedding of [src/backend/vrp_loader.py] and
    [src/backend/diff_engine.py], of the routes of
    [src/backend/api_server.py] and of the start of [run] in
    [src/backend/main.py], and the properties of the canonicaliser, of the
    engine and of what is built on them that follow from it.

    Conventions of the embedding.
    - A Python [str] is a [string]; a character is its code point, so the
      alphabet is the code points below 256.
    - A Python [int] is a [Z] (unbounded in both).
    - A [dict] whose iteration order is observed is an association list in
      insertion order; the directory of diff files is a finite map from
      file name to file content.
    - The engine object is a record; every method takes the record, the
      state directory and the log, and returns the new ones.  Calls to
      [logger] append an event to the log.  The wall clock read by
      [datetime.utcnow()] is an argument.  Prometheus metrics are not
      modelled.
    - A file of the state directory is missing, is not JSON, or holds a
      document of the shape that the engine writes.  Writing a file always
      succeeds.  Opening a diff file for reading fails with [OSError] when
      its name is longer than the file system takes.
    - A call that may raise returns an [outcome]; a function that only
      raises [ValueError] returns an [option].
    - [ipaddress.ip_network] is a parameter of the canonicaliser, with an
      instance for IPv4; the SHA-256 digest, [json.dumps] and [int] on text
      are written out.  The interpreter's cap on the number of digits that
      [int] and [str] convert (4300 unless it is configured otherwise) is
      not part of the embedding. *)

From Stdlib Require Import ZArith List String Ascii Bool Lia Permutation.
From Stdlib Require Import DecimalString DecimalPos DecimalZ.
From stdpp Require Import gmap strings sorting.
Import ListNotations.

Local Open Scope string_scope.
Local Open Scope list_scope.
Local Open Scope Z_scope.

(** ** Python text primitives *)

Module Py.

(** [ord(c)] *)
Definition ord (c : ascii) : Z := Z.of_N (N_of_ascii c).

(** [chr(n)] for [0 <= n < 256] *)
Definition chr (n : Z) : ascii := ascii_of_N (Z.to_N n).

(** [str(n)] for an [int] *)
Definition str_of_int (n : Z) : string := NilZero.string_of_int (Z.to_int n).

(** [n] rendered with exactly [w] lowercase hexadecimal digits *)
Definition hex_digit (d : Z) : ascii :=
  if d <? 10 then chr (48 + d) else chr (87 + d).

Fixpoint hex_fixed (w : nat) (n : Z) : string :=
  match w with
  | O => EmptyString
  | S w' => hex_fixed w' (n / 16) +:+ String (hex_digit (n mod 16)) EmptyString
  end.

(** ["0" * k] *)
Fixpoint zeros (k : nat) : string :=
  match k with
  | O => EmptyString
  | S k' => String "0"%char (zeros k')
  end.

(** [format(n, "010d")]: sign first, then zero padding up to a total
    width of ten characters; longer numbers are not truncated. *)
Definition format_010d (n : Z) : string :=
  if n <? 0
  then let digits := str_of_int (- n) in
       "-" +:+ zeros (9 - String.length digits) +:+ digits
  else let digits := str_of_int n in
       zeros (10 - String.length digits) +:+ digits.

(** [s.startswith(p)] *)
Definition startswith (s p : string) : bool := String.prefix p s.

(** [s[k:]] *)
Fixpoint drop (k : nat) (s : string) : string :=
  match k, s with
  | O, _ => s
  | S _, EmptyString => EmptyString
  | S k', String _ s' => drop k' s'
  end.

(** [s[:k]] *)
Fixpoint take (k : nat) (s : string) : string :=
  match k, s with
  | S k', String c s' => String c (take k' s')
  | _, _ => EmptyString
  end.

(** ['|' in s] *)
Fixpoint has_bar (s : string) : bool :=
  match s with
  | EmptyString => false
  | String c s' => Ascii.eqb c "|" || has_bar s'
  end.

(** *** [int(s)] on text

    [None] stands for [ValueError].  White space around the literal is
    skipped, one sign may precede the digits, and single underscores may
    separate digits. *)

Definition is_space (c : ascii) : bool :=
  let n := ord c in
  ((9 <=? n) && (n <=? 13)) || (n =? 32) || (n =? 133) || (n =? 160).

Definition is_digit (c : ascii) : bool :=
  let n := ord c in (48 <=? n) && (n <=? 57).

Definition digit_val (c : ascii) : Z := ord c - 48.

Fixpoint lstrip (s : string) : string :=
  match s with
  | String c s' => if is_space c then lstrip s' else s
  | EmptyString => s
  end.

Fixpoint all_space (s : string) : bool :=
  match s with
  | EmptyString => true
  | String c s' => is_space c && all_space s'
  end.

(** Digits after the first one: [acc] is the value read so far and the
    character before the cursor was a digit. *)
Fixpoint int_digits (acc : Z) (s : string) : option Z :=
  match s with
  | EmptyString => Some acc
  | String c s' =>
      if is_digit c then int_digits (10 * acc + digit_val c) s'
      else if Ascii.eqb c "_" then
        match s' with
        | String d s'' =>
            if is_digit d then int_digits (10 * acc + digit_val d) s''
            else None
        | EmptyString => None
        end
      else if all_space s then Some acc
      else None
  end.

Definition int_unsigned (s : string) : option Z :=
  match s with
  | String c s' => if is_digit c then int_digits (digit_val c) s' else None
  | EmptyString => None
  end.

Definition int_of_str (s : string) : option Z :=
  match lstrip s with
  | String "+" s' => int_unsigned s'
  | String "-" s' => option_map Z.opp (int_unsigned s')
  | s' => int_unsigned s'
  end.

End Py.

(** ** [hashlib.sha256]

    The digest of FIPS 180-4 on a message given as a list of byte values.
    Words are integers in [0, 2^32). *)

Module SHA256.

Definition wrap (x : Z) : Z := x mod 2 ^ 32.
Definition add32 (x y : Z) : Z := wrap (x + y).
Definition not32 (x : Z) : Z := Z.lxor x 0xffffffff.
Definition shr (n x : Z) : Z := Z.shiftr x n.
Definition rotr (n x : Z) : Z :=
  Z.lor (Z.shiftr x n) (wrap (Z.shiftl x (32 - n))).

Definition Ch (x y z : Z) : Z := Z.lxor (Z.land x y) (Z.land (not32 x) z).
Definition Maj (x y z : Z) : Z :=
  Z.lxor (Z.lxor (Z.land x y) (Z.land x z)) (Z.land y z).
Definition Sigma0 (x : Z) : Z := Z.lxor (Z.lxor (rotr 2 x) (rotr 13 x)) (rotr 22 x).
Definition Sigma1 (x : Z) : Z := Z.lxor (Z.lxor (rotr 6 x) (rotr 11 x)) (rotr 25 x).
Definition sigma0 (x : Z) : Z := Z.lxor (Z.lxor (rotr 7 x) (rotr 18 x)) (shr 3 x).
Definition sigma1 (x : Z) : Z := Z.lxor (Z.lxor (rotr 17 x) (rotr 19 x)) (shr 10 x).

(** The largest [r] below [2 ^ bits] with [r ^ k <= n], built from the
    top bit down. *)
Fixpoint iroot (k : Z) (n : Z) (bits : nat) (r : Z) : Z :=
  match bits with
  | O => r
  | S b => let r' := r + 2 ^ Z.of_nat b in
           if r' ^ k <=? n then iroot k n b r' else iroot k n b r
  end.

Definition primes : list Z :=
  [ 2; 3; 5; 7; 11; 13; 17; 19; 23; 29; 31; 37; 41; 43; 47; 53;
    59; 61; 67; 71; 73; 79; 83; 89; 97; 101; 103; 107; 109; 113; 127; 131;
    137; 139; 149; 151; 157; 163; 167; 173; 179; 181; 191; 193; 197; 199; 211; 223;
    227; 229; 233; 239; 241; 251; 257; 263; 269; 271; 277; 281; 283; 293; 307; 311 ].

(** The round constants: the first 32 bits of the fractional part of the
    cube root of each of the first 64 primes. *)
Definition K : list Z :=
  Eval vm_compute in map (fun p => wrap (iroot 3 (p * 2 ^ 96) 40 0)) primes.

(** The eight working variables, also the chaining value. *)
Record hstate : Type := H8 { ha : Z; hb : Z; hc : Z; hd : Z;
                             he : Z; hf : Z; hg : Z; hh : Z }.

(** The initial value: the first 32 bits of the fractional part of the
    square root of each of the first 8 primes. *)
Definition frac_sqrt (p : Z) : Z := wrap (iroot 2 (p * 2 ^ 64) 40 0).

Definition H0 : hstate :=
  Eval vm_compute in
    H8 (frac_sqrt 2) (frac_sqrt 3) (frac_sqrt 5) (frac_sqrt 7)
       (frac_sqrt 11) (frac_sqrt 13) (frac_sqrt 17) (frac_sqrt 19).

(** Padding: a one bit, zero bits up to 56 modulo 64 bytes, then the bit
    length of the message on eight bytes, most significant first. *)
Fixpoint be_bytes (k : nat) (n : Z) : list Z :=
  match k with
  | O => []
  | S k' => be_bytes k' (n / 256) ++ [n mod 256]
  end.

Definition pad (msg : list Z) : list Z :=
  let len := Z.of_nat (List.length msg) in
  msg ++ [0x80] ++ repeat 0 (Z.to_nat ((55 - len) mod 64)) ++ be_bytes 8 (8 * len).

(** Big-endian 32-bit words of a block. *)
Fixpoint words (k : nat) (bytes : list Z) : list Z :=
  match k with
  | O => []
  | S k' =>
      match bytes with
      | b0 :: b1 :: b2 :: b3 :: rest =>
          (((b0 * 256 + b1) * 256 + b2) * 256 + b3) :: words k' rest
      | _ => []
      end
  end.

(** Message schedule.  [recent] holds the words computed so far, the
    latest first, so that W(t-2), W(t-7), W(t-15) and W(t-16) sit at
    positions 1, 6, 14 and 15. *)
Fixpoint extend (k : nat) (recent : list Z) : list Z :=
  match k with
  | O => recent
  | S k' =>
      let w := add32 (add32 (sigma1 (nth 1 recent 0)) (nth 6 recent 0))
                     (add32 (sigma0 (nth 14 recent 0)) (nth 15 recent 0)) in
      extend k' (w :: recent)
  end.

Definition schedule (block : list Z) : list Z :=
  rev (extend 48 (rev (words 16 block))).

Definition round (s : hstate) (kw : Z * Z) : hstate :=
  let '(k, w) := kw in
  let t1 := add32 (add32 (add32 (hh s) (Sigma1 (he s)))
                         (add32 (Ch (he s) (hf s) (hg s)) k)) w in
  let t2 := add32 (Sigma0 (ha s)) (Maj (ha s) (hb s) (hc s)) in
  H8 (add32 t1 t2) (ha s) (hb s) (hc s) (add32 (hd s) t1) (he s) (hf s) (hg s).

Definition compress (h : hstate) (block : list Z) : hstate :=
  let s := fold_left round (combine K (schedule block)) h in
  H8 (add32 (ha h) (ha s)) (add32 (hb h) (hb s))
     (add32 (hc h) (hc s)) (add32 (hd h) (hd s))
     (add32 (he h) (he s)) (add32 (hf h) (hf s))
     (add32 (hg h) (hg s)) (add32 (hh h) (hh s)).

Fixpoint blocks (k : nat) (bytes : list Z) : list (list Z) :=
  match k with
  | O => []
  | S k' => firstn 64 bytes :: blocks k' (skipn 64 bytes)
  end.

Definition digest (msg : list Z) : hstate :=
  let padded := pad msg in
  fold_left compress (blocks (Nat.div (List.length padded) 64) padded) H0.

(** [hashlib.sha256(data).hexdigest()] *)
Definition hexdigest (data : list Z) : string :=
  let h := digest data in
  Py.hex_fixed 8 (ha h) +:+ Py.hex_fixed 8 (hb h) +:+
  Py.hex_fixed 8 (hc h) +:+ Py.hex_fixed 8 (hd h) +:+
  Py.hex_fixed 8 (he h) +:+ Py.hex_fixed 8 (hf h) +:+
  Py.hex_fixed 8 (hg h) +:+ Py.hex_fixed 8 (hh h).

End SHA256.

(** ** [json.dumps] and [str.encode] *)

Module Json.

(** One character of a string literal under [ensure_ascii=True]: the
    quote and the backslash are escaped, the five short control escapes
    are used, every other character outside the printable ASCII range
    becomes a six-character unicode escape. *)
Definition backslash (tail : string) : string := String (Py.chr 92) tail.

Definition escape_char (c : ascii) : string :=
  let n := Py.ord c in
  if (n =? 34) || (n =? 92) then backslash (String c EmptyString)
  else if n =? 8 then backslash "b"
  else if n =? 9 then backslash "t"
  else if n =? 10 then backslash "n"
  else if n =? 12 then backslash "f"
  else if n =? 13 then backslash "r"
  else if (32 <=? n) && (n <=? 126) then String c EmptyString
  else backslash ("u" +:+ Py.hex_fixed 4 n).

Fixpoint escape (s : string) : string :=
  match s with
  | EmptyString => EmptyString
  | String c s' => escape_char c +:+ escape s'
  end.

Definition quote : string := String (Py.chr 34) EmptyString.

(** A string literal. *)
Definition dumps_str (s : string) : string := quote +:+ escape s +:+ quote.

(** [", ".join(items)] between brackets. *)
Fixpoint join (sep : string) (items : list string) : string :=
  match items with
  | [] => EmptyString
  | [x] => x
  | x :: rest => x +:+ sep +:+ join sep rest
  end.

(** [s.encode('utf-8')] for text made of code points below 128, which
    is all that [dumps] produces. *)
Fixpoint encode (s : string) : list Z :=
  match s with
  | EmptyString => []
  | String c s' => Py.ord c :: encode s'
  end.

End Json.

(** ** Records

    A VRP as a Python [dict] with the keys ['asn'], ['prefix'],
    ['maxLength'] and ['ta']: an element of the upstream ['roas'] array, of a
    snapshot and of a diff. *)

Module VRPDict.

Record t : Type := Build { asn : string; prefix : string; maxLength : Z; ta : string }.

#[global] Instance eq_dec : EqDecision t.
Proof. solve_decision. Defined.

End VRPDict.

(** Outcome of a call that may raise. *)
Inductive exn : Type :=
| JSONDecodeError
| KeyError (key : string)
| ValueError
| OSError.

Inductive outcome (A : Type) : Type :=
| Return (a : A)
| Raise (e : exn).
Arguments Return {A} a.
Arguments Raise {A} e.

(** One call of [logger.info], [logger.warning] or [logger.error]. *)
Inductive event : Type :=
| Error_http_status (code : Z)
| Error_invalid_json
| Error_schema_validation
| Error_timeout
| Error_connection
| Info_fetching
| Info_fetched (count : nat)
| Info_deduplicated (original deduplicated : nat)
| Warning_keeping_last_snapshot
| Info_snapshot_processed
| Warning_snapshot_rejected
| Info_hash_unchanged
| Info_hash_changed (old new : string)
| Info_diff (added removed : nat)
| Info_saved_diff (name : string)
| Info_persisted (serial : Z) (hash8 : string)
| Info_accepted (serial : Z)
| Info_loaded (serial : Z) (vrps : nat) (hash8 : string)
| Info_starting_fresh
| Warning_multi_step (from_serial to_serial : Z)
| Warning_diff_not_found (name : string).

(** ** [class VRPEntry] *)

Module VRPEntry.

Record t : Type := Build { asn : string; prefix : string; maxLength : Z; ta : string }.

(** The field validators return the value, or [None] for [ValueError]. *)

Definition validate_asn (v : string) : option string :=
  if negb (Py.startswith v "AS") then None
  else match Py.int_of_str (Py.drop 2 v) with
       | Some asn_num =>
           if (asn_num <? 0) || (asn_num >? 4294967295) then None else Some v
       | None => None
       end.

Definition validate_max_length (v : Z) : option Z :=
  if (v <? 0) || (v >? 128) then None else Some v.

Section WithIpaddress.

(** [str(ipaddress.ip_network(v, strict=True))], or [None] when
    [ip_network] raises [ValueError]. *)
Variable ip_network : string -> option string.

Definition validate_prefix (v : string) : option string :=
  match ip_network v with
  | Some _ => Some v
  | None => None
  end.

(** Construction of a [VRPEntry] from the fields of [data]: every
    validator runs on its field; [None] is pydantic's
    [ValidationError]. *)
Definition make (data : VRPDict.t) : option t :=
  match validate_asn (VRPDict.asn data),
        validate_prefix (VRPDict.prefix data),
        validate_max_length (VRPDict.maxLength data) with
  | Some a, Some p, Some m => Some (Build a p m (VRPDict.ta data))
  | _, _, _ => None
  end.

(** The entries that the constructor can return. *)
Definition valid (self : t) : Prop :=
  make (VRPDict.Build (asn self) (prefix self) (maxLength self) (ta self)) = Some self.

Definition canonicalize (self : t) : option string :=
  match ip_network (prefix self) with
  | Some normalized_prefix =>
      Some (asn self +:+ "|" +:+ normalized_prefix +:+ "|" +:+
            Py.str_of_int (maxLength self) +:+ "|" +:+ ta self)
  | None => None
  end.

End WithIpaddress.

End VRPEntry.

(** ** Ordered dictionaries and [sorted] *)

Module PyDict.

Section Dict.
Context {V : Type}.

Definition t : Type := list (string * V).

(** [k in d] *)
Definition contains (d : t) (k : string) : bool :=
  existsb (fun kv => String.eqb (fst kv) k) d.

(** [d.get(k)] *)
Fixpoint get (d : t) (k : string) : option V :=
  match d with
  | [] => None
  | (k', v) :: d' => if String.eqb k' k then Some v else get d' k
  end.

(** [d[k] = v]: a new key goes last, an old key keeps its position. *)
Fixpoint set (d : t) (k : string) (v : V) : t :=
  match d with
  | [] => [(k, v)]
  | (k', v') :: d' =>
      if String.eqb k' k then (k', v) :: d' else (k', v') :: set d' k v
  end.

Definition keys (d : t) : list string := map fst d.
Definition values (d : t) : list V := map snd d.

End Dict.
Arguments t V : clear implicits.

End PyDict.

Module PySort.

Section Sorted.
Context {A : Type}.
(** [lt x y]: the key of [x] is less than the key of [y]. *)
Variable lt : A -> A -> bool.

(** [x] goes in front of the first element that is not before it. *)
Fixpoint insert (x : A) (l : list A) : list A :=
  match l with
  | [] => [x]
  | y :: l' => if lt y x then y :: insert x l' else x :: y :: l'
  end.

(** [sorted(l, key=...)]: the stable sort, elements with equal keys
    keep the order they have in [l]. *)
Fixpoint sorted (l : list A) : list A :=
  match l with
  | [] => []
  | x :: l' => insert x (sorted l')
  end.

End Sorted.

End PySort.

(** ** [class DiffEngine] *)

Module DiffEngine.

(** The dictionary that the loader passes along with a snapshot. *)
Record upstream_metadata : Type :=
  { generated : Z; fetched_at : string }.

(** Content of [diffs/diff_<serial>.json]. *)
Record diff_data : Type :=
  { diff_serial : Z;
    diff_timestamp : string;
    diff_metadata : upstream_metadata;
    added_count : nat;
    removed_count : nat;
    diff_added : list VRPDict.t;
    diff_removed : list VRPDict.t }.

(** Content of [state_metadata.json]: a JSON object in which a key may
    be absent; ['last_update'] is [None] when absent or [null]. *)
Record metadata_json : Type :=
  { meta_serial : option Z;
    meta_current_hash : option string;
    meta_last_update : option string;
    meta_vrp_count : option nat }.

(** What [json.load] makes of an existing file: [JSONDecodeError], or
    the document. *)
Inductive content (A : Type) : Type :=
| NotJson
| Doc (a : A).
Arguments NotJson {A}.
Arguments Doc {A} a.

(** The state directory.  [None] is a file that does not exist; the
    files in [diffs/] are looked up by name. *)
Record Disk : Type :=
  { current_snapshot_json : option (content (list VRPDict.t));
    previous_snapshot_json : option (content (list VRPDict.t));
    state_metadata_json : option (content metadata_json);
    diffs : gmap string (content diff_data) }.

(** The in-memory state of the engine object. *)
Record t : Type :=
  { current_snapshot : list VRPDict.t;
    previous_snapshot : list VRPDict.t;
    serial : Z;
    current_hash : string;
    last_update : option string }.

(** The engine together with what its methods act upon. *)
Record World : Type :=
  { self : t; disk : Disk; log : list event }.

Definition emit (e : event) (w : World) : World :=
  {| self := self w; disk := disk w; log := log w ++ [e] |}.

Definition with_self (s : t) (w : World) : World :=
  {| self := s; disk := disk w; log := log w |}.

Definition with_disk (d : Disk) (w : World) : World :=
  {| self := self w; disk := d; log := log w |}.

(** [__init__] *)
Definition init : t :=
  {| current_snapshot := []; previous_snapshot := []; serial := 0;
     current_hash := ""; last_update := None |}.

(** *** [_compute_hash] *)

(** [json.dumps] of one record with [sort_keys=True]. *)
Definition dumps_vrp (v : VRPDict.t) : string :=
  "{" +:+ Json.dumps_str "asn" +:+ ": " +:+ Json.dumps_str (VRPDict.asn v) +:+ ", " +:+
  Json.dumps_str "maxLength" +:+ ": " +:+ Py.str_of_int (VRPDict.maxLength v) +:+ ", " +:+
  Json.dumps_str "prefix" +:+ ": " +:+ Json.dumps_str (VRPDict.prefix v) +:+ ", " +:+
  Json.dumps_str "ta" +:+ ": " +:+ Json.dumps_str (VRPDict.ta v) +:+ "}".

Definition dumps (vrps : list VRPDict.t) : string :=
  "[" +:+ Json.join ", " (map dumps_vrp vrps) +:+ "]".

Definition _compute_hash (vrps : list VRPDict.t) : string :=
  let json_bytes := Json.encode (dumps vrps) in
  SHA256.hexdigest json_bytes.

(** *** [_compute_diff] *)

Definition to_key (vrp : VRPDict.t) : string :=
  VRPDict.asn vrp +:+ "|" +:+ VRPDict.prefix vrp +:+ "|" +:+
  Py.str_of_int (VRPDict.maxLength vrp).

(** The comprehension that maps [to_key(v)] to [v] for [v] in [vrps]. *)
Definition key_map (vrps : list VRPDict.t) : PyDict.t VRPDict.t :=
  fold_left (fun d v => PyDict.set d (to_key v) v) vrps [].

(** [a.keys() - b.keys()].  Python leaves the iteration order of this
    set open; the keys are listed here in the order of [a]. *)
Definition keys_minus (a b : PyDict.t VRPDict.t) : list string :=
  List.filter (fun k => negb (PyDict.contains b k)) (PyDict.keys a).

Definition _compute_diff (old_vrps new_vrps : list VRPDict.t)
  : list VRPDict.t * list VRPDict.t :=
  let old_set := key_map old_vrps in
  let new_set := key_map new_vrps in
  let added := omap (PyDict.get new_set) (keys_minus new_set old_set) in
  let removed := omap (PyDict.get old_set) (keys_minus old_set new_set) in
  (added, removed).

(** *** Persistence *)

Definition diff_name (serial : Z) : string :=
  "diff_" +:+ Py.format_010d serial +:+ ".json".

Definition write_diff (name : string) (d : diff_data) (dk : Disk) : Disk :=
  {| current_snapshot_json := current_snapshot_json dk;
     previous_snapshot_json := previous_snapshot_json dk;
     state_metadata_json := state_metadata_json dk;
     diffs := <[name := Doc d]> (diffs dk) |}.

Definition _save_diff (serial : Z) (added removed : list VRPDict.t)
    (metadata : upstream_metadata) (now : string) (w : World) : World :=
  let diff_path := diff_name serial in
  let data :=
    {| diff_serial := serial; diff_timestamp := now; diff_metadata := metadata;
       added_count := List.length added; removed_count := List.length removed;
       diff_added := added; diff_removed := removed |} in
  emit (Info_saved_diff diff_path) (with_disk (write_diff diff_path data (disk w)) w).

Definition _save_state (w : World) : World :=
  let s := self w in
  let metadata :=
    {| meta_serial := Some (serial s);
       meta_current_hash := Some (current_hash s);
       meta_last_update := last_update s;
       meta_vrp_count := Some (List.length (current_snapshot s)) |} in
  let dk :=
    {| current_snapshot_json := Some (Doc (current_snapshot s));
       previous_snapshot_json := Some (Doc (previous_snapshot s));
       state_metadata_json := Some (Doc metadata);
       diffs := diffs (disk w) |} in
  emit (Info_persisted (serial s) (Py.take 8 (current_hash s))) (with_disk dk w).

(** *** [load_state] *)

(** The metadata file is a JSON object with the two keys that
    [load_state] subscripts. *)
Definition sound_metadata (dk : Disk) : Prop :=
  exists m s h, state_metadata_json dk = Some (Doc m) /\
                meta_serial m = Some s /\ meta_current_hash m = Some h.

(** The handler of [FileNotFoundError] around the whole body. *)
Definition start_fresh (w : World) : outcome unit * World :=
  (Return tt, with_self init (emit Info_starting_fresh w)).

Definition load_state (w : World) : outcome unit * World :=
  let s := self w in
  match state_metadata_json (disk w) with
  | None => start_fresh w
  | Some NotJson => (Raise JSONDecodeError, w)
  | Some (Doc metadata) =>
      match meta_serial metadata with
      | None => (Raise (KeyError "serial"), w)
      | Some new_serial =>
          let s1 := {| current_snapshot := current_snapshot s;
                       previous_snapshot := previous_snapshot s;
                       serial := new_serial;
                       current_hash := current_hash s;
                       last_update := last_update s |} in
          match meta_current_hash metadata with
          | None => (Raise (KeyError "current_hash"), with_self s1 w)
          | Some new_hash =>
              let s2 := {| current_snapshot := current_snapshot s;
                           previous_snapshot := previous_snapshot s;
                           serial := new_serial;
                           current_hash := new_hash;
                           last_update := meta_last_update metadata |} in
              match current_snapshot_json (disk w) with
              | None => start_fresh (with_self s2 w)
              | Some NotJson => (Raise JSONDecodeError, with_self s2 w)
              | Some (Doc current) =>
                  let s3 prev := {| current_snapshot := current;
                                    previous_snapshot := prev;
                                    serial := new_serial;
                                    current_hash := new_hash;
                                    last_update := meta_last_update metadata |} in
                  let loaded prev :=
                    (Return tt,
                     emit (Info_loaded new_serial (List.length current) (Py.take 8 new_hash))
                          (with_self (s3 prev) w)) in
                  match previous_snapshot_json (disk w) with
                  | None => loaded []
                  | Some NotJson =>
                      (Raise JSONDecodeError, with_self (s3 (previous_snapshot s)) w)
                  | Some (Doc previous) => loaded previous
                  end
              end
          end
      end
  end.

(** *** [process_snapshot]

    [now_update] and [now_diff] are the two readings of the clock, the
    first for [last_update], the second inside [_save_diff]. *)
Definition process_snapshot (vrps : list VRPDict.t) (metadata : upstream_metadata)
    (now_update now_diff : string) (w : World) : bool * World :=
  let new_hash := _compute_hash vrps in
  if String.eqb new_hash (current_hash (self w)) then
    (false, emit Info_hash_unchanged w)
  else
    let w := emit (Info_hash_changed (Py.take 8 (current_hash (self w)))
                                     (Py.take 8 new_hash)) w in
    let '(added, removed) := _compute_diff (current_snapshot (self w)) vrps in
    let w := emit (Info_diff (List.length added) (List.length removed)) w in
    let new_serial := serial (self w) + 1 in
    let w := with_self {| previous_snapshot := current_snapshot (self w);
                          current_snapshot := vrps;
                          serial := new_serial;
                          current_hash := new_hash;
                          last_update := Some now_update |} w in
    let w := _save_diff new_serial added removed metadata now_diff w in
    let w := _save_state w in
    let w := emit (Info_accepted (serial (self w))) w in
    (true, w).

(** *** [get_current_state] and [get_diff] *)

Record current_state : Type :=
  { state_serial : Z;
    vrp_count : nat;
    state_hash : string;
    state_last_update : option string;
    vrps : list VRPDict.t }.

Definition get_current_state (w : World) : current_state :=
  {| state_serial := serial (self w);
     vrp_count := List.length (current_snapshot (self w));
     state_hash := current_hash (self w);
     state_last_update := last_update (self w);
     vrps := current_snapshot (self w) |}.

(** The longest file name, in characters, that [open] takes: above it
    the call fails with [OSError] (errno [ENAMETOOLONG]), which is not a
    [FileNotFoundError]. *)
Definition NAME_MAX : nat := 255.

(** [Return None] is the [None] result, [Return (Some d)] a diff. *)
Definition get_diff (from_serial to_serial : Z) (w : World)
  : outcome (option diff_data) * World :=
  if to_serial <? from_serial then (Return None, w)
  else if negb (to_serial - from_serial =? 1) then
    (Return None, emit (Warning_multi_step from_serial to_serial) w)
  else
    let diff_path := diff_name to_serial in
    if Nat.ltb NAME_MAX (String.length diff_path) then (Raise OSError, w)
    else
      match diffs (disk w) !! diff_path with
      | Some (Doc d) => (Return (Some d), w)
      | Some NotJson => (Raise JSONDecodeError, w)
      | None => (Return None, emit (Warning_diff_not_found diff_path) w)
      end.

End DiffEngine.

(** ** [class VRPLoader] *)

Module VRPLoader.

(** [VRPMetadata]: the validator of ['generated']. *)
Definition validate_timestamp (v : Z) : option Z :=
  if v <=? 0 then None else Some v.

(** The JSON document served by the validator, and the
    [RoutinagorVRPResponse] built from it. *)
Record response_json : Type :=
  { json_generated : Z; json_roas : list VRPDict.t }.

Record RoutinagorVRPResponse : Type :=
  { metadata_generated : Z; roas : list VRPEntry.t }.

(** What [session.get] and [response.json()] come back with. *)
Inductive http_result : Type :=
| Timeout
| ConnectionError
| Response (status_code : Z) (body : option response_json).

(** The sort key [(x['prefix'], x['asn'], x['maxLength'])] and the
    order of Python tuples on it. *)
Definition sort_key (x : VRPDict.t) : string * string * Z :=
  (VRPDict.prefix x, VRPDict.asn x, VRPDict.maxLength x).

Definition tuple_lt (a b : string * string * Z) : bool :=
  let '(p1, a1, m1) := a in
  let '(p2, a2, m2) := b in
  if negb (String.eqb p1 p2) then String.ltb p1 p2
  else if negb (String.eqb a1 a2) then String.ltb a1 a2
  else m1 <? m2.

Definition key_lt (x y : VRPDict.t) : bool := tuple_lt (sort_key x) (sort_key y).

(** The canonical form of an entry, read back from the dictionary that
    [canonicalize_vrps] stores for it. *)
Definition key_of_dict (d : VRPDict.t) : string :=
  VRPDict.asn d +:+ "|" +:+ VRPDict.prefix d +:+ "|" +:+
  Py.str_of_int (VRPDict.maxLength d) +:+ "|" +:+ VRPDict.ta d.

(** Every entry of the dictionary sits under the key read back from its
    value. *)
Definition well_keyed (m : PyDict.t VRPDict.t) : Prop :=
  PyDict.keys m = map key_of_dict (PyDict.values m).

Section WithIpaddress.

Variable ip_network : string -> option string.

(** Construction of the response model: [None] is [ValidationError],
    raised when a validator of an element fails. *)
Definition parse_response (data : response_json) : option RoutinagorVRPResponse :=
  g ← validate_timestamp (json_generated data);
  entries ← mapM (VRPEntry.make ip_network) (json_roas data);
  Some {| metadata_generated := g; roas := entries |}.

Definition fetch_vrps (http : http_result)
  : option RoutinagorVRPResponse * list event :=
  match http with
  | Timeout => (None, [Info_fetching; Error_timeout])
  | ConnectionError => (None, [Info_fetching; Error_connection])
  | Response status_code body =>
      if negb (status_code =? 200) then
        (None, [Info_fetching; Error_http_status status_code])
      else
        match body with
        | None => (None, [Info_fetching; Error_invalid_json])
        | Some data =>
            match parse_response data with
            | None => (None, [Info_fetching; Error_schema_validation])
            | Some vrp_response =>
                (Some vrp_response,
                 [Info_fetching; Info_fetched (List.length (roas vrp_response))])
            end
        end
  end.

(** The dictionary stored for [vrp] in [canonical_map]. *)
Definition as_dict (vrp : VRPEntry.t) : option VRPDict.t :=
  normalized ← ip_network (VRPEntry.prefix vrp);
  Some {| VRPDict.asn := VRPEntry.asn vrp;
          VRPDict.prefix := normalized;
          VRPDict.maxLength := VRPEntry.maxLength vrp;
          VRPDict.ta := VRPEntry.ta vrp |}.

(** The loop of [canonicalize_vrps] over [vrps], filling
    [canonical_map]. *)
Fixpoint fill (canonical_map : PyDict.t VRPDict.t) (vrps : list VRPEntry.t)
  : option (PyDict.t VRPDict.t) :=
  match vrps with
  | [] => Some canonical_map
  | vrp :: rest =>
      canonical_key ← VRPEntry.canonicalize ip_network vrp;
      if PyDict.contains canonical_map canonical_key then fill canonical_map rest
      else
        d ← as_dict vrp;
        fill (PyDict.set canonical_map canonical_key d) rest
  end.

(** The canonical list and the log lines written on the way; [None]
    when [ip_network] raises. *)
Definition canonicalize_vrps (vrps : list VRPEntry.t)
  : option (list VRPDict.t * list event) :=
  canonical_map ← fill [] vrps;
  let canonical_list := PySort.sorted key_lt (PyDict.values canonical_map) in
  let original_count := List.length vrps in
  let deduplicated_count := List.length canonical_list in
  Some (canonical_list,
        if negb (Nat.eqb original_count deduplicated_count)
        then [Info_deduplicated original_count deduplicated_count]
        else []).

(** Two dictionaries of the batch that have the same sort key, or the
    same canonical form, are the same dictionary. *)
Definition keys_tell_apart (vrps : list VRPEntry.t) : Prop :=
  forall v1 v2 d1 d2,
    v1 ∈ vrps -> v2 ∈ vrps ->
    as_dict v1 = Some d1 -> as_dict v2 = Some d2 ->
    sort_key d1 = sort_key d2 \/ key_of_dict d1 = key_of_dict d2 ->
    d1 = d2.

(** The first entry of [vrps] whose canonical form is [key]. *)
Definition first_seen (key : string) (vrps : list VRPEntry.t) : option VRPEntry.t :=
  find (fun v => match VRPEntry.canonicalize ip_network v with
                 | Some k => String.eqb k key
                 | None => false
                 end) vrps.

Definition emit_all (es : list event) (w : DiffEngine.World) : DiffEngine.World :=
  fold_left (fun w e => DiffEngine.emit e w) es w.

(** [fetch_and_process].  [now_fetched], [now_update] and [now_diff]
    are the readings of the clock in the order they are taken. *)
Definition fetch_and_process (http : http_result)
    (now_fetched now_update now_diff : string) (w : DiffEngine.World)
  : outcome bool * DiffEngine.World :=
  let '(vrp_response, es) := fetch_vrps http in
  let w := emit_all es w in
  match vrp_response with
  | None => (Return false, DiffEngine.emit Warning_keeping_last_snapshot w)
  | Some vrp_response =>
      match canonicalize_vrps (roas vrp_response) with
      | None => (Raise ValueError, w)
      | Some (canonical_vrps, es) =>
          let w := emit_all es w in
          let metadata :=
            {| DiffEngine.generated := metadata_generated vrp_response;
               DiffEngine.fetched_at := now_fetched |} in
          let '(success, w) :=
            DiffEngine.process_snapshot canonical_vrps metadata now_update now_diff w in
          if success
          then (Return true, DiffEngine.emit Info_snapshot_processed w)
          else (Return false, DiffEngine.emit Warning_snapshot_rejected w)
      end
  end.

End WithIpaddress.

End VRPLoader.

(** ** An instance of [ip_network]

    [ipaddress.ip_network(v, strict=True)] followed by [str] on the text
    of an IPv4 network: four decimal octets without leading zeros, then
    nothing (a host route), a prefix length in ASCII digits, a netmask or a
    host mask; no bit of the address may be set beyond the prefix length.
    Text that is not an IPv4 network is answered with [None]: IPv6 is not
    covered by the instance. *)

Module Ipv4.

(** The text before the first [sep], and the text after it if there is
    one. *)
Fixpoint split_at (sep : ascii) (s : string) : string * option string :=
  match s with
  | EmptyString => (EmptyString, None)
  | String c s' =>
      if Ascii.eqb c sep then (EmptyString, Some s')
      else let '(a, b) := split_at sep s' in (String c a, b)
  end.

Fixpoint all_digits (s : string) : bool :=
  match s with
  | EmptyString => true
  | String c s' => Py.is_digit c && all_digits s'
  end.

Fixpoint digits_value (acc : Z) (s : string) : Z :=
  match s with
  | EmptyString => acc
  | String c s' => digits_value (10 * acc + Py.digit_val c) s'
  end.

Definition _parse_octet (octet_str : string) : option Z :=
  if Nat.eqb (String.length octet_str) 0 then None
  else if negb (all_digits octet_str) then None
  else if Nat.ltb 3 (String.length octet_str) then None
  else if negb (String.eqb octet_str "0") && Py.startswith octet_str "0" then None
  else let octet_int := digits_value 0 octet_str in
       if octet_int >? 255 then None else Some octet_int.

Definition _ip_int_from_string (ip_str : string) : option Z :=
  let '(o1, r1) := split_at "." ip_str in
  r1 ← r1;
  let '(o2, r2) := split_at "." r1 in
  r2 ← r2;
  let '(o3, r3) := split_at "." r2 in
  r3 ← r3;
  let '(o4, r4) := split_at "." r3 in
  match r4 with
  | Some _ => None
  | None =>
      a ← _parse_octet o1; b ← _parse_octet o2;
      c ← _parse_octet o3; d ← _parse_octet o4;
      Some (((a * 256 + b) * 256 + c) * 256 + d)
  end.

Definition _prefix_from_prefix_string (prefixlen_str : string) : option Z :=
  if Nat.eqb (String.length prefixlen_str) 0 || negb (all_digits prefixlen_str) then None
  else let prefixlen := digits_value 0 prefixlen_str in
       if prefixlen >? 32 then None else Some prefixlen.

(** The length [n] such that [ip_int] is [n] ones followed by zeros. *)
Definition _prefix_from_ip_int (ip_int : Z) : option Z :=
  find (fun n => ip_int =? 2 ^ 32 - 2 ^ (32 - n)) (map Z.of_nat (seq 0 33)).

Definition _prefix_from_ip_string (ip_str : string) : option Z :=
  ip_int ← _ip_int_from_string ip_str;
  match _prefix_from_ip_int ip_int with
  | Some n => Some n
  | None => _prefix_from_ip_int (Z.lxor ip_int 0xffffffff)
  end.

Definition _make_netmask (arg : string) : option Z :=
  match _prefix_from_prefix_string arg with
  | Some n => Some n
  | None => _prefix_from_ip_string arg
  end.

Definition dotted (ip : Z) : string :=
  Py.str_of_int (ip / 16777216) +:+ "." +:+
  Py.str_of_int (ip / 65536 mod 256) +:+ "." +:+
  Py.str_of_int (ip / 256 mod 256) +:+ "." +:+
  Py.str_of_int (ip mod 256).

Definition ip_network (v : string) : option string :=
  let '(addr, rest) := split_at "/" v in
  mask ← match rest with
         | None => Some "32"
         | Some m => if existsb (Ascii.eqb "/") (list_ascii_of_string m)
                     then None else Some m
         end;
  packed ← _ip_int_from_string addr;
  prefixlen ← _make_netmask mask;
  if negb (packed mod 2 ^ (32 - prefixlen) =? 0) then None
  else Some (dotted packed +:+ "/" +:+ Py.str_of_int prefixlen).

End Ipv4.

(** ** Runs of the engine and sample data *)

Module Run.

(** One call of [process_snapshot]: its arguments and the two clock
    readings. *)
Record call : Type :=
  { call_vrps : list VRPDict.t;
    call_metadata : DiffEngine.upstream_metadata;
    call_now_update : string;
    call_now_diff : string }.

Definition step (c : call) (w : DiffEngine.World) : bool * DiffEngine.World :=
  DiffEngine.process_snapshot (call_vrps c) (call_metadata c)
    (call_now_update c) (call_now_diff c) w.

(** The world after the calls of [cs], made one after the other. *)
Definition run (cs : list call) (w : DiffEngine.World) : DiffEngine.World :=
  fold_left (fun w c => snd (step c w)) cs w.

End Run.

Module Sample.

Definition empty_disk : DiffEngine.Disk :=
  {| DiffEngine.current_snapshot_json := None;
     DiffEngine.previous_snapshot_json := None;
     DiffEngine.state_metadata_json := None;
     DiffEngine.diffs := ∅ |}.

(** A new engine on an empty state directory. *)
Definition fresh : DiffEngine.World :=
  {| DiffEngine.self := DiffEngine.init;
     DiffEngine.disk := empty_disk;
     DiffEngine.log := [] |}.

(** Two upstream records that differ in the trust anchor only, and a
    third one. *)
Definition roa_ta1 : VRPDict.t := VRPDict.Build "AS1" "10.0.0.0/24" 24 "ta1".
Definition roa_ta2 : VRPDict.t := VRPDict.Build "AS1" "10.0.0.0/24" 24 "ta2".
Definition roa_as2 : VRPDict.t := VRPDict.Build "AS2" "10.1.0.0/24" 24 "ta1".
Definition roa_host_bits : VRPDict.t := VRPDict.Build "AS1" "10.0.0.1/24" 24 "ta1".

Definition entry_ta1 : VRPEntry.t := VRPEntry.Build "AS1" "10.0.0.0/24" 24 "ta1".
Definition entry_ta2 : VRPEntry.t := VRPEntry.Build "AS1" "10.0.0.0/24" 24 "ta2".
Definition entry_as2 : VRPEntry.t := VRPEntry.Build "AS2" "10.1.0.0/24" 24 "ta1".

Definition batch (roas : list VRPDict.t) : VRPLoader.http_result :=
  VRPLoader.Response 200
    (Some {| VRPLoader.json_generated := 1700000000; VRPLoader.json_roas := roas |}).

Definition upstream : DiffEngine.upstream_metadata :=
  {| DiffEngine.generated := 1700000000; DiffEngine.fetched_at := "2024-01-01T00:00:00" |}.

(** The world after the batch [roa_ta1; roa_ta2] has gone through
    [fetch_and_process] on a new engine. *)
Definition after_first_batch : DiffEngine.World :=
  snd (VRPLoader.fetch_and_process Ipv4.ip_network (batch [roa_ta1; roa_ta2])
         "2024-01-01T00:00:00" "2024-01-01T00:00:01" "2024-01-01T00:00:02" fresh).

(** The diff record that the first batch leaves in
    [diffs/diff_0000000001.json]. *)
Definition first_diff : DiffEngine.diff_data :=
  {| DiffEngine.diff_serial := 1;
     DiffEngine.diff_timestamp := "2024-01-01T00:00:02";
     DiffEngine.diff_metadata := upstream;
     DiffEngine.added_count := 1;
     DiffEngine.removed_count := 0;
     DiffEngine.diff_added := [roa_ta2];
     DiffEngine.diff_removed := [] |}.

(** A state directory whose metadata file is sound and whose current
    snapshot file is gone. *)
Definition disk_without_current : DiffEngine.Disk :=
  {| DiffEngine.current_snapshot_json := None;
     DiffEngine.previous_snapshot_json := Some (DiffEngine.Doc []);
     DiffEngine.state_metadata_json :=
       Some (DiffEngine.Doc
               {| DiffEngine.meta_serial := Some 7;
                  DiffEngine.meta_current_hash :=
                    Some (DiffEngine._compute_hash [roa_ta1]);
                  DiffEngine.meta_last_update := Some "2024-01-01T00:00:01";
                  DiffEngine.meta_vrp_count := Some 1%nat |});
     DiffEngine.diffs := ∅ |}.

Definition world_without_current : DiffEngine.World :=
  {| DiffEngine.self := DiffEngine.init;
     DiffEngine.disk := disk_without_current;
     DiffEngine.log := [] |}.

End Sample.

(** ** [class RPKIBackend]

    The start of [run] in [src/backend/main.py] and the fetches of its
    polling loop.  The clock of the loop decides when a fetch is made, not
    what it does: a run is given by the answers of the upstream to the
    fetches that are made. *)

Module RPKIBackend.

(** The calls of the [logger] of [main.py] between the banner and the
    shutdown. *)
Inductive event : Type :=
| Info_loaded_existing_state
| Warning_no_existing_state (e : exn)
| Info_performing_initial_fetch
| Error_initial_fetch_failed (e : exn)
| Info_starting_scheduled_fetch
| Error_in_main_loop (e : exn).

(** One fetch: the answer of the upstream and the three readings of the
    clock. *)
Record fetch : Type :=
  { fetch_http : VRPLoader.http_result;
    now_fetched : string;
    now_update : string;
    now_diff : string }.

(** [DiffEngine(state_dir, metrics)] on the state directory [dk]. *)
Definition new_engine (dk : DiffEngine.Disk) : DiffEngine.World :=
  {| DiffEngine.self := DiffEngine.init; DiffEngine.disk := dk; DiffEngine.log := [] |}.

Section WithIpaddress.

Variable ip_network : string -> option string.

Definition fetch_and_process (f : fetch) (w : DiffEngine.World)
  : outcome bool * DiffEngine.World :=
  VRPLoader.fetch_and_process ip_network
    (fetch_http f) (now_fetched f) (now_update f) (now_diff f) w.

(** [run] up to the polling loop: [load_state] and the initial fetch,
    each inside its [try]. *)
Definition startup (dk : DiffEngine.Disk) (first : fetch)
  : DiffEngine.World * list event :=
  let w := new_engine dk in
  let '(loaded, w) := DiffEngine.load_state w in
  let es := match loaded with
            | Return _ => [Info_loaded_existing_state]
            | Raise e => [Warning_no_existing_state e]
            end in
  let es := es ++ [Info_performing_initial_fetch] in
  let '(fetched, w) := fetch_and_process first w in
  (w, match fetched with
      | Return _ => es
      | Raise e => es ++ [Error_initial_fetch_failed e]
      end).

(** A turn of the loop in which the poll interval has passed. *)
Definition scheduled_fetch (f : fetch) (st : DiffEngine.World * list event)
  : DiffEngine.World * list event :=
  let '(w, es) := st in
  let es := es ++ [Info_starting_scheduled_fetch] in
  let '(fetched, w) := fetch_and_process f w in
  (w, match fetched with
      | Return _ => es
      | Raise e => es ++ [Error_in_main_loop e]
      end).

Definition run (dk : DiffEngine.Disk) (first : fetch) (polls : list fetch)
  : DiffEngine.World * list event :=
  fold_left (fun st f => scheduled_fetch f st) polls (startup dk first).

End WithIpaddress.

End RPKIBackend.

(** ** [class APIServer]

    The routes of [src/backend/api_server.py] as functions of the request
    and of the engine.  A response is the object given to [jsonify] and
    the status code.  [request.args] is the list of the query parameters
    in the order of the URL, of which [get] takes the first value of a
    name; the body of a [POST] is a JSON object whose values are text. *)

Module APIServer.

Inductive body : Type :=
| Body_error (error : string)
| Body_health (status : string) (serial : Z) (vrp_count : nat)
    (last_update : option string)
| Body_state (serial : Z) (vrp_count : nat) (hash : string)
    (last_update : option string)
| Body_vrps (serial : Z) (total_vrps filtered_vrps : nat)
    (last_update : option string) (vrps : list VRPDict.t)
| Body_diff (diff : DiffEngine.diff_data)
| Body_validation (asn prefix : string) (valid : bool)
    (matching_vrps : list VRPDict.t) (serial : Z).

Definition response : Type := body * Z.

Definition health (w : DiffEngine.World) : response :=
  let state := DiffEngine.get_current_state w in
  (Body_health "healthy" (DiffEngine.state_serial state) (DiffEngine.vrp_count state)
     (DiffEngine.state_last_update state), 200).

Definition get_state (w : DiffEngine.World) : response :=
  let state := DiffEngine.get_current_state w in
  (Body_state (DiffEngine.state_serial state) (DiffEngine.vrp_count state)
     (DiffEngine.state_hash state) (DiffEngine.state_last_update state), 200).

(** [if f: vrps = [v for v in vrps if field(v) == f]]: a parameter that
    is absent or empty does not filter. *)
Definition filter_by (field : VRPDict.t -> string) (f : option string)
    (vrps : list VRPDict.t) : list VRPDict.t :=
  match f with
  | Some text =>
      if negb (String.eqb text "")
      then List.filter (fun v => String.eqb (field v) text) vrps
      else vrps
  | None => vrps
  end.

Definition get_vrps (request_args : PyDict.t string) (w : DiffEngine.World) : response :=
  let state := DiffEngine.get_current_state w in
  let asn_filter := PyDict.get request_args "asn" in
  let prefix_filter := PyDict.get request_args "prefix" in
  let vrps := DiffEngine.vrps state in
  let vrps := filter_by VRPDict.asn asn_filter vrps in
  let vrps := filter_by VRPDict.prefix prefix_filter vrps in
  (Body_vrps (DiffEngine.state_serial state) (DiffEngine.vrp_count state)
     (List.length vrps) (DiffEngine.state_last_update state) vrps, 200).

(** [int(request.args.get(name, 0))] *)
Definition int_arg (request_args : PyDict.t string) (name : string) : option Z :=
  match PyDict.get request_args name with
  | Some text => Py.int_of_str text
  | None => Some 0
  end.

Definition get_diff (request_args : PyDict.t string) (w : DiffEngine.World)
  : outcome response * DiffEngine.World :=
  match int_arg request_args "from", int_arg request_args "to" with
  | Some from_serial, Some to_serial =>
      let '(diff, w) := DiffEngine.get_diff from_serial to_serial w in
      match diff with
      | Raise e => (Raise e, w)
      | Return None => (Return (Body_error "Diff not found", 404), w)
      | Return (Some d) => (Return (Body_diff d, 200), w)
      end
  | _, _ => (Return (Body_error "Invalid serial parameters", 400), w)
  end.

(** The text with ['AS'] in front unless it starts with it. *)
Definition with_as (asn : string) : string :=
  if negb (Py.startswith asn "AS") then "AS" +:+ asn else asn.

Definition has_key (data : gmap string string) (key : string) : bool :=
  bool_decide (is_Some (data !! key)).

(** [data[key]] *)
Definition subscript (data : gmap string string) (key : string) : outcome string :=
  match data !! key with
  | Some v => Return v
  | None => Raise (KeyError key)
  end.

Definition validate_route (data : gmap string string) (w : DiffEngine.World)
  : outcome response :=
  if bool_decide (data = ∅) || negb (has_key data "asn") || negb (has_key data "prefix")
  then Return (Body_error "Missing asn or prefix", 400)
  else
    match subscript data "asn" with
    | Raise e => Raise e
    | Return asn =>
        match subscript data "prefix" with
        | Raise e => Raise e
        | Return prefix =>
            let asn := with_as asn in
            let state := DiffEngine.get_current_state w in
            let matching_vrps :=
              List.filter (fun vrp => String.eqb (VRPDict.asn vrp) asn &&
                                      String.eqb (VRPDict.prefix vrp) prefix)
                          (DiffEngine.vrps state) in
            Return (Body_validation asn prefix (Nat.ltb 0 (List.length matching_vrps))
                      matching_vrps (DiffEngine.state_serial state), 200)
        end
    end.

(** The handler of status 500 answers for a route that raised. *)
Definition internal_error (r : outcome response) : response :=
  match r with
  | Return answer => answer
  | Raise _ => (Body_error "Internal server error", 500)
  end.

End APIServer.

(** ** State directories and serials that the properties are tried on *)

Module Scenario.

(** A state directory at serial 7 from which the file of the current
    snapshot has gone: the metadata, the previous snapshot and the diff
    of serial 1 are there. *)
Definition disk_at_serial_7 : DiffEngine.Disk :=
  {| DiffEngine.current_snapshot_json := None;
     DiffEngine.previous_snapshot_json := Some (DiffEngine.Doc []);
     DiffEngine.state_metadata_json :=
       Some (DiffEngine.Doc
               {| DiffEngine.meta_serial := Some 7;
                  DiffEngine.meta_current_hash :=
                    Some (DiffEngine._compute_hash [Sample.roa_ta1]);
                  DiffEngine.meta_last_update := Some "2024-01-01T00:00:01";
                  DiffEngine.meta_vrp_count := Some 1%nat |});
     DiffEngine.diffs := {[ "diff_0000000001.json" := DiffEngine.Doc Sample.first_diff ]} |}.

(** The least serial whose diff file has a name of more than
    [NAME_MAX] characters: 1 followed by 245 zeros. *)
Definition long_serial : Z := 10 ^ 245.

(** A state directory whose metadata holds the hash of the list
    [roa_ta1; roa_ta2] and whose current snapshot file holds [roa_ta1]
    only. *)
Definition disk_with_stale_snapshot : DiffEngine.Disk :=
  {| DiffEngine.current_snapshot_json := Some (DiffEngine.Doc [Sample.roa_ta1]);
     DiffEngine.previous_snapshot_json := Some (DiffEngine.Doc []);
     DiffEngine.state_metadata_json :=
       Some (DiffEngine.Doc
               {| DiffEngine.meta_serial := Some 1;
                  DiffEngine.meta_current_hash :=
                    Some (DiffEngine._compute_hash [Sample.roa_ta1; Sample.roa_ta2]);
                  DiffEngine.meta_last_update := Some "2024-01-01T00:00:01";
                  DiffEngine.meta_vrp_count := Some 2%nat |});
     DiffEngine.diffs := ∅ |}.

(** A state directory whose metadata holds serial 1 and the hash of the
    list [roa_ta1; roa_ta2], and whose current snapshot file is not
    JSON. *)
Definition disk_with_corrupt_snapshot : DiffEngine.Disk :=
  {| DiffEngine.current_snapshot_json := Some DiffEngine.NotJson;
     DiffEngine.previous_snapshot_json := Some (DiffEngine.Doc []);
     DiffEngine.state_metadata_json :=
       Some (DiffEngine.Doc
               {| DiffEngine.meta_serial := Some 1;
                  DiffEngine.meta_current_hash :=
                    Some (DiffEngine._compute_hash [Sample.roa_ta1; Sample.roa_ta2]);
                  DiffEngine.meta_last_update := Some "2024-01-01T00:00:01";
                  DiffEngine.meta_vrp_count := Some 2%nat |});
     DiffEngine.diffs := ∅ |}.

(** The fetch of the batch [roa_ta1; roa_ta2] at the given hour of
    2024-01-01. *)
Definition fetch_at (hour : string) : RPKIBackend.fetch :=
  {| RPKIBackend.fetch_http := Sample.batch [Sample.roa_ta1; Sample.roa_ta2];
     RPKIBackend.now_fetched := "2024-01-01T" +:+ hour +:+ ":00:00";
     RPKIBackend.now_update := "2024-01-01T" +:+ hour +:+ ":00:01";
     RPKIBackend.now_diff := "2024-01-01T" +:+ hour +:+ ":00:02" |}.

End Scenario.

(** * Properties *)

(** ** Text *)

Lemma string_app_cons (c : ascii) (s1 s2 : string) :
  String c s1 +:+ s2 = String c (s1 +:+ s2).
Proof. reflexivity. Qed.

Lemma string_length_app (s1 s2 : string) :
  String.length (s1 +:+ s2) = (String.length s1 + String.length s2)%nat.
Proof.
  induction s1 as [|c s1 IH]; [reflexivity|].
  rewrite string_app_cons. simpl. now rewrite IH.
Qed.

Lemma string_app_assoc (s1 s2 s3 : string) :
  (s1 +:+ s2) +:+ s3 = s1 +:+ (s2 +:+ s3).
Proof.
  induction s1 as [|c s1 IH]; [reflexivity|].
  rewrite !string_app_cons. now rewrite IH.
Qed.

Lemma hex_fixed_length (w : nat) (n : Z) : String.length (Py.hex_fixed w n) = w.
Proof.
  revert n. induction w as [|w IH]; intros n; simpl; [reflexivity|].
  rewrite string_length_app, IH. simpl. lia.
Qed.

(** A digest is rendered on 64 hexadecimal digits, whatever the message. *)
Lemma hexdigest_length (data : list Z) : String.length (SHA256.hexdigest data) = 64%nat.
Proof.
  unfold SHA256.hexdigest. cbv zeta.
  repeat rewrite string_length_app. repeat rewrite hex_fixed_length. reflexivity.
Qed.

Lemma compute_hash_nonempty (vrps : list VRPDict.t) : DiffEngine._compute_hash vrps <> "".
Proof.
  intros H. pose proof (hexdigest_length (Json.encode (DiffEngine.dumps vrps))) as L.
  unfold DiffEngine._compute_hash in H. cbv zeta in H. rewrite H in L. discriminate L.
Qed.

(** ** Text without a bar

    The fields that precede a bar in the two keys never hold one. *)

Lemma has_bar_app (s1 s2 : string) : Py.has_bar (s1 +:+ s2) = Py.has_bar s1 || Py.has_bar s2.
Proof.
  induction s1 as [|c s1 IH]; [reflexivity|].
  rewrite string_app_cons. simpl. now rewrite IH, orb_assoc.
Qed.

(** Text without a bar, followed by a bar: the bar found first is that one. *)
Lemma split_on_bar (a a' r r' : string) :
  Py.has_bar a = false -> Py.has_bar a' = false ->
  a +:+ "|" +:+ r = a' +:+ "|" +:+ r' -> a = a' /\ r = r'.
Proof.
  revert a'. induction a as [|c a IH]; intros [|c' a'] Ha Ha' E.
  - now injection E.
  - injection E as <- _. simpl in Ha'. discriminate Ha'.
  - injection E as -> _. simpl in Ha. discriminate Ha.
  - rewrite !string_app_cons in E. injection E as <- E.
    simpl in Ha, Ha'. apply orb_false_iff in Ha as [_ Ha], Ha' as [_ Ha'].
    destruct (IH a' Ha Ha' E) as [-> ->]. auto.
Qed.

Lemma uint_no_bar (d : Decimal.uint) : Py.has_bar (NilEmpty.string_of_uint d) = false.
Proof. induction d; simpl; auto. Qed.

Lemma str_of_int_no_bar (n : Z) : Py.has_bar (Py.str_of_int n) = false.
Proof.
  unfold Py.str_of_int, NilZero.string_of_int, NilZero.string_of_uint.
  destruct (Z.to_int n) as [d|d]; destruct d; simpl; auto using uint_no_bar.
Qed.

Lemma str_of_int_inj (n n' : Z) : Py.str_of_int n = Py.str_of_int n' -> n = n'.
Proof.
  unfold Py.str_of_int. intros E. apply DecimalZ.to_int_inj.
  assert (forall z, Z.to_int z <> Decimal.Pos Decimal.Nil /\
                    Z.to_int z <> Decimal.Neg Decimal.Nil) as N.
  { intros [|p|p]; simpl; split; try discriminate;
      intros [= H]; now apply Unsigned.to_uint_nonnil in H. }
  pose proof (NilZero.isi (Z.to_int n) (proj1 (N n)) (proj2 (N n))) as H1.
  pose proof (NilZero.isi (Z.to_int n') (proj1 (N n')) (proj2 (N n'))) as H2.
  rewrite E in H1. congruence.
Qed.

Lemma space_is_no_bar (c : ascii) : Py.is_space c = true -> Ascii.eqb c "|" = false.
Proof.
  destruct (Ascii.eqb_spec c "|") as [->|]; [|reflexivity].
  intros H. vm_compute in H. discriminate H.
Qed.

Lemma digit_is_no_bar (c : ascii) : Py.is_digit c = true -> Ascii.eqb c "|" = false.
Proof.
  destruct (Ascii.eqb_spec c "|") as [->|]; [|reflexivity].
  intros H. vm_compute in H. discriminate H.
Qed.

Lemma all_space_no_bar (s : string) : Py.all_space s = true -> Py.has_bar s = false.
Proof.
  induction s as [|c s IH]; simpl; [reflexivity|].
  intros [Hc Hs]%andb_true_iff. now rewrite (space_is_no_bar c Hc), IH.
Qed.

Lemma int_digits_no_bar (k : nat) : forall (s : string) (acc n : Z),
  (String.length s <= k)%nat -> Py.int_digits acc s = Some n -> Py.has_bar s = false.
Proof.
  induction k as [|k IH]; intros s acc n Hlen H.
  - destruct s; [reflexivity | simpl in Hlen; lia].
  - destruct s as [|c s]; [reflexivity|]. simpl in Hlen. cbn [Py.int_digits] in H.
    destruct (Py.is_digit c) eqn:D.
    + simpl. rewrite (digit_is_no_bar c D). simpl. eapply IH; [|exact H]. lia.
    + destruct (Ascii.eqb_spec c "_") as [->|N].
      * destruct s as [|d s]; [discriminate H|].
        destruct (Py.is_digit d) eqn:D'; [|discriminate H].
        simpl. rewrite (digit_is_no_bar d D'). simpl.
        eapply IH; [|exact H]. simpl in Hlen. lia.
      * destruct (Py.all_space (String c s)) eqn:A; [|discriminate H].
        now apply all_space_no_bar.
Qed.

Lemma int_unsigned_no_bar (s : string) (n : Z) :
  Py.int_unsigned s = Some n -> Py.has_bar s = false.
Proof.
  destruct s as [|c s]; [discriminate|]. simpl.
  destruct (Py.is_digit c) eqn:D; [|discriminate].
  intros H. rewrite (digit_is_no_bar c D). simpl.
  now apply (int_digits_no_bar (String.length s) s (Py.digit_val c) n).
Qed.

Lemma lstrip_no_bar (s : string) : Py.has_bar (Py.lstrip s) = false -> Py.has_bar s = false.
Proof.
  induction s as [|c s IH]; simpl; [auto|].
  destruct (Py.is_space c) eqn:S; [|auto].
  intros H. now rewrite (space_is_no_bar c S), IH.
Qed.

Lemma int_of_str_no_bar (s : string) (n : Z) :
  Py.int_of_str s = Some n -> Py.has_bar s = false.
Proof.
  unfold Py.int_of_str. intros H. apply lstrip_no_bar.
  destruct (Py.lstrip s) as [|c t]; [discriminate H|].
  destruct (Ascii.eqb_spec c "+") as [->|Np].
  { simpl. now apply int_unsigned_no_bar in H. }
  destruct (Ascii.eqb_spec c "-") as [->|Nm].
  { simpl. destruct (Py.int_unsigned t) eqn:U; [|discriminate H].
    now apply int_unsigned_no_bar in U. }
  assert (Py.int_unsigned (String c t) = Some n) as U.
  { destruct c as [[|] [|] [|] [|] [|] [|] [|] [|]]; try exact H; congruence. }
  now apply int_unsigned_no_bar in U.
Qed.

Lemma startswith_AS (v : string) :
  Py.startswith v "AS" = true -> v = String "A" (String "S" (Py.drop 2 v)).
Proof.
  unfold Py.startswith.
  destruct v as [|a [|b rest]]; cbn [String.prefix]; try discriminate.
  - destruct (ascii_dec "A" a); discriminate.
  - destruct (ascii_dec "A" a) as [<-|]; [|discriminate].
    destruct (ascii_dec "S" b) as [<-|]; [|discriminate]. reflexivity.
Qed.

Lemma validate_asn_no_bar (v v' : string) :
  VRPEntry.validate_asn v = Some v' -> Py.has_bar v = false.
Proof.
  unfold VRPEntry.validate_asn.
  destruct (Py.startswith v "AS") eqn:P; cbn [negb]; [|discriminate].
  destruct (Py.int_of_str (Py.drop 2 v)) as [n|] eqn:I; [|discriminate].
  intros _. rewrite (startswith_AS v P). simpl. now apply int_of_str_no_bar in I.
Qed.

(** ** The engine *)

Section Engine.

Import DiffEngine.

Implicit Types (w : World) (vrps : list VRPDict.t) (md : upstream_metadata).

(** The two ways out of [process_snapshot]. *)
Lemma process_snapshot_rejects vrps md t1 t2 w :
  _compute_hash vrps = current_hash (self w) ->
  process_snapshot vrps md t1 t2 w = (false, emit Info_hash_unchanged w).
Proof.
  intros H. unfold process_snapshot. cbv zeta.
  now rewrite H, String.eqb_refl.
Qed.

Lemma process_snapshot_accepts vrps md t1 t2 w :
  _compute_hash vrps <> current_hash (self w) ->
  exists w',
    process_snapshot vrps md t1 t2 w = (true, w') /\
    self w' = {| current_snapshot := vrps;
                 previous_snapshot := current_snapshot (self w);
                 serial := serial (self w) + 1;
                 current_hash := _compute_hash vrps;
                 last_update := Some t1 |}.
Proof.
  intros H. unfold process_snapshot. cbv zeta.
  apply String.eqb_neq in H. rewrite H.
  destruct (_compute_diff _ _) as [added removed] eqn:E.
  eexists. split; reflexivity.
Qed.

(** What an accepted call leaves on the disk and in the log: the diff
    record under the name of the new serial, the three state files, and
    five log lines. *)
Lemma process_snapshot_accept_effect vrps md t1 t2 w :
  _compute_hash vrps <> current_hash (self w) ->
  let new_serial := serial (self w) + 1 in
  let new_hash := _compute_hash vrps in
  let added := fst (_compute_diff (current_snapshot (self w)) vrps) in
  let removed := snd (_compute_diff (current_snapshot (self w)) vrps) in
  let w' := snd (process_snapshot vrps md t1 t2 w) in
  disk w' =
    {| current_snapshot_json := Some (Doc vrps);
       previous_snapshot_json := Some (Doc (current_snapshot (self w)));
       state_metadata_json :=
         Some (Doc {| meta_serial := Some new_serial;
                      meta_current_hash := Some new_hash;
                      meta_last_update := Some t1;
                      meta_vrp_count := Some (List.length vrps) |});
       diffs :=
         <[diff_name new_serial :=
             Doc {| diff_serial := new_serial;
                    diff_timestamp := t2;
                    diff_metadata := md;
                    added_count := List.length added;
                    removed_count := List.length removed;
                    diff_added := added;
                    diff_removed := removed |}]> (diffs (disk w)) |} /\
  log w' =
    log w ++
    [Info_hash_changed (Py.take 8 (current_hash (self w))) (Py.take 8 new_hash);
     Info_diff (List.length added) (List.length removed);
     Info_saved_diff (diff_name new_serial);
     Info_persisted new_serial (Py.take 8 new_hash);
     Info_accepted new_serial].
Proof.
  intros H. cbv zeta. unfold process_snapshot. cbv zeta.
  apply String.eqb_neq in H. rewrite H.
  destruct (_compute_diff _ _) as [added removed] eqn:E.
  split; [reflexivity|]. simpl. now rewrite <- !app_assoc.
Qed.

(** Every call writes a first log line of its own. *)
Lemma process_snapshot_always_logs vrps md t1 t2 w :
  exists e rest,
    log (snd (process_snapshot vrps md t1 t2 w)) = log w ++ e :: rest /\
    (e = Info_hash_unchanged \/ exists old new, e = Info_hash_changed old new).
Proof.
  destruct (String.eqb_spec (_compute_hash vrps) (current_hash (self w))) as [E|E].
  - rewrite (process_snapshot_rejects _ md t1 t2 _ E).
    exists Info_hash_unchanged, []. split; [reflexivity | now left].
  - destruct (process_snapshot_accept_effect vrps md t1 t2 w E) as [_ L].
    cbv zeta in L. rewrite L. eexists _, _. split; [reflexivity|]. right. eauto.
Qed.

(** A rejected call leaves the engine and the disk as they are: the log
    line is all that is added. *)
Lemma rejected_call_is_noop vrps md t1 t2 w w' :
  process_snapshot vrps md t1 t2 w = (false, w') ->
  self w' = self w /\ disk w' = disk w /\ log w' = log w ++ [Info_hash_unchanged].
Proof.
  intros H.
  destruct (String.eqb_spec (_compute_hash vrps) (current_hash (self w))) as [E|E].
  - rewrite (process_snapshot_rejects _ md t1 t2 _ E) in H.
    injection H as <-. repeat split.
  - destruct (process_snapshot_accepts _ md t1 t2 _ E) as (w2 & Hw2 & _).
    rewrite Hw2 in H. discriminate H.
Qed.

Lemma step_serial (c : Run.call) w :
  serial (self (snd (Run.step c w)))
  = serial (self w) + (if fst (Run.step c w) then 1 else 0).
Proof.
  unfold Run.step.
  destruct (String.eqb_spec (_compute_hash (Run.call_vrps c)) (current_hash (self w)))
    as [E|E].
  - rewrite (process_snapshot_rejects _ _ _ _ _ E). simpl. lia.
  - destruct (process_snapshot_accepts _ (Run.call_metadata c) (Run.call_now_update c)
                (Run.call_now_diff c) _ E) as (w' & -> & Hs).
    simpl. now rewrite Hs.
Qed.

Lemma run_snoc (cs : list Run.call) (c : Run.call) w :
  Run.run (cs ++ [c]) w = snd (Run.step c (Run.run cs w)).
Proof. unfold Run.run. now rewrite fold_left_app. Qed.

Lemma run_serial_le (cs : list Run.call) w :
  serial (self w) <= serial (self (Run.run cs w)).
Proof.
  induction cs as [|c cs IH] using rev_ind; [simpl; lia|].
  rewrite run_snoc, step_serial.
  destruct (fst (Run.step c (Run.run cs w))); lia.
Qed.

Lemma run_serial_reaches (cs : list Run.call) w (s : Z) :
  serial (self w) <= s <= serial (self (Run.run cs w)) ->
  exists n, (n <= List.length cs)%nat /\ serial (self (Run.run (firstn n cs) w)) = s.
Proof.
  induction cs as [|c cs IH] using rev_ind; intros Hs.
  - exists 0%nat. simpl in *. split; [lia|]. unfold Run.run in *. simpl in *. lia.
  - rewrite run_snoc, step_serial in Hs.
    destruct (Z.eq_dec s (serial (self (Run.run (cs ++ [c]) w)))) as [->|Hne].
    + exists (List.length (cs ++ [c])). split; [lia|]. now rewrite firstn_all.
    + rewrite run_snoc, step_serial in Hne.
      destruct IH as (n & Hn & Hrun).
      { destruct (fst (Run.step c (Run.run cs w))); lia. }
      exists n. split; [rewrite length_app; simpl; lia|].
      rewrite firstn_app. replace (n - List.length cs)%nat with 0%nat by lia.
      simpl. now rewrite app_nil_r.
Qed.

End Engine.

(** ** Serial numbers *)

(** C2: a call of [process_snapshot] that returns [True] leaves the serial
    one above what it was, a call that returns [False] leaves it as it was;
    over any sequence of calls the serial never goes down, and every value
    between the first and the last serial is the serial after some prefix
    of the calls, so that none is skipped. *)
Theorem serial_advances_by_one_per_accepted_snapshot :
  (forall vrps md t1 t2 w w',
      DiffEngine.process_snapshot vrps md t1 t2 w = (true, w') ->
      DiffEngine.serial (DiffEngine.self w') = DiffEngine.serial (DiffEngine.self w) + 1) /\
  (forall vrps md t1 t2 w w',
      DiffEngine.process_snapshot vrps md t1 t2 w = (false, w') ->
      DiffEngine.serial (DiffEngine.self w') = DiffEngine.serial (DiffEngine.self w)) /\
  (forall cs w,
      DiffEngine.serial (DiffEngine.self w)
      <= DiffEngine.serial (DiffEngine.self (Run.run cs w))) /\
  (forall cs w s,
      DiffEngine.serial (DiffEngine.self w) <= s
      <= DiffEngine.serial (DiffEngine.self (Run.run cs w)) ->
      exists n, (n <= List.length cs)%nat /\
                DiffEngine.serial (DiffEngine.self (Run.run (firstn n cs) w)) = s).
Proof.
  split; [|split; [|split]].
  - intros vrps md t1 t2 w w' H.
    pose proof (step_serial (Run.Build_call vrps md t1 t2) w) as S.
    unfold Run.step in S. simpl in S. now rewrite H in S.
  - intros vrps md t1 t2 w w' H.
    apply rejected_call_is_noop in H as (-> & _). reflexivity.
  - apply run_serial_le.
  - apply run_serial_reaches.
Qed.

(** C10: an engine whose hash is still the empty string accepts every
    candidate, the empty list included, because a digest has 64
    characters; from serial 0 the call leads to serial 1 with the
    candidate as current snapshot. *)
Theorem fresh_engine_accepts_every_candidate
    (vrps : list VRPDict.t) (md : DiffEngine.upstream_metadata) (t1 t2 : string)
    (w : DiffEngine.World) :
  DiffEngine.current_hash (DiffEngine.self w) = "" ->
  DiffEngine.serial (DiffEngine.self w) = 0 ->
  String.length (DiffEngine._compute_hash vrps) = 64%nat /\
  exists w',
    DiffEngine.process_snapshot vrps md t1 t2 w = (true, w') /\
    DiffEngine.serial (DiffEngine.self w') = 1 /\
    DiffEngine.current_snapshot (DiffEngine.self w') = vrps /\
    DiffEngine.current_hash (DiffEngine.self w') = DiffEngine._compute_hash vrps.
Proof.
  intros Hh Hs. split; [apply hexdigest_length|].
  destruct (process_snapshot_accepts vrps md t1 t2 w) as (w' & Hp & Hw').
  { rewrite Hh. apply compute_hash_nonempty. }
  exists w'. rewrite Hp, Hw'. simpl. rewrite Hs. repeat split.
Qed.

(** ** Looking up a diff *)

(** While the name of the diff file is within the limit of the file
    system, [get_diff] gives a diff record only for a single step forward
    whose file is in [diffs/], and the record is the content of that file;
    for an inverted range, a range that is not one step, or a file that is
    not there, it returns [None] without raising and without touching the
    engine or the disk.  A single step to a serial whose file name is over
    the limit raises [OSError]. *)
Lemma get_diff_within_name_limit (from_serial to_serial : Z) (w : DiffEngine.World) :
  (forall d w',
      DiffEngine.get_diff from_serial to_serial w = (Return (Some d), w') ->
      to_serial - from_serial = 1 /\ to_serial >= from_serial /\
      (String.length (DiffEngine.diff_name to_serial) <= DiffEngine.NAME_MAX)%nat /\
      DiffEngine.diffs (DiffEngine.disk w) !! DiffEngine.diff_name to_serial
      = Some (DiffEngine.Doc d)) /\
  (to_serial - from_serial <> 1 \/ to_serial < from_serial \/
   ((String.length (DiffEngine.diff_name to_serial) <= DiffEngine.NAME_MAX)%nat /\
    DiffEngine.diffs (DiffEngine.disk w) !! DiffEngine.diff_name to_serial = None) ->
   exists w',
     DiffEngine.get_diff from_serial to_serial w = (Return None, w') /\
     DiffEngine.self w' = DiffEngine.self w /\ DiffEngine.disk w' = DiffEngine.disk w) /\
  (to_serial - from_serial = 1 ->
   (DiffEngine.NAME_MAX < String.length (DiffEngine.diff_name to_serial))%nat ->
   DiffEngine.get_diff from_serial to_serial w = (Raise OSError, w)).
Proof.
  unfold DiffEngine.get_diff. split; [|split].
  - intros d w' H.
    destruct (Z.ltb_spec to_serial from_serial) as [L|L]; [discriminate H|].
    destruct (Z.eqb_spec (to_serial - from_serial) 1) as [E|E]; cbn [negb] in H;
      [|discriminate H].
    destruct (Nat.ltb_spec DiffEngine.NAME_MAX
                (String.length (DiffEngine.diff_name to_serial))) as [N|N];
      [discriminate H|].
    destruct (DiffEngine.diffs (DiffEngine.disk w) !! DiffEngine.diff_name to_serial)
      as [[|d']|] eqn:F; try discriminate H.
    injection H as -> _. repeat split; auto; lia.
  - intros H.
    destruct (Z.ltb_spec to_serial from_serial) as [L|L]; [eexists; repeat split|].
    destruct (Z.eqb_spec (to_serial - from_serial) 1) as [E|E]; cbn [negb];
      [|eexists; repeat split].
    destruct H as [H|[H|[N H]]]; [lia | lia |].
    destruct (Nat.ltb_spec DiffEngine.NAME_MAX
                (String.length (DiffEngine.diff_name to_serial))) as [N'|_]; [lia|].
    rewrite H. eexists. repeat split.
  - intros E N.
    destruct (Z.ltb_spec to_serial from_serial) as [L|L]; [lia|].
    destruct (Z.eqb_spec (to_serial - from_serial) 1) as [_|E']; [|lia]. cbn [negb].
    destruct (Nat.ltb_spec DiffEngine.NAME_MAX
                (String.length (DiffEngine.diff_name to_serial))) as [_|N']; [reflexivity|lia].
Qed.

(** ** Loading the state *)

Section LoadState.

Import DiffEngine.

(** Case analysis on everything that [load_state] reads. *)
Ltac read_disk dk :=
  let m := fresh "m" in
  destruct (state_metadata_json dk) as [[|m]|] eqn:?;
  [ | destruct (meta_serial m) eqn:?; destruct (meta_current_hash m) eqn:? | ];
  destruct (current_snapshot_json dk) as [[|?]|] eqn:?;
  destruct (previous_snapshot_json dk) as [[|?]|] eqn:?.

Lemma load_state_fresh_iff (w : World) :
  load_state w = start_fresh w
  <-> state_metadata_json (disk w) = None \/
      (sound_metadata (disk w) /\ current_snapshot_json (disk w) = None).
Proof.
  unfold load_state, start_fresh, sound_metadata, emit, with_self.
  destruct w as [s dk lg]. simpl.
  read_disk dk; simpl; split; intros H;
    try discriminate H;
    try (injection H; intros;
         match goal with
         | E : _ ++ [_] = _ ++ [_] |- _ => apply app_inj_tail in E as [_ E]; discriminate E
         end);
    try reflexivity;
    try (now left);
    try (right; split; [eauto 6 | reflexivity]);
    try (destruct H as [H|[(? & ? & ? & H1 & H2 & H3) H]]; congruence).
Qed.

Lemma load_state_raises_iff (w : World) :
  (exists e, fst (load_state w) = Raise e)
  <-> state_metadata_json (disk w) = Some NotJson \/
      (exists m, state_metadata_json (disk w) = Some (Doc m) /\
                 (meta_serial m = None \/ meta_current_hash m = None)) \/
      (sound_metadata (disk w) /\
       (current_snapshot_json (disk w) = Some NotJson \/
        (exists c, current_snapshot_json (disk w) = Some (Doc c)) /\
        previous_snapshot_json (disk w) = Some NotJson)).
Proof.
  unfold load_state, start_fresh, sound_metadata, emit, with_self.
  destruct w as [s dk lg]. simpl.
  read_disk dk; simpl; split; intros H;
    try (destruct H as [e H]; discriminate H);
    try (eexists; reflexivity);
    try (now left);
    try (right; left; eauto; fail);
    try (right; right; split; [eauto 6 | eauto]; fail);
    try (destruct H as [H|[(? & H1 & [H2|H2])|[(? & ? & ? & H1 & H2 & H3) [H|[[? H] H']]]]];
         congruence).
Qed.

Lemma load_state_loads (w : World) m s h c :
  state_metadata_json (disk w) = Some (Doc m) ->
  meta_serial m = Some s ->
  meta_current_hash m = Some h ->
  current_snapshot_json (disk w) = Some (Doc c) ->
  previous_snapshot_json (disk w) <> Some NotJson ->
  exists w',
    load_state w = (Return tt, w') /\
    disk w' = disk w /\
    self w' =
      {| current_snapshot := c;
         previous_snapshot :=
           match previous_snapshot_json (disk w) with
           | Some (Doc p) => p
           | _ => []
           end;
         serial := s;
         current_hash := h;
         last_update := meta_last_update m |}.
Proof.
  intros M S H C P. unfold load_state. rewrite M, S, H, C.
  destruct (previous_snapshot_json (disk w)) as [[|p]|]; [now destruct P| |];
    eexists; repeat split.
Qed.

End LoadState.

(** ** Validation of a batch *)

Section Validation.

Variable ip_network : string -> option string.

Lemma validate_max_length_none (v : Z) :
  VRPEntry.validate_max_length v = None <-> v < 0 \/ 128 < v.
Proof.
  unfold VRPEntry.validate_max_length.
  destruct (Z.ltb_spec v 0) as [L|L], (Z.gtb_spec v 128) as [G|G]; simpl; split;
    intros H; try discriminate H; try reflexivity; lia.
Qed.

Lemma validate_asn_none (v : string) :
  VRPEntry.validate_asn v = None
  <-> Py.startswith v "AS" = false \/
      (forall n, Py.int_of_str (Py.drop 2 v) = Some n -> n < 0 \/ 4294967295 < n).
Proof.
  unfold VRPEntry.validate_asn.
  destruct (Py.startswith v "AS"); cbn [negb].
  - destruct (Py.int_of_str (Py.drop 2 v)) as [n|].
    + destruct (Z.ltb_spec n 0) as [L|L], (Z.gtb_spec n 4294967295) as [G|G];
        cbn [orb]; split; intros H; try discriminate H; try reflexivity;
        try (right; intros n' [= <-]; lia);
        (destruct H as [H|H]; [discriminate H | destruct (H n eq_refl); lia]).
    + split; [intros _; right; intros n H; discriminate H | reflexivity].
  - split; [now left | reflexivity].
Qed.

Lemma validate_prefix_none (v : string) :
  VRPEntry.validate_prefix ip_network v = None <-> ip_network v = None.
Proof.
  unfold VRPEntry.validate_prefix. destruct (ip_network v); split; congruence.
Qed.

Lemma make_none (r : VRPDict.t) :
  VRPEntry.make ip_network r = None
  <-> VRPEntry.validate_asn (VRPDict.asn r) = None \/
      VRPEntry.validate_prefix ip_network (VRPDict.prefix r) = None \/
      VRPEntry.validate_max_length (VRPDict.maxLength r) = None.
Proof.
  unfold VRPEntry.make.
  destruct (VRPEntry.validate_asn _), (VRPEntry.validate_prefix _ _),
    (VRPEntry.validate_max_length _); split; intros H;
    try discriminate H; try reflexivity; auto;
    destruct H as [H|[H|H]]; discriminate H.
Qed.

Lemma parse_response_none (data : VRPLoader.response_json) (r : VRPDict.t) :
  r ∈ VRPLoader.json_roas data ->
  VRPEntry.make ip_network r = None ->
  VRPLoader.parse_response ip_network data = None.
Proof.
  intros Hin Hr. unfold VRPLoader.parse_response.
  destruct (VRPLoader.validate_timestamp _); simpl; [|reflexivity].
  rewrite (mapM_None_2 (VRPEntry.make ip_network) (VRPLoader.json_roas data));
    [reflexivity|].
  apply Exists_exists. exists r. split; [exact Hin | exact Hr].
Qed.

(** A failed fetch, whatever its cause, ends [fetch_and_process] before
    the engine is called. *)
Lemma failed_fetch_keeps_state http es t0 t1 t2 (w : DiffEngine.World) :
  VRPLoader.fetch_vrps ip_network http = (None, es) ->
  VRPLoader.fetch_and_process ip_network http t0 t1 t2 w
  = (Return false,
     DiffEngine.emit Warning_keeping_last_snapshot (VRPLoader.emit_all es w)).
Proof. intros H. unfold VRPLoader.fetch_and_process. now rewrite H. Qed.

End Validation.

(** C6: when one record of the batch fails a validator (its ASN lacks the
    [AS] prefix or the rest is not an integer of 32 bits without sign, its
    prefix is refused by the strict network parser, or its maxLength is
    outside 0..128) the response model is not built, [fetch_and_process]
    returns [False], the engine and the disk are what they were, and
    the only log lines are those of the loader: [process_snapshot], which
    logs on both of its paths, has not run. *)
Theorem invalid_record_rejects_whole_batch
    (ip_network : string -> option string)
    (data : VRPLoader.response_json) (r : VRPDict.t)
    (now_fetched now_update now_diff : string) (w : DiffEngine.World) :
  r ∈ VRPLoader.json_roas data ->
  (Py.startswith (VRPDict.asn r) "AS" = false \/
   (forall n, Py.int_of_str (Py.drop 2 (VRPDict.asn r)) = Some n ->
              n < 0 \/ 4294967295 < n) \/
   ip_network (VRPDict.prefix r) = None \/
   VRPDict.maxLength r < 0 \/ 128 < VRPDict.maxLength r) ->
  VRPLoader.parse_response ip_network data = None /\
  exists w',
    VRPLoader.fetch_and_process ip_network (VRPLoader.Response 200 (Some data))
      now_fetched now_update now_diff w = (Return false, w') /\
    DiffEngine.self w' = DiffEngine.self w /\
    DiffEngine.disk w' = DiffEngine.disk w /\
    DiffEngine.log w' =
      DiffEngine.log w ++
      [Info_fetching; Error_schema_validation; Warning_keeping_last_snapshot].
Proof.
  intros Hin Hbad.
  assert (VRPEntry.make ip_network r = None) as Hr.
  { apply make_none.
    destruct Hbad as [H|[H|[H|H]]].
    - left. apply validate_asn_none. now left.
    - left. apply validate_asn_none. now right.
    - right; left. now apply validate_prefix_none.
    - right; right. now apply validate_max_length_none. }
  pose proof (parse_response_none ip_network data r Hin Hr) as Hp.
  split; [exact Hp|].
  eexists. split.
  - apply failed_fetch_keeps_state. simpl. rewrite Hp. reflexivity.
  - simpl. repeat split. now rewrite <- !app_assoc.
Qed.

(** ** Dictionaries and sorting *)

Section DictFacts.

Context {V : Type}.
Implicit Types (d : PyDict.t V) (k : string) (v : V).

Lemma contains_keys d k : PyDict.contains d k = true <-> k ∈ PyDict.keys d.
Proof.
  induction d as [|[k' v'] d IH]; simpl.
  - split; [discriminate | intros H; inversion H].
  - rewrite orb_true_iff, IH, elem_of_cons.
    destruct (String.eqb_spec k' k) as [->|N].
    + split; intros _; now left.
    + split; intros [H|H]; [discriminate H | now right | congruence | now right].
Qed.

Lemma get_none_contains d k : PyDict.get d k = None <-> PyDict.contains d k = false.
Proof.
  induction d as [|[k' v'] d IH]; simpl; [tauto|].
  destruct (String.eqb k' k); simpl; [split; discriminate | exact IH].
Qed.

Lemma get_values d k v : PyDict.get d k = Some v -> v ∈ PyDict.values d.
Proof.
  induction d as [|[k' v'] d IH]; simpl; [discriminate|].
  destruct (String.eqb k' k); intros H.
  - injection H as ->. apply elem_of_cons. now left.
  - apply elem_of_cons. right. now apply IH.
Qed.

Lemma set_new d k v : PyDict.contains d k = false -> PyDict.set d k v = d ++ [(k, v)].
Proof.
  induction d as [|[k' v'] d IH]; simpl; [reflexivity|].
  destruct (String.eqb k' k); simpl; [discriminate|].
  intros H. now rewrite IH.
Qed.

Lemma get_set d k v k' :
  PyDict.get (PyDict.set d k v) k'
  = if String.eqb k k' then Some v else PyDict.get d k'.
Proof.
  induction d as [|[k0 v0] d IH]; simpl; [reflexivity|].
  destruct (String.eqb_spec k0 k) as [->|N]; simpl.
  - now destruct (String.eqb k k').
  - rewrite IH.
    destruct (String.eqb_spec k0 k') as [->|N'], (String.eqb_spec k k') as [->|N''];
      congruence.
Qed.

Lemma contains_get d k : PyDict.contains d k = true <-> exists v, PyDict.get d k = Some v.
Proof.
  destruct (PyDict.get d k) as [v|] eqn:G.
  - split; [eauto|]. intros _. apply not_false_iff_true.
    intros C. apply get_none_contains in C. congruence.
  - apply get_none_contains in G. rewrite G. split; [discriminate|]. intros [v H]. discriminate H.
Qed.

Lemma get_app_new d k v k' :
  PyDict.get (d ++ [(k, v)]) k'
  = match PyDict.get d k' with
    | Some v' => Some v'
    | None => if String.eqb k k' then Some v else None
    end.
Proof.
  induction d as [|[k0 v0] d IH]; simpl; [reflexivity|].
  destruct (String.eqb k0 k'); [reflexivity | exact IH].
Qed.

End DictFacts.

Section SortFacts.

Context {A : Type} (lt : A -> A -> bool).

Lemma insert_perm (x : A) (l : list A) : PySort.insert lt x l ≡ₚ x :: l.
Proof.
  induction l as [|y l IH]; simpl; [reflexivity|].
  destruct (lt y x); [|reflexivity].
  rewrite IH. apply Permutation_swap.
Qed.

Lemma sorted_perm (l : list A) : PySort.sorted lt l ≡ₚ l.
Proof.
  induction l as [|x l IH]; simpl; [reflexivity|].
  now rewrite insert_perm, IH.
Qed.

Lemma sorted_length (l : list A) : List.length (PySort.sorted lt l) = List.length l.
Proof. apply Permutation_length, sorted_perm. Qed.

End SortFacts.

(** ** The order of sort keys *)

Lemma string_ltb_compare (a b : string) : String.ltb a b = true <-> String.compare a b = Lt.
Proof. unfold String.ltb. destruct (String.compare a b); split; congruence. Qed.

Lemma string_compare_refl (a : string) : String.compare a a = Eq.
Proof.
  pose proof (String.compare_antisym a a) as H.
  destruct (String.compare a a); [reflexivity | discriminate H | discriminate H].
Qed.

Lemma string_ltb_irrefl (a : string) : String.ltb a a = false.
Proof. unfold String.ltb. now rewrite string_compare_refl. Qed.

Lemma string_ltb_total (a b : string) : a <> b -> String.ltb a b = false -> String.ltb b a = true.
Proof.
  intros N H. unfold String.ltb in *. rewrite (String.compare_antisym b a).
  destruct (String.compare a b) eqn:C; simpl in *; try congruence.
  apply String.compare_eq_iff in C. congruence.
Qed.

Lemma string_ltb_le (a b : string) : String.ltb a b = true -> String.le a b /\ a <> b.
Proof.
  intros H. apply string_ltb_compare in H. split.
  - unfold String.le, String.leb. now rewrite H.
  - intros ->. rewrite string_compare_refl in H. discriminate H.
Qed.

Lemma string_ltb_trans (a b c : string) :
  String.ltb a b = true -> String.ltb b c = true -> String.ltb a c = true.
Proof.
  intros [Hab Nab]%string_ltb_le [Hbc Nbc]%string_ltb_le.
  destruct (String.ltb a c) eqn:L; [reflexivity|].
  destruct (string_dec a c) as [->|Nac].
  - destruct Nab. now apply (anti_symm String.le).
  - apply (string_ltb_total a c Nac) in L. apply string_ltb_le in L as [Hca _].
    destruct Nac. apply (anti_symm String.le); [|exact Hca]. now transitivity b.
Qed.

Section TupleOrder.
Import VRPLoader.
Implicit Types (a b c : string * string * Z).

Lemma tuple_lt_irrefl a : tuple_lt a a = false.
Proof.
  destruct a as [[p q] m]. unfold tuple_lt.
  rewrite !String.eqb_refl. simpl. apply Z.ltb_irrefl.
Qed.

Lemma tuple_lt_trans a b c :
  tuple_lt a b = true -> tuple_lt b c = true -> tuple_lt a c = true.
Proof.
  destruct a as [[p1 q1] m1], b as [[p2 q2] m2], c as [[p3 q3] m3]. unfold tuple_lt.
  destruct (String.eqb_spec p1 p2) as [->|P12]; simpl.
  - destruct (String.eqb_spec p2 p3) as [->|P23]; simpl; [|auto].
    destruct (String.eqb_spec q1 q2) as [->|Q12]; simpl.
    + destruct (String.eqb_spec q2 q3) as [->|Q23]; simpl; [|auto].
      intros H1%Z.ltb_lt H2%Z.ltb_lt. apply Z.ltb_lt. lia.
    + destruct (String.eqb_spec q2 q3) as [->|Q23]; simpl.
      * rewrite (proj2 (String.eqb_neq q1 q3) Q12). simpl. auto.
      * intros H1 H2. pose proof (string_ltb_trans _ _ _ H1 H2) as H3.
        destruct (String.eqb_spec q1 q3) as [->|Q13]; simpl; [|exact H3].
        now rewrite string_ltb_irrefl in H3.
  - destruct (String.eqb_spec p2 p3) as [->|P23]; simpl.
    + rewrite (proj2 (String.eqb_neq p1 p3) P12). simpl. auto.
    + intros H1 H2. pose proof (string_ltb_trans _ _ _ H1 H2) as H3.
      destruct (String.eqb_spec p1 p3) as [->|P13]; simpl; [|exact H3].
      now rewrite string_ltb_irrefl in H3.
Qed.

Lemma tuple_lt_total a b : a <> b -> tuple_lt a b = false -> tuple_lt b a = true.
Proof.
  destruct a as [[p1 q1] m1], b as [[p2 q2] m2]. unfold tuple_lt. intros N.
  destruct (String.eqb_spec p1 p2) as [->|P]; simpl.
  - rewrite String.eqb_refl. simpl.
    destruct (String.eqb_spec q1 q2) as [->|Q]; simpl.
    + rewrite String.eqb_refl. simpl.
      intros H%Z.ltb_ge. apply Z.ltb_lt.
      assert (m1 <> m2) by congruence. lia.
    + rewrite (proj2 (String.eqb_neq q2 q1)) by congruence. simpl.
      now apply string_ltb_total.
  - rewrite (proj2 (String.eqb_neq p2 p1)) by congruence. simpl.
    now apply string_ltb_total.
Qed.

End TupleOrder.

Section SortedFacts.

Context {A : Type} (lt : A -> A -> bool).
Hypothesis lt_asym : forall x y, lt x y = true -> lt y x = false.
Hypothesis le_trans : forall x y z, lt y x = false -> lt z y = false -> lt z x = false.

(** [x] is not after [y]. *)
Local Abbreviation le := (fun x y => lt y x = false).

Lemma insert_sorted (x : A) (l : list A) :
  StronglySorted le l -> StronglySorted le (PySort.insert lt x l).
Proof.
  induction 1 as [|y l Hl IH Hy]; simpl.
  - repeat constructor.
  - destruct (lt y x) eqn:L.
    + constructor; [exact IH|].
      rewrite (insert_perm lt x l). constructor; [now apply lt_asym | exact Hy].
    + constructor; [now constructor|].
      constructor; [exact L|].
      eapply Forall_impl; [exact Hy|]. intros z Hz. simpl in *. eapply le_trans; eauto.
Qed.

Lemma sorted_sorted (l : list A) : StronglySorted le (PySort.sorted lt l).
Proof.
  induction l as [|x l IH]; simpl; [constructor | now apply insert_sorted].
Qed.

End SortedFacts.

Section KeyOrder.
Import VRPLoader.

Lemma key_lt_asym (x y : VRPDict.t) : key_lt x y = true -> key_lt y x = false.
Proof.
  unfold key_lt. intros H. destruct (tuple_lt (sort_key y) (sort_key x)) eqn:G; [|reflexivity].
  pose proof (tuple_lt_trans _ _ _ H G) as T. now rewrite tuple_lt_irrefl in T.
Qed.

Lemma key_le_trans (x y z : VRPDict.t) :
  key_lt y x = false -> key_lt z y = false -> key_lt z x = false.
Proof.
  unfold key_lt. intros Hxy Hyz.
  destruct (tuple_lt (sort_key z) (sort_key x)) eqn:Hzx; [|reflexivity].
  destruct (decide (sort_key y = sort_key x)) as [E|N].
  - rewrite E in Hyz. congruence.
  - pose proof (tuple_lt_total _ _ N Hxy) as Hxy'.
    pose proof (tuple_lt_trans _ _ _ Hzx Hxy'). congruence.
Qed.

Lemma key_le_antisym (x y : VRPDict.t) :
  key_lt y x = false -> key_lt x y = false -> sort_key x = sort_key y.
Proof.
  unfold key_lt. intros H1 H2.
  destruct (decide (sort_key x = sort_key y)) as [E|N]; [exact E|].
  pose proof (tuple_lt_total _ _ N H2). congruence.
Qed.

End KeyOrder.

(** ** The canonicaliser *)

Section Canonicaliser.

Variable ip_network : string -> option string.

Local Abbreviation valid := (VRPEntry.valid ip_network).
Local Abbreviation canonicalize := (VRPEntry.canonicalize ip_network).
Local Abbreviation as_dict := (VRPLoader.as_dict ip_network).
Local Abbreviation fill := (VRPLoader.fill ip_network).
Local Abbreviation first_seen := (VRPLoader.first_seen ip_network).
Local Abbreviation well_keyed := VRPLoader.well_keyed.

Lemma valid_prefix (v : VRPEntry.t) :
  valid v -> exists p, ip_network (VRPEntry.prefix v) = Some p.
Proof.
  unfold VRPEntry.valid, VRPEntry.make, VRPEntry.validate_prefix. simpl.
  destruct (VRPEntry.validate_asn _); [|discriminate].
  destruct (ip_network (VRPEntry.prefix v)) as [p|]; [eauto | discriminate].
Qed.

(** On an entry that passed validation the canonical form and the stored
    dictionary exist, and the form is the key read back from the
    dictionary. *)
Lemma valid_canonical (v : VRPEntry.t) :
  valid v ->
  exists k d, canonicalize v = Some k /\ as_dict v = Some d /\
              k = VRPLoader.key_of_dict d.
Proof.
  intros [p Hp]%valid_prefix.
  unfold VRPEntry.canonicalize, VRPLoader.as_dict. rewrite Hp. simpl.
  eexists _, _. repeat split.
Qed.

Lemma canonical_key_of_dict (v : VRPEntry.t) k d :
  canonicalize v = Some k -> as_dict v = Some d -> k = VRPLoader.key_of_dict d.
Proof.
  unfold VRPEntry.canonicalize, VRPLoader.as_dict.
  destruct (ip_network (VRPEntry.prefix v)); simpl; [|discriminate].
  now intros [= <-] [= <-].
Qed.

Lemma first_seen_cons (v : VRPEntry.t) (vrps : list VRPEntry.t) k0 k :
  canonicalize v = Some k0 ->
  first_seen k (v :: vrps) = if String.eqb k0 k then Some v else first_seen k vrps.
Proof. intros H. unfold VRPLoader.first_seen. simpl. now rewrite H. Qed.

Lemma first_seen_exists (vrps : list VRPEntry.t) (v : VRPEntry.t) k :
  v ∈ vrps -> canonicalize v = Some k ->
  exists v0, first_seen k vrps = Some v0 /\ v0 ∈ vrps /\ canonicalize v0 = Some k.
Proof.
  intros Hin Hk. unfold VRPLoader.first_seen.
  destruct (find _ vrps) as [v0|] eqn:F.
  - apply find_some in F as [Hin0 Hk0].
    exists v0. split; [reflexivity|]. split; [now apply list_elem_of_In|].
    destruct (canonicalize v0) as [k'|]; [|discriminate].
    apply String.eqb_eq in Hk0. now subst.
  - apply list_elem_of_In in Hin.
    pose proof (find_none _ _ F v Hin) as N. simpl in N.
    rewrite Hk, String.eqb_refl in N. discriminate N.
Qed.

Lemma well_keyed_snoc (m : PyDict.t VRPDict.t) (d : VRPDict.t) :
  well_keyed m -> well_keyed (m ++ [(VRPLoader.key_of_dict d, d)]).
Proof.
  unfold VRPLoader.well_keyed, PyDict.keys, PyDict.values.
  intros H. rewrite !map_app, H. reflexivity.
Qed.

Lemma fill_cons (m : PyDict.t VRPDict.t) (v : VRPEntry.t) (vrps : list VRPEntry.t) k0 d0 :
  canonicalize v = Some k0 -> as_dict v = Some d0 ->
  fill m (v :: vrps)
  = if PyDict.contains m k0 then fill m vrps else fill (PyDict.set m k0 d0) vrps.
Proof.
  intros Hk Hd. simpl. rewrite Hk. simpl.
  destruct (PyDict.contains m k0); [reflexivity|]. now rewrite Hd.
Qed.

(** The loop: it ends on validated entries, keys stay distinct, a key
    that was in the dictionary keeps its value, and a new key gets the
    dictionary of the first entry that has it. *)
Lemma fill_spec (vrps : list VRPEntry.t) :
  forall m : PyDict.t VRPDict.t,
    Forall valid vrps -> NoDup (PyDict.keys m) -> well_keyed m ->
    exists m',
      fill m vrps = Some m' /\
      NoDup (PyDict.keys m') /\ well_keyed m' /\
      (List.length m' <= List.length m + List.length vrps)%nat /\
      forall k,
        PyDict.get m' k
        = match PyDict.get m k with
          | Some d => Some d
          | None => first_seen k vrps ≫= as_dict
          end.
Proof.
  induction vrps as [|v vrps IH]; intros m Hv Hnd Hwk.
  - exists m. simpl. repeat split; auto; [lia|].
    intros k. now destruct (PyDict.get m k).
  - apply Forall_cons in Hv as [Hv Hvs].
    destruct (valid_canonical v Hv) as (k0 & d0 & Hk0 & Hd0 & Hkd).
    rewrite (fill_cons m v vrps k0 d0 Hk0 Hd0), length_cons.
    destruct (PyDict.contains m k0) eqn:C.
    + destruct (IH m Hvs Hnd Hwk) as (m' & Hf & Hnd' & Hwk' & Hlen & Hget).
      exists m'. repeat split; auto; [lia|].
      intros k. rewrite Hget, (first_seen_cons v vrps k0 k Hk0).
      destruct (PyDict.get m k) eqn:G; [reflexivity|].
      destruct (String.eqb_spec k0 k) as [->|N]; [|reflexivity].
      apply get_none_contains in G. congruence.
    + rewrite (set_new m k0 d0 C).
      destruct (IH (m ++ [(k0, d0)]) Hvs) as (m' & Hf & Hnd' & Hwk' & Hlen & Hget).
      { unfold PyDict.keys. rewrite map_app. simpl.
        apply NoDup_app. split; [exact Hnd|]. split; [|apply NoDup_singleton].
        intros k Hin ->%list_elem_of_singleton.
        apply contains_keys in Hin. congruence. }
      { subst k0. now apply well_keyed_snoc. }
      exists m'. repeat split; auto.
      { rewrite length_app in Hlen. simpl in *. lia. }
      intros k. rewrite Hget, get_app_new, (first_seen_cons v vrps k0 k Hk0).
      destruct (PyDict.get m k); [reflexivity|].
      destruct (String.eqb k0 k); [symmetry; exact Hd0 | reflexivity].
Qed.

Lemma canonicalize_vrps_unfold (vrps : list VRPEntry.t) m :
  fill [] vrps = Some m ->
  exists es,
    VRPLoader.canonicalize_vrps ip_network vrps
    = Some (PySort.sorted VRPLoader.key_lt (PyDict.values m), es).
Proof.
  intros H. unfold VRPLoader.canonicalize_vrps. rewrite H. simpl. eauto.
Qed.

End Canonicaliser.

(** What the canonical list is made of. *)
Lemma canonical_list_facts
    (ip_network : string -> option string) (vrps : list VRPEntry.t) :
  Forall (VRPEntry.valid ip_network) vrps ->
  exists canonical_map canonical_list es,
    VRPLoader.fill ip_network [] vrps = Some canonical_map /\
    VRPLoader.canonicalize_vrps ip_network vrps = Some (canonical_list, es) /\
    canonical_list = PySort.sorted VRPLoader.key_lt (PyDict.values canonical_map) /\
    NoDup (map VRPLoader.key_of_dict canonical_list) /\
    (forall v k,
        v ∈ vrps -> VRPEntry.canonicalize ip_network v = Some k ->
        exists v0 d0,
          VRPLoader.first_seen ip_network k vrps = Some v0 /\
          VRPLoader.as_dict ip_network v0 = Some d0 /\
          PyDict.get canonical_map k = Some d0 /\
          d0 ∈ canonical_list) /\
    (forall d,
        d ∈ canonical_list ->
        exists v, v ∈ vrps /\ VRPLoader.as_dict ip_network v = Some d) /\
    (List.length canonical_list <= List.length vrps)%nat.
Proof.
  intros Hv.
  destruct (fill_spec ip_network vrps [] Hv) as (m & Hf & Hnd & Hwk & Hlen & Hget).
  { apply NoDup_nil_2. }
  { reflexivity. }
  destruct (canonicalize_vrps_unfold ip_network vrps m Hf) as (es & Hc).
  pose proof (sorted_perm VRPLoader.key_lt (PyDict.values m)) as Hperm.
  exists m, (PySort.sorted VRPLoader.key_lt (PyDict.values m)), es.
  split; [exact Hf|]. split; [exact Hc|]. split; [reflexivity|].
  split; [|split; [|split]].
  - rewrite (Permutation_map VRPLoader.key_of_dict Hperm).
    unfold VRPLoader.well_keyed in Hwk. rewrite <- Hwk. exact Hnd.
  - intros v k Hin Hk.
    destruct (first_seen_exists ip_network vrps v k Hin Hk) as (v0 & Hfs & Hin0 & Hk0).
    rewrite Forall_forall in Hv.
    destruct (valid_canonical ip_network v0 (Hv v0 Hin0)) as (k' & d0 & Hk' & Hd0 & _).
    exists v0, d0. split; [exact Hfs|]. split; [exact Hd0|].
    assert (PyDict.get m k = Some d0) as G.
    { rewrite Hget. simpl. rewrite Hfs. simpl. exact Hd0. }
    split; [exact G|]. rewrite Hperm. eapply get_values, G.
  - intros d Hd. rewrite Hperm in Hd.
    assert (exists k, PyDict.get m k = Some d) as [k G].
    { clear -Hd Hnd. induction m as [|[k0 d0] m IH]; [inversion Hd|].
      simpl in Hd. apply elem_of_cons in Hd as [->|Hd].
      - exists k0. simpl. now rewrite String.eqb_refl.
      - simpl in Hnd. apply NoDup_cons in Hnd as [Hk0 Hnd].
        destruct (IH Hnd Hd) as [k G]. exists k. simpl.
        destruct (String.eqb_spec k0 k) as [->|N]; [|exact G].
        exfalso. apply Hk0. apply contains_keys, contains_get. eauto. }
    rewrite Hget in G. simpl in G.
    destruct (VRPLoader.first_seen ip_network k vrps) as [v|] eqn:F; [|discriminate G].
    exists v. split; [|exact G].
    apply list_elem_of_In. unfold VRPLoader.first_seen in F.
    now apply find_some in F as [F _].
  - rewrite sorted_length. unfold PyDict.values. rewrite length_map.
    simpl in Hlen. lia.
Qed.

(** When the canonical form and the sort key each tell the dictionaries
    of a batch apart, the canonical list is fixed by the set of entries:
    it is sorted, without repetition, and holds the dictionaries of the
    entries. *)
Lemma canonical_list_members
    (ip_network : string -> option string) (vrps : list VRPEntry.t)
    (l : list VRPDict.t) (es : list event) :
  Forall (VRPEntry.valid ip_network) vrps ->
  VRPLoader.keys_tell_apart ip_network vrps ->
  VRPLoader.canonicalize_vrps ip_network vrps = Some (l, es) ->
  NoDup l /\
  StronglySorted (fun x y => VRPLoader.key_lt y x = false) l /\
  forall d, d ∈ l <-> exists v, v ∈ vrps /\ VRPLoader.as_dict ip_network v = Some d.
Proof.
  intros Hv Hk Hc.
  destruct (canonical_list_facts ip_network vrps Hv)
    as (m & l' & es' & _ & Hc' & Hl' & Hnd & Hfirst & Hfrom & _).
  rewrite Hc in Hc'. injection Hc' as <- <-.
  split; [exact (NoDup_fmap_1 VRPLoader.key_of_dict _ Hnd)|].
  split.
  { rewrite Hl'. apply sorted_sorted.
    - apply key_lt_asym.
    - apply key_le_trans. }
  intros d. split; [apply Hfrom|].
  intros (v & Hin & Hd).
  rewrite Forall_forall in Hv.
  destruct (valid_canonical ip_network v (Hv v Hin)) as (k & d' & Hkv & Hd' & Hkd).
  rewrite Hd in Hd'. injection Hd' as <-.
  destruct (Hfirst v k Hin Hkv) as (v0 & d0 & Hfs & Hd0 & _ & Hin0).
  destruct (first_seen_exists ip_network vrps v k Hin Hkv) as (v0' & Hfs' & Hv0 & Hk0).
  rewrite Hfs in Hfs'. injection Hfs' as <-.
  pose proof (canonical_key_of_dict ip_network v0 k d0 Hk0 Hd0) as Hkd0.
  rewrite (Hk v v0 d d0 Hin Hv0 Hd Hd0); [exact Hin0|].
  right. congruence.
Qed.

Lemma canonicalize_vrps_permutation
    (ip_network : string -> option string) (vrps vrps' : list VRPEntry.t) :
  Forall (VRPEntry.valid ip_network) vrps ->
  VRPLoader.keys_tell_apart ip_network vrps ->
  vrps' ≡ₚ vrps ->
  VRPLoader.canonicalize_vrps ip_network vrps'
  = VRPLoader.canonicalize_vrps ip_network vrps.
Proof.
  intros Hv Hk Hp.
  assert (Forall (VRPEntry.valid ip_network) vrps') as Hv' by now rewrite Hp.
  assert (VRPLoader.keys_tell_apart ip_network vrps') as Hk'.
  { intros v1 v2 d1 d2 H1 H2. rewrite Hp in H1, H2. now apply Hk. }
  destruct (canonical_list_facts ip_network vrps Hv) as (m & l & es & _ & Hc & _).
  destruct (canonical_list_facts ip_network vrps' Hv') as (m' & l' & es' & _ & Hc' & _).
  destruct (canonical_list_members ip_network vrps l es Hv Hk Hc) as (Hnd & Hs & Hm).
  destruct (canonical_list_members ip_network vrps' l' es' Hv' Hk' Hc') as (Hnd' & Hs' & Hm').
  assert (l' = l) as ->.
  { apply (StronglySorted_unique_strong (fun x y => VRPLoader.key_lt y x = false)); auto.
    - intros x1 x2 H1 H2 L1 L2.
      apply Hm' in H1 as (v1 & Hv1 & Hd1). apply Hm in H2 as (v2 & Hv2 & Hd2).
      rewrite Hp in Hv1. apply (Hk v1 v2 x1 x2 Hv1 Hv2 Hd1 Hd2).
      left. now apply key_le_antisym.
    - apply NoDup_Permutation; auto.
      intros d. rewrite Hm, Hm'. now setoid_rewrite Hp. }
  rewrite Hc, Hc'. f_equal. f_equal.
  unfold VRPLoader.canonicalize_vrps in Hc, Hc'.
  destruct (VRPLoader.fill ip_network [] vrps); [|discriminate Hc].
  destruct (VRPLoader.fill ip_network [] vrps'); [|discriminate Hc'].
  simpl in Hc, Hc'. injection Hc as Hl <-. injection Hc' as Hl' <-.
  now rewrite Hl, Hl', (Permutation_length Hp).
Qed.

(** The same batch in another order is then rejected by the engine that
    accepted the first one. *)
Lemma content_equivalent_batch_is_rejected
    (ip_network : string -> option string) (vrps vrps' : list VRPEntry.t)
    (l : list VRPDict.t) (es : list event)
    (md md' : DiffEngine.upstream_metadata) (t1 t2 t1' t2' : string)
    (w w1 : DiffEngine.World) :
  Forall (VRPEntry.valid ip_network) vrps ->
  VRPLoader.keys_tell_apart ip_network vrps ->
  vrps' ≡ₚ vrps ->
  VRPLoader.canonicalize_vrps ip_network vrps = Some (l, es) ->
  DiffEngine.process_snapshot l md t1 t2 w = (true, w1) ->
  VRPLoader.canonicalize_vrps ip_network vrps' = Some (l, es) /\
  DiffEngine.process_snapshot l md' t1' t2' w1
  = (false, DiffEngine.emit Info_hash_unchanged w1).
Proof.
  intros Hv Hk Hp Hc Hacc.
  split; [now rewrite (canonicalize_vrps_permutation ip_network vrps vrps' Hv Hk Hp)|].
  apply process_snapshot_rejects.
  destruct (String.eqb_spec (DiffEngine._compute_hash l)
              (DiffEngine.current_hash (DiffEngine.self w))) as [E|E].
  - rewrite (process_snapshot_rejects _ md t1 t2 _ E) in Hacc. discriminate Hacc.
  - destruct (process_snapshot_accepts _ md t1 t2 _ E) as (w2 & Hw2 & Hs).
    rewrite Hw2 in Hacc. injection Hacc as <-. now rewrite Hs.
Qed.

(** C9, as the code has it: on validated entries [canonicalize_vrps]
    returns a list in which no two records have the same deduplication
    key; the record kept for a key is the one of the first entry with that
    key; every record comes from an entry.  [process_snapshot] accepts the
    list whenever its hash is not the stored hash, as on every new engine,
    and [get_current_state] then reports the list and its length as
    [vrp_count]; when the hash is the stored hash the call is rejected and
    [get_current_state] reports what it reported before. *)
Theorem canonical_list_is_deduplicated
    (ip_network : string -> option string) (vrps : list VRPEntry.t) :
  Forall (VRPEntry.valid ip_network) vrps ->
  exists canonical_map canonical_list es,
    VRPLoader.fill ip_network [] vrps = Some canonical_map /\
    VRPLoader.canonicalize_vrps ip_network vrps = Some (canonical_list, es) /\
    canonical_list ≡ₚ PyDict.values canonical_map /\
    NoDup (map VRPLoader.key_of_dict canonical_list) /\
    NoDup canonical_list /\
    (forall v k,
        v ∈ vrps -> VRPEntry.canonicalize ip_network v = Some k ->
        exists v0 d0,
          VRPLoader.first_seen ip_network k vrps = Some v0 /\
          VRPLoader.as_dict ip_network v0 = Some d0 /\
          PyDict.get canonical_map k = Some d0 /\
          d0 ∈ canonical_list) /\
    (forall d,
        d ∈ canonical_list ->
        exists v, v ∈ vrps /\ VRPLoader.as_dict ip_network v = Some d) /\
    (List.length canonical_list <= List.length vrps)%nat /\
    (forall md t1 t2 w,
        DiffEngine._compute_hash canonical_list
        <> DiffEngine.current_hash (DiffEngine.self w) ->
        exists w',
          DiffEngine.process_snapshot canonical_list md t1 t2 w = (true, w') /\
          DiffEngine.vrps (DiffEngine.get_current_state w') = canonical_list /\
          DiffEngine.vrp_count (DiffEngine.get_current_state w')
          = List.length canonical_list) /\
    (forall md t1 t2 w,
        DiffEngine.current_hash (DiffEngine.self w) = EmptyString ->
        exists w',
          DiffEngine.process_snapshot canonical_list md t1 t2 w = (true, w') /\
          DiffEngine.vrps (DiffEngine.get_current_state w') = canonical_list /\
          DiffEngine.vrp_count (DiffEngine.get_current_state w')
          = List.length canonical_list) /\
    (forall md t1 t2 w,
        DiffEngine._compute_hash canonical_list
        = DiffEngine.current_hash (DiffEngine.self w) ->
        exists w',
          DiffEngine.process_snapshot canonical_list md t1 t2 w = (false, w') /\
          DiffEngine.get_current_state w' = DiffEngine.get_current_state w) /\
    (forall md t1 t2 w w',
        DiffEngine.process_snapshot canonical_list md t1 t2 w = (true, w') ->
        DiffEngine.vrps (DiffEngine.get_current_state w') = canonical_list /\
        DiffEngine.vrp_count (DiffEngine.get_current_state w')
        = List.length canonical_list).
Proof.
  intros Hv.
  destruct (canonical_list_facts ip_network vrps Hv)
    as (m & l & es & Hf & Hc & Hl & Hnd & Hfirst & Hfrom & Hlen).
  exists m, l, es.
  split; [exact Hf|]. split; [exact Hc|].
  split; [rewrite Hl; apply sorted_perm|].
  split; [exact Hnd|].
  split; [exact (NoDup_fmap_1 VRPLoader.key_of_dict _ Hnd)|].
  split; [exact Hfirst|]. split; [exact Hfrom|]. split; [exact Hlen|].
  assert (forall md t1 t2 w,
             DiffEngine._compute_hash l <> DiffEngine.current_hash (DiffEngine.self w) ->
             exists w',
               DiffEngine.process_snapshot l md t1 t2 w = (true, w') /\
               DiffEngine.vrps (DiffEngine.get_current_state w') = l /\
               DiffEngine.vrp_count (DiffEngine.get_current_state w') = List.length l)
    as Hacc.
  { intros md t1 t2 w E.
    destruct (process_snapshot_accepts _ md t1 t2 _ E) as (w2 & Hw2 & Hs).
    exists w2. split; [exact Hw2|].
    unfold DiffEngine.get_current_state. simpl. rewrite Hs. simpl. auto. }
  split; [exact Hacc|].
  split.
  { intros md t1 t2 w E. apply Hacc. rewrite E. apply compute_hash_nonempty. }
  split.
  { intros md t1 t2 w E. eexists.
    split; [apply (process_snapshot_rejects _ md t1 t2 _ E)|reflexivity]. }
  intros md t1 t2 w w' Hp.
  destruct (String.eqb_spec (DiffEngine._compute_hash l)
              (DiffEngine.current_hash (DiffEngine.self w))) as [E|E].
  - rewrite (process_snapshot_rejects _ md t1 t2 _ E) in Hp. discriminate Hp.
  - destruct (Hacc md t1 t2 w E) as (w2 & Hw2 & H).
    rewrite Hw2 in Hp. injection Hp as <-. exact H.
Qed.

(** ** The diff *)

Section Diff.

Import DiffEngine.

Implicit Types (old new l : list VRPDict.t) (r : VRPDict.t) (k : string).

(** The last record of [l] that has the key [k]. *)
Local Abbreviation last_with_key k l :=
  (find (fun x => String.eqb (to_key x) k) (rev l)).

Lemma find_append {A : Type} (p : A -> bool) (l1 l2 : list A) :
  find p (l1 ++ l2) = match find p l1 with Some x => Some x | None => find p l2 end.
Proof.
  induction l1 as [|x l1 IH]; simpl; [reflexivity|]. now destruct (p x).
Qed.

Lemma key_map_get_acc l : forall (d : PyDict.t VRPDict.t) k,
  PyDict.get (fold_left (fun d v => PyDict.set d (to_key v) v) l d) k
  = match last_with_key k l with
    | Some r => Some r
    | None => PyDict.get d k
    end.
Proof.
  induction l as [|x l IH]; intros d k; [reflexivity|].
  simpl fold_left. rewrite IH, get_set. simpl rev. rewrite find_append.
  destruct (find _ (rev l)); [reflexivity|]. simpl.
  now destruct (String.eqb (to_key x) k).
Qed.

(** The comprehension maps a key to the last record that has it. *)
Lemma key_map_get l k : PyDict.get (key_map l) k = last_with_key k l.
Proof.
  unfold key_map. rewrite key_map_get_acc. now destruct (find _ (rev l)).
Qed.

Lemma last_with_key_none l k :
  last_with_key k l = None <-> forall x, x ∈ l -> to_key x <> k.
Proof.
  split.
  - intros F x Hin E. apply list_elem_of_In, in_rev in Hin.
    pose proof (find_none _ _ F x Hin) as N. simpl in N.
    rewrite E, String.eqb_refl in N. discriminate N.
  - intros H. destruct (find _ (rev l)) as [x|] eqn:F; [|reflexivity].
    apply find_some in F as [Hin E]. apply String.eqb_eq in E.
    apply in_rev, list_elem_of_In in Hin. now destruct (H x Hin).
Qed.

Lemma last_with_key_some l k r :
  last_with_key k l = Some r -> r ∈ l /\ to_key r = k.
Proof.
  intros F. apply find_some in F as [Hin E]. apply String.eqb_eq in E.
  split; [now apply list_elem_of_In, in_rev | exact E].
Qed.

(** When the keys of [l] are pairwise distinct, every record is the last
    one with its key. *)
Lemma last_with_key_distinct l r :
  NoDup (map to_key l) -> r ∈ l -> last_with_key (to_key r) l = Some r.
Proof.
  intros Hnd Hin.
  destruct (find _ (rev l)) as [x|] eqn:F.
  - apply last_with_key_some in F as [Hx E]. f_equal.
    clear -Hnd Hin Hx E. induction l as [|y l IH]; [inversion Hin|].
    simpl in Hnd. apply NoDup_cons in Hnd as [Hy Hnd].
    apply elem_of_cons in Hin as [->|Hin], Hx as [->|Hx]; auto.
    + exfalso. apply Hy. rewrite <- E. now apply list_elem_of_fmap_2.
    + exfalso. apply Hy. rewrite E. now apply list_elem_of_fmap_2.
  - pose proof (proj1 (last_with_key_none l (to_key r)) F r Hin) as N. now destruct N.
Qed.

(** What [added] holds: the last record of [new] for each key of [new]
    that no record of [old] has. *)
Lemma added_iff old new r :
  r ∈ fst (_compute_diff old new)
  <-> last_with_key (to_key r) new = Some r /\
      forall o, o ∈ old -> to_key o <> to_key r.
Proof.
  unfold _compute_diff, keys_minus. cbv zeta. simpl fst.
  rewrite list_elem_of_omap. split.
  - intros (k & Hk & G). apply list_elem_of_In in Hk.
    apply (proj1 (filter_In _ _ _)) in Hk as [_ Hk].
    rewrite key_map_get in G. pose proof (last_with_key_some _ _ _ G) as [_ <-].
    split; [exact G|]. apply last_with_key_none. rewrite <- key_map_get.
    apply get_none_contains. now apply negb_true_iff.
  - intros [G Hold]. exists (to_key r). rewrite key_map_get. split; [|exact G].
    apply list_elem_of_In. apply (proj2 (filter_In _ _ _)). split.
    + apply list_elem_of_In, contains_keys, contains_get. exists r.
      now rewrite key_map_get.
    + apply negb_true_iff, get_none_contains. rewrite key_map_get.
      now apply last_with_key_none.
Qed.

Lemma removed_is_added_backwards old new :
  snd (_compute_diff old new) = fst (_compute_diff new old).
Proof. reflexivity. Qed.

(** A record of [added] is a record of [new] whose key no record of
    [old] has; a record whose key is on both sides is reported on
    neither, whatever its other fields. *)
Lemma added_sound old new r :
  r ∈ fst (_compute_diff old new) ->
  r ∈ new /\ forall o, o ∈ old -> to_key o <> to_key r.
Proof.
  intros [G H]%added_iff. split; [|exact H].
  now apply last_with_key_some in G as [G _].
Qed.

Lemma shared_key_in_neither old new o n :
  o ∈ old -> n ∈ new -> to_key o = to_key n ->
  (forall r, to_key r = to_key n -> r ∉ fst (_compute_diff old new)) /\
  (forall r, to_key r = to_key n -> r ∉ snd (_compute_diff old new)).
Proof.
  intros Ho Hn E. split; intros r Er Hr.
  - apply added_sound in Hr as [_ Hr]. apply (Hr o Ho). congruence.
  - rewrite removed_is_added_backwards in Hr.
    apply added_sound in Hr as [_ Hr]. apply (Hr n Hn). congruence.
Qed.

(** When the keys inside [new] are pairwise distinct, [added] is exactly
    the records of [new] whose key no record of [old] has. *)
Lemma added_exact_on_distinct_keys old new r :
  NoDup (map to_key new) ->
  r ∈ fst (_compute_diff old new)
  <-> r ∈ new /\ forall o, o ∈ old -> to_key o <> to_key r.
Proof.
  intros Hnd. rewrite added_iff. split; intros [H1 H2]; split; auto.
  - now apply last_with_key_some in H1 as [H1 _].
  - now apply last_with_key_distinct.
Qed.

(** Old is A, B and new is B, C with three distinct keys: C is added and
    A is removed. *)
Lemma diff_of_overlapping_snapshots (A B C : VRPDict.t) :
  to_key A <> to_key B -> to_key A <> to_key C -> to_key B <> to_key C ->
  _compute_diff [A; B] [B; C] = ([C], [A]).
Proof.
  intros AB AC BC.
  assert (String.eqb (to_key A) (to_key B) = false) as EAB by now apply String.eqb_neq.
  assert (String.eqb (to_key B) (to_key A) = false) as EBA
    by (apply String.eqb_neq; congruence).
  assert (String.eqb (to_key A) (to_key C) = false) as EAC by now apply String.eqb_neq.
  assert (String.eqb (to_key C) (to_key A) = false) as ECA
    by (apply String.eqb_neq; congruence).
  assert (String.eqb (to_key B) (to_key C) = false) as EBC by now apply String.eqb_neq.
  assert (String.eqb (to_key C) (to_key B) = false) as ECB
    by (apply String.eqb_neq; congruence).
  unfold _compute_diff, keys_minus, key_map. simpl.
  rewrite ?EAB, ?EBA, ?EAC, ?ECA, ?EBC, ?ECB, ?String.eqb_refl. simpl.
  rewrite ?EAB, ?EBA, ?EAC, ?ECA, ?EBC, ?ECB, ?String.eqb_refl. simpl.
  rewrite ?EAB, ?EBA, ?EAC, ?ECA, ?EBC, ?ECB, ?String.eqb_refl. reflexivity.
Qed.

End Diff.

(** Closed goals are settled by evaluation, conjunct by conjunct. *)
Ltac evaluate :=
  repeat match goal with |- _ /\ _ => split end; vm_compute; reflexivity.

(** ** The trust anchor in the three keys

    The canonical form that deduplicates ends with the trust anchor; the
    sort key and the key of [_compute_diff] leave it out. *)

(** The canonical form of an entry is the diff key of its dictionary,
    followed by a bar and the trust anchor. *)
Lemma canonical_form_extends_diff_key
    (ip_network : string -> option string) (v : VRPEntry.t) (d : VRPDict.t) :
  VRPLoader.as_dict ip_network v = Some d ->
  VRPEntry.canonicalize ip_network v
  = Some (DiffEngine.to_key d +:+ "|" +:+ VRPEntry.ta v).
Proof.
  unfold VRPLoader.as_dict, VRPEntry.canonicalize, DiffEngine.to_key.
  destruct (ip_network (VRPEntry.prefix v)) as [p|]; simpl; [|discriminate].
  intros [= <-]. simpl. now rewrite !string_app_assoc.
Qed.

Section CanonicalForm.

Variable ip_network : string -> option string.

(** The text of a network holds digits, dots, colons and a slash. *)
Hypothesis ip_network_no_bar :
  forall v p, ip_network v = Some p -> Py.has_bar p = false.

Lemma valid_asn_no_bar (v : VRPEntry.t) :
  VRPEntry.valid ip_network v -> Py.has_bar (VRPEntry.asn v) = false.
Proof.
  unfold VRPEntry.valid, VRPEntry.make. simpl.
  destruct (VRPEntry.validate_asn (VRPEntry.asn v)) as [a|] eqn:A; [|discriminate].
  intros _. now apply validate_asn_no_bar in A.
Qed.

(** Two validated entries with one canonical form have one dictionary: the
    form determines ASN, normalised prefix, maxLength and trust anchor. *)
Lemma canonical_form_determines_dict (v1 v2 : VRPEntry.t) (d1 d2 : VRPDict.t) :
  VRPEntry.valid ip_network v1 -> VRPEntry.valid ip_network v2 ->
  VRPLoader.as_dict ip_network v1 = Some d1 ->
  VRPLoader.as_dict ip_network v2 = Some d2 ->
  VRPEntry.canonicalize ip_network v1 = VRPEntry.canonicalize ip_network v2 ->
  d1 = d2.
Proof.
  intros V1 V2. pose proof (valid_asn_no_bar v1 V1) as A1.
  pose proof (valid_asn_no_bar v2 V2) as A2.
  unfold VRPLoader.as_dict, VRPEntry.canonicalize.
  destruct (ip_network (VRPEntry.prefix v1)) as [p1|] eqn:P1; simpl; [|discriminate].
  destruct (ip_network (VRPEntry.prefix v2)) as [p2|] eqn:P2; simpl; [|discriminate].
  intros [= <-] [= <-] [= E].
  apply split_on_bar in E as [Ea E]; auto.
  apply split_on_bar in E as [Ep E]; eauto.
  apply split_on_bar in E as [Em Et]; auto using str_of_int_no_bar.
  apply str_of_int_inj in Em. congruence.
Qed.

(** Collision under the deduplication key is collision under the diff
    key together with equality of the trust anchors. *)
Lemma dedup_collision_iff (v1 v2 : VRPEntry.t) (d1 d2 : VRPDict.t) :
  VRPEntry.valid ip_network v1 -> VRPEntry.valid ip_network v2 ->
  VRPLoader.as_dict ip_network v1 = Some d1 ->
  VRPLoader.as_dict ip_network v2 = Some d2 ->
  VRPEntry.canonicalize ip_network v1 = VRPEntry.canonicalize ip_network v2
  <-> DiffEngine.to_key d1 = DiffEngine.to_key d2 /\ VRPEntry.ta v1 = VRPEntry.ta v2.
Proof.
  intros V1 V2 D1 D2. split.
  - intros E. pose proof (canonical_form_determines_dict v1 v2 d1 d2 V1 V2 D1 D2 E) as <-.
    split; [reflexivity|].
    unfold VRPLoader.as_dict in D1, D2.
    destruct (ip_network (VRPEntry.prefix v1)); [|discriminate D1].
    destruct (ip_network (VRPEntry.prefix v2)); [|discriminate D2].
    simpl in D1, D2. injection D1 as <-. now injection D2.
  - intros [Ek Et].
    rewrite (canonical_form_extends_diff_key ip_network v1 d1 D1).
    rewrite (canonical_form_extends_diff_key ip_network v2 d2 D2).
    now rewrite Ek, Et.
Qed.

(** It is then enough that the sort key tells the dictionaries of a batch
    apart. *)
Lemma sort_keys_tell_apart (vrps : list VRPEntry.t) :
  Forall (VRPEntry.valid ip_network) vrps ->
  (forall v1 v2 d1 d2,
      v1 ∈ vrps -> v2 ∈ vrps ->
      VRPLoader.as_dict ip_network v1 = Some d1 ->
      VRPLoader.as_dict ip_network v2 = Some d2 ->
      VRPLoader.sort_key d1 = VRPLoader.sort_key d2 -> d1 = d2) ->
  VRPLoader.keys_tell_apart ip_network vrps.
Proof.
  intros Hv Hs v1 v2 d1 d2 H1 H2 D1 D2 [E|E]; [now apply (Hs v1 v2)|].
  rewrite Forall_forall in Hv.
  apply (canonical_form_determines_dict v1 v2 d1 d2 (Hv v1 H1) (Hv v2 H2) D1 D2).
  destruct (valid_canonical ip_network v1 (Hv v1 H1)) as (k1 & d1' & K1 & D1' & ->).
  destruct (valid_canonical ip_network v2 (Hv v2 H2)) as (k2 & d2' & K2 & D2' & ->).
  rewrite K1, K2. congruence.
Qed.

End CanonicalForm.

(** The instance for IPv4 never gives text with a bar. *)
Lemma ipv4_network_no_bar (v p : string) :
  Ipv4.ip_network v = Some p -> Py.has_bar p = false.
Proof.
  unfold Ipv4.ip_network.
  destruct (Ipv4.split_at "/" v) as [addr rest].
  destruct (match rest with None => Some "32" | Some m => _ end) as [mask|];
    simpl; [|discriminate].
  destruct (Ipv4._ip_int_from_string addr) as [packed|]; simpl; [|discriminate].
  destruct (Ipv4._make_netmask mask) as [prefixlen|]; simpl; [|discriminate].
  destruct (negb _); [discriminate|]. intros [= <-].
  unfold Ipv4.dotted. rewrite !has_bar_app, !str_of_int_no_bar. reflexivity.
Qed.

(** C1, evaluated: two validated entries that differ in the trust anchor
    only have different canonical forms, so that deduplication keeps both,
    and their dictionaries have one and the same [to_key]. *)
Theorem dedup_key_and_diff_key_disagree :
  VRPEntry.valid Ipv4.ip_network Sample.entry_ta1 /\
  VRPEntry.valid Ipv4.ip_network Sample.entry_ta2 /\
  VRPEntry.canonicalize Ipv4.ip_network Sample.entry_ta1 = Some "AS1|10.0.0.0/24|24|ta1" /\
  VRPEntry.canonicalize Ipv4.ip_network Sample.entry_ta2 = Some "AS1|10.0.0.0/24|24|ta2" /\
  VRPLoader.as_dict Ipv4.ip_network Sample.entry_ta1 = Some Sample.roa_ta1 /\
  VRPLoader.as_dict Ipv4.ip_network Sample.entry_ta2 = Some Sample.roa_ta2 /\
  DiffEngine.to_key Sample.roa_ta1 = "AS1|10.0.0.0/24|24" /\
  DiffEngine.to_key Sample.roa_ta2 = "AS1|10.0.0.0/24|24".
Proof. evaluate. Qed.

(** C4, evaluated: the same two entries in the two possible orders give
    two different canonical lists, each in the order of its input, and the
    two lists have different hashes. *)
Theorem canonical_list_follows_input_order :
  [Sample.entry_ta2; Sample.entry_ta1] ≡ₚ [Sample.entry_ta1; Sample.entry_ta2] /\
  Forall (VRPEntry.valid Ipv4.ip_network) [Sample.entry_ta1; Sample.entry_ta2] /\
  VRPLoader.canonicalize_vrps Ipv4.ip_network [Sample.entry_ta1; Sample.entry_ta2]
  = Some ([Sample.roa_ta1; Sample.roa_ta2], []) /\
  VRPLoader.canonicalize_vrps Ipv4.ip_network [Sample.entry_ta2; Sample.entry_ta1]
  = Some ([Sample.roa_ta2; Sample.roa_ta1], []) /\
  DiffEngine._compute_hash [Sample.roa_ta1; Sample.roa_ta2]
  = "04a15bb97a1076dc705998655385150eb121694e5b8ff9fcf75e90908a7c7253" /\
  DiffEngine._compute_hash [Sample.roa_ta2; Sample.roa_ta1]
  = "dc3fa55575f7b7e8bb91f8a7b9f6eb727ffcebb5608f82ca98a376c1875382ed".
Proof.
  split; [apply Permutation_swap|].
  split; [repeat constructor; vm_compute; reflexivity|].
  evaluate.
Qed.

(** C3, evaluated: after the batch [roa_ta1; roa_ta2] has been accepted
    with serial 1, the same two records in the other order are accepted
    again: the call returns [True], the serial is 2, both snapshots are
    replaced, and a diff without any record is written. *)
Theorem reordered_batch_is_accepted_again :
  VRPLoader.fetch_and_process Ipv4.ip_network (Sample.batch [Sample.roa_ta1; Sample.roa_ta2])
    "2024-01-01T00:00:00" "2024-01-01T00:00:01" "2024-01-01T00:00:02" Sample.fresh
  = (Return true, Sample.after_first_batch) /\
  DiffEngine.serial (DiffEngine.self Sample.after_first_batch) = 1 /\
  DiffEngine.current_snapshot (DiffEngine.self Sample.after_first_batch)
  = [Sample.roa_ta1; Sample.roa_ta2] /\
  exists w',
    VRPLoader.fetch_and_process Ipv4.ip_network (Sample.batch [Sample.roa_ta2; Sample.roa_ta1])
      "2024-01-01T01:00:00" "2024-01-01T01:00:01" "2024-01-01T01:00:02"
      Sample.after_first_batch
    = (Return true, w') /\
    DiffEngine.serial (DiffEngine.self w') = 2 /\
    DiffEngine.current_snapshot (DiffEngine.self w') = [Sample.roa_ta2; Sample.roa_ta1] /\
    DiffEngine.previous_snapshot (DiffEngine.self w') = [Sample.roa_ta1; Sample.roa_ta2] /\
    DiffEngine.last_update (DiffEngine.self w') = Some "2024-01-01T01:00:01" /\
    DiffEngine.diffs (DiffEngine.disk w') !! "diff_0000000002.json"
    = Some (DiffEngine.Doc
              {| DiffEngine.diff_serial := 2;
                 DiffEngine.diff_timestamp := "2024-01-01T01:00:02";
                 DiffEngine.diff_metadata :=
                   {| DiffEngine.generated := 1700000000;
                      DiffEngine.fetched_at := "2024-01-01T01:00:00" |};
                 DiffEngine.added_count := 0;
                 DiffEngine.removed_count := 0;
                 DiffEngine.diff_added := [];
                 DiffEngine.diff_removed := [] |}).
Proof.
  split; [vm_compute; reflexivity|].
  split; [vm_compute; reflexivity|].
  split; [vm_compute; reflexivity|].
  eexists. split; [vm_compute; reflexivity|].
  evaluate.
Qed.

(** C5, evaluated: with nothing in the old snapshot and two records of
    one diff key in the new one, [added] holds the second record only; the
    first, a record of the new snapshot whose key is in no old record, is
    not reported.  The same happens to [removed] the other way round. *)
Theorem diff_reports_one_record_per_key :
  DiffEngine._compute_diff [] [Sample.roa_ta1; Sample.roa_ta2] = ([Sample.roa_ta2], []) /\
  DiffEngine._compute_diff [Sample.roa_ta1; Sample.roa_ta2] [] = ([], [Sample.roa_ta2]) /\
  Sample.roa_ta1 ∈ [Sample.roa_ta1; Sample.roa_ta2] /\
  (Sample.roa_ta1 ∉ fst (DiffEngine._compute_diff [] [Sample.roa_ta1; Sample.roa_ta2])) /\
  (Sample.roa_ta1 ∉ snd (DiffEngine._compute_diff [Sample.roa_ta1; Sample.roa_ta2] [])).
Proof.
  split; [vm_compute; reflexivity|].
  split; [vm_compute; reflexivity|].
  split; [apply elem_of_cons; now left|].
  split; intros H; vm_compute in H; apply list_elem_of_singleton in H; discriminate H.
Qed.

(** C7, evaluated: the state directory holds sound metadata with serial
    7 and the diff of serial 1, and the file of the current snapshot is
    missing.  [load_state] on a new engine does not raise: the handler of
    the missing metadata file takes the error, logs that no state was
    found, and leaves the engine at serial 0 with the empty hash.  The
    next snapshot is then accepted with serial 1, below the serial that
    was persisted; the metadata on disk is rewritten with serial 1 and the
    diff file of serial 1 is overwritten. *)
Theorem missing_snapshot_resets_persisted_serial :
  let w0 := RPKIBackend.new_engine Scenario.disk_at_serial_7 in
  let w1 := snd (DiffEngine.load_state w0) in
  let accepted :=
    DiffEngine.process_snapshot [Sample.roa_as2] Sample.upstream
      "2024-01-02T00:00:01" "2024-01-02T00:00:02" w1 in
  let w2 := snd accepted in
  DiffEngine.state_metadata_json (DiffEngine.disk w0)
  = Some (DiffEngine.Doc
            {| DiffEngine.meta_serial := Some 7;
               DiffEngine.meta_current_hash :=
                 Some (DiffEngine._compute_hash [Sample.roa_ta1]);
               DiffEngine.meta_last_update := Some "2024-01-01T00:00:01";
               DiffEngine.meta_vrp_count := Some 1%nat |}) /\
  DiffEngine.current_snapshot_json (DiffEngine.disk w0) = None /\
  DiffEngine.diffs (DiffEngine.disk w0) !! "diff_0000000001.json"
  = Some (DiffEngine.Doc Sample.first_diff) /\
  DiffEngine.load_state w0
  = (Return tt,
     {| DiffEngine.self := DiffEngine.init;
        DiffEngine.disk := Scenario.disk_at_serial_7;
        DiffEngine.log := [Info_starting_fresh] |}) /\
  DiffEngine.serial (DiffEngine.self w1) = 0 /\
  DiffEngine.current_hash (DiffEngine.self w1) = EmptyString /\
  fst accepted = true /\
  DiffEngine.serial (DiffEngine.self w2) = 1 /\
  DiffEngine.state_metadata_json (DiffEngine.disk w2)
  = Some (DiffEngine.Doc
            {| DiffEngine.meta_serial := Some 1;
               DiffEngine.meta_current_hash :=
                 Some (DiffEngine._compute_hash [Sample.roa_as2]);
               DiffEngine.meta_last_update := Some "2024-01-02T00:00:01";
               DiffEngine.meta_vrp_count := Some 1%nat |}) /\
  DiffEngine.diffs (DiffEngine.disk w2) !! "diff_0000000001.json"
  = Some (DiffEngine.Doc
            {| DiffEngine.diff_serial := 1;
               DiffEngine.diff_timestamp := "2024-01-02T00:00:02";
               DiffEngine.diff_metadata := Sample.upstream;
               DiffEngine.added_count := 1;
               DiffEngine.removed_count := 0;
               DiffEngine.diff_added := [Sample.roa_as2];
               DiffEngine.diff_removed := [] |}).
Proof. cbv zeta. evaluate. Qed.

(** C8, evaluated: a single step forward to the serial written with a 1
    and 245 zeros.  The text of the serial has 246 characters, the name of
    its diff file 256, one more than [open] takes; no such file is in
    [diffs/]; [get_diff] raises [OSError] instead of returning [None].
    With one zero fewer the name has 255 characters and the answer is
    [None]. *)
Theorem get_diff_raises_on_long_file_name :
  let to_serial := Scenario.long_serial in
  let from_serial := to_serial - 1 in
  let w := Sample.after_first_batch in
  to_serial - from_serial = 1 /\
  to_serial >= from_serial /\
  String.length (Py.str_of_int to_serial) = 246%nat /\
  Py.int_of_str (Py.str_of_int to_serial) = Some to_serial /\
  Py.int_of_str (Py.str_of_int from_serial) = Some from_serial /\
  String.length (DiffEngine.diff_name to_serial) = 256%nat /\
  DiffEngine.diffs (DiffEngine.disk w) !! DiffEngine.diff_name to_serial = None /\
  DiffEngine.get_diff from_serial to_serial w = (Raise OSError, w) /\
  String.length (DiffEngine.diff_name (to_serial / 10)) = 255%nat /\
  DiffEngine.get_diff (to_serial / 10 - 1) (to_serial / 10) w
  = (Return None,
     DiffEngine.emit (Warning_diff_not_found (DiffEngine.diff_name (to_serial / 10))) w).
Proof.
  cbv zeta. repeat match goal with |- _ /\ _ => split end;
    try (vm_compute; reflexivity).
  vm_compute. discriminate.
Qed.

(** ** The theorems at work on the sample data *)

Lemma serial_advances_on_first_snapshot :
  DiffEngine.process_snapshot [Sample.roa_ta1] Sample.upstream
    "2024-01-01T00:00:01" "2024-01-01T00:00:02" Sample.fresh
  = (true, snd (DiffEngine.process_snapshot [Sample.roa_ta1] Sample.upstream
                  "2024-01-01T00:00:01" "2024-01-01T00:00:02" Sample.fresh)) /\
  DiffEngine.serial
    (DiffEngine.self
       (snd (DiffEngine.process_snapshot [Sample.roa_ta1] Sample.upstream
               "2024-01-01T00:00:01" "2024-01-01T00:00:02" Sample.fresh)))
  = DiffEngine.serial (DiffEngine.self Sample.fresh) + 1.
Proof.
  assert (DiffEngine.process_snapshot [Sample.roa_ta1] Sample.upstream
            "2024-01-01T00:00:01" "2024-01-01T00:00:02" Sample.fresh
          = (true, snd (DiffEngine.process_snapshot [Sample.roa_ta1] Sample.upstream
                          "2024-01-01T00:00:01" "2024-01-01T00:00:02" Sample.fresh)))
    as H by (vm_compute; reflexivity).
  split; [exact H|].
  exact (proj1 serial_advances_by_one_per_accepted_snapshot _ _ _ _ _ _ H).
Defined.

Lemma fresh_engine_accepts_empty_list :
  DiffEngine.current_hash (DiffEngine.self Sample.fresh) = "" /\
  DiffEngine.serial (DiffEngine.self Sample.fresh) = 0 /\
  (String.length (DiffEngine._compute_hash []) = 64%nat /\
   exists w',
     DiffEngine.process_snapshot [] Sample.upstream
       "2024-01-01T00:00:01" "2024-01-01T00:00:02" Sample.fresh = (true, w') /\
     DiffEngine.serial (DiffEngine.self w') = 1 /\
     DiffEngine.current_snapshot (DiffEngine.self w') = [] /\
     DiffEngine.current_hash (DiffEngine.self w') = DiffEngine._compute_hash []).
Proof.
  split; [reflexivity|]. split; [reflexivity|].
  apply (fresh_engine_accepts_every_candidate [] Sample.upstream
           "2024-01-01T00:00:01" "2024-01-01T00:00:02" Sample.fresh); reflexivity.
Defined.

Lemma get_diff_on_first_batch :
  DiffEngine.get_diff 0 1 Sample.after_first_batch
  = (Return (Some Sample.first_diff), Sample.after_first_batch) /\
  (1 - 0 = 1 /\ 1 >= 0 /\
   (String.length (DiffEngine.diff_name 1) <= DiffEngine.NAME_MAX)%nat /\
   DiffEngine.diffs (DiffEngine.disk Sample.after_first_batch) !! DiffEngine.diff_name 1
   = Some (DiffEngine.Doc Sample.first_diff)) /\
  5 - 0 <> 1 /\
  exists w',
    DiffEngine.get_diff 0 5 Sample.after_first_batch = (Return None, w') /\
    DiffEngine.self w' = DiffEngine.self Sample.after_first_batch /\
    DiffEngine.disk w' = DiffEngine.disk Sample.after_first_batch.
Proof.
  assert (DiffEngine.get_diff 0 1 Sample.after_first_batch
          = (Return (Some Sample.first_diff), Sample.after_first_batch))
    as H by (vm_compute; reflexivity).
  split; [exact H|].
  split; [exact (proj1 (get_diff_within_name_limit 0 1 Sample.after_first_batch) _ _ H)|].
  split; [lia|].
  apply (proj1 (proj2 (get_diff_within_name_limit 0 5 Sample.after_first_batch))).
  left. lia.
Qed.

Lemma batch_with_host_bits_is_rejected :
  Sample.roa_host_bits ∈ [Sample.roa_ta1; Sample.roa_host_bits] /\
  Ipv4.ip_network (VRPDict.prefix Sample.roa_host_bits) = None /\
  (VRPLoader.parse_response Ipv4.ip_network
     {| VRPLoader.json_generated := 1700000000;
        VRPLoader.json_roas := [Sample.roa_ta1; Sample.roa_host_bits] |} = None /\
   exists w',
     VRPLoader.fetch_and_process Ipv4.ip_network
       (Sample.batch [Sample.roa_ta1; Sample.roa_host_bits])
       "2024-01-01T01:00:00" "2024-01-01T01:00:01" "2024-01-01T01:00:02"
       Sample.after_first_batch = (Return false, w') /\
     DiffEngine.self w' = DiffEngine.self Sample.after_first_batch /\
     DiffEngine.disk w' = DiffEngine.disk Sample.after_first_batch /\
     DiffEngine.log w' =
       DiffEngine.log Sample.after_first_batch ++
       [Info_fetching; Error_schema_validation; Warning_keeping_last_snapshot]).
Proof.
  assert (Sample.roa_host_bits ∈ [Sample.roa_ta1; Sample.roa_host_bits]) as Hin.
  { apply elem_of_cons. right. apply elem_of_cons. now left. }
  assert (Ipv4.ip_network (VRPDict.prefix Sample.roa_host_bits) = None) as Hp
    by (vm_compute; reflexivity).
  split; [exact Hin|]. split; [exact Hp|].
  apply (invalid_record_rejects_whole_batch Ipv4.ip_network
           {| VRPLoader.json_generated := 1700000000;
              VRPLoader.json_roas := [Sample.roa_ta1; Sample.roa_host_bits] |}
           Sample.roa_host_bits
           "2024-01-01T01:00:00" "2024-01-01T01:00:01" "2024-01-01T01:00:02"
           Sample.after_first_batch Hin).
  right; right; left. exact Hp.
Defined.

(** Two entries with different sort keys: the order of the batch does not
    show in the canonical list. *)
Lemma distinct_sort_keys_commute :
  VRPLoader.canonicalize_vrps Ipv4.ip_network [Sample.entry_as2; Sample.entry_ta1]
  = VRPLoader.canonicalize_vrps Ipv4.ip_network [Sample.entry_ta1; Sample.entry_as2].
Proof.
  assert (Forall (VRPEntry.valid Ipv4.ip_network) [Sample.entry_ta1; Sample.entry_as2])
    as Hv by (repeat constructor; vm_compute; reflexivity).
  apply (canonicalize_vrps_permutation Ipv4.ip_network _ _ Hv); [|apply Permutation_swap].
  apply (sort_keys_tell_apart Ipv4.ip_network ipv4_network_no_bar _ Hv).
  intros v1 v2 d1 d2 H1 H2 D1 D2 E.
  repeat (apply elem_of_cons in H1 as [->|H1]); [| |inversion H1];
    repeat (apply elem_of_cons in H2 as [->|H2]); try (inversion H2; fail);
    vm_compute in D1, D2; injection D1 as <-; injection D2 as <-;
    try reflexivity; vm_compute in E; discriminate E.
Qed.

(** The scenario of a first batch, the same batch again, and a batch
    with one more record. *)
Lemma three_batches :
  let t0 := "2024-01-01T00:00:00" in
  let t1 := "2024-01-01T00:00:01" in
  let t2 := "2024-01-01T00:00:02" in
  let r1 := VRPLoader.fetch_and_process Ipv4.ip_network
              (Sample.batch [Sample.roa_ta1]) t0 t1 t2 Sample.fresh in
  let r2 := VRPLoader.fetch_and_process Ipv4.ip_network
              (Sample.batch [Sample.roa_ta1]) t0 t1 t2 (snd r1) in
  let r3 := VRPLoader.fetch_and_process Ipv4.ip_network
              (Sample.batch [Sample.roa_as2; Sample.roa_ta1]) t0 t1 t2 (snd r2) in
  fst r1 = Return true /\ DiffEngine.serial (DiffEngine.self (snd r1)) = 1 /\
  fst r2 = Return false /\ DiffEngine.serial (DiffEngine.self (snd r2)) = 1 /\
  fst r3 = Return true /\ DiffEngine.serial (DiffEngine.self (snd r3)) = 2 /\
  DiffEngine.current_snapshot (DiffEngine.self (snd r3)) = [Sample.roa_ta1; Sample.roa_as2] /\
  DiffEngine.get_diff 1 2 (snd r3)
  = (Return (Some {| DiffEngine.diff_serial := 2;
                     DiffEngine.diff_timestamp := t2;
                     DiffEngine.diff_metadata :=
                       {| DiffEngine.generated := 1700000000;
                          DiffEngine.fetched_at := t0 |};
                     DiffEngine.added_count := 1;
                     DiffEngine.removed_count := 0;
                     DiffEngine.diff_added := [Sample.roa_as2];
                     DiffEngine.diff_removed := [] |}),
     snd r3).
Proof. cbv zeta. evaluate. Qed.

Lemma duplicate_entry_is_collapsed :
  Forall (VRPEntry.valid Ipv4.ip_network)
    [Sample.entry_ta1; Sample.entry_ta2; Sample.entry_ta1] /\
  VRPLoader.canonicalize_vrps Ipv4.ip_network
    [Sample.entry_ta1; Sample.entry_ta2; Sample.entry_ta1]
  = Some ([Sample.roa_ta1; Sample.roa_ta2], [Info_deduplicated 3 2]) /\
  NoDup (map VRPLoader.key_of_dict [Sample.roa_ta1; Sample.roa_ta2]) /\
  DiffEngine.current_hash (DiffEngine.self Sample.fresh) = EmptyString /\
  exists w',
    DiffEngine.process_snapshot [Sample.roa_ta1; Sample.roa_ta2] Sample.upstream
      "2024-01-01T00:00:01" "2024-01-01T00:00:02" Sample.fresh = (true, w') /\
    DiffEngine.vrps (DiffEngine.get_current_state w')
    = [Sample.roa_ta1; Sample.roa_ta2] /\
    DiffEngine.vrp_count (DiffEngine.get_current_state w') = 2%nat.
Proof.
  assert (Forall (VRPEntry.valid Ipv4.ip_network)
            [Sample.entry_ta1; Sample.entry_ta2; Sample.entry_ta1]) as Hv
    by (repeat constructor).
  assert (VRPLoader.canonicalize_vrps Ipv4.ip_network
            [Sample.entry_ta1; Sample.entry_ta2; Sample.entry_ta1]
          = Some ([Sample.roa_ta1; Sample.roa_ta2], [Info_deduplicated 3 2])) as Hl
    by (vm_compute; reflexivity).
  split; [exact Hv|]. split; [exact Hl|].
  destruct (canonical_list_is_deduplicated Ipv4.ip_network _ Hv)
    as (m & l & es & _ & Hc & _ & Hnd & _ & _ & _ & _ & _ & Hnew & _).
  rewrite Hl in Hc. injection Hc as <- <-.
  split; [exact Hnd|]. split; [reflexivity|].
  exact (Hnew Sample.upstream "2024-01-01T00:00:01" "2024-01-01T00:00:02"
           Sample.fresh eq_refl).
Defined.

(** C9, the claim refuted: the metadata of the state directory holds the
    hash of the list [roa_ta1; roa_ta2], its current snapshot file holds
    [roa_ta1] only.  [load_state] loads the two without raising.  The
    upstream then serves three records of which two have one
    deduplication key: the canonical list has the two records
    [roa_ta1; roa_ta2], its hash is the stored hash, [process_snapshot]
    rejects it, and [get_current_state] reports the one record of the
    stored snapshot with [vrp_count] 1, not the length 2 of the
    deduplicated canonical list. *)
Lemma stale_snapshot_keeps_its_count :
  let loaded :=
    DiffEngine.load_state (RPKIBackend.new_engine Scenario.disk_with_stale_snapshot) in
  let fetched :=
    VRPLoader.fetch_and_process Ipv4.ip_network
      (Sample.batch [Sample.roa_ta1; Sample.roa_ta2; Sample.roa_ta1])
      "2024-01-02T00:00:00" "2024-01-02T00:00:01" "2024-01-02T00:00:02" (snd loaded) in
  fst loaded = Return tt /\
  VRPLoader.canonicalize_vrps Ipv4.ip_network
    [Sample.entry_ta1; Sample.entry_ta2; Sample.entry_ta1]
  = Some ([Sample.roa_ta1; Sample.roa_ta2], [Info_deduplicated 3 2]) /\
  DiffEngine._compute_hash [Sample.roa_ta1; Sample.roa_ta2]
  = DiffEngine.current_hash (DiffEngine.self (snd loaded)) /\
  fst fetched = Return false /\
  DiffEngine.vrps (DiffEngine.get_current_state (snd fetched)) = [Sample.roa_ta1] /\
  DiffEngine.vrp_count (DiffEngine.get_current_state (snd fetched)) = 1%nat /\
  DiffEngine.vrp_count (DiffEngine.get_current_state (snd fetched))
  <> List.length [Sample.roa_ta1; Sample.roa_ta2].
Proof.
  cbv zeta. repeat match goal with |- _ /\ _ => split end;
    try (vm_compute; reflexivity).
  vm_compute. discriminate.
Qed.

(** * Further properties

    Persistence and restart, the history of diffs, the diff key by key,
    the loader from the response to the engine, the routes, and the start
    of the backend. *)

(** ** Decimal text read back *)

Lemma int_digits_uint_acc (d : Decimal.uint) : forall acc : positive,
  Py.int_digits (Z.pos acc) (NilEmpty.string_of_uint d)
  = Some (Z.pos (Pos.of_uint_acc d acc)).
Proof.
  induction d; intros acc; [reflexivity|..];
    cbn [NilEmpty.string_of_uint Py.int_digits Pos.of_uint_acc];
    match goal with
    | |- context [Py.is_digit ?c] =>
        change (Py.is_digit c) with true; cbv iota;
        change (Py.digit_val c) with (Py.digit_val c)
    end;
    rewrite <- IHd; f_equal; vm_compute Py.digit_val at 1; lia.
Qed.

Lemma int_digits_uint (d : Decimal.uint) :
  Py.int_digits 0 (NilEmpty.string_of_uint d) = Some (Z.of_N (Pos.of_uint d)).
Proof.
  induction d; [reflexivity|exact IHd|..];
    cbn [NilEmpty.string_of_uint Py.int_digits Pos.of_uint];
    match goal with
    | |- context [Py.is_digit ?c] => change (Py.is_digit c) with true; cbv iota
    end;
    apply int_digits_uint_acc.
Qed.

Lemma int_digits_zeros (k : nat) (s : string) :
  Py.int_digits 0 (Py.zeros k +:+ s) = Py.int_digits 0 s.
Proof. induction k as [|k IH]; [reflexivity|exact IH]. Qed.

Lemma int_unsigned_digit (c : ascii) (s : string) :
  Py.is_digit c = true -> Py.int_unsigned (String c s) = Py.int_digits 0 (String c s).
Proof. intros H. simpl. now rewrite H. Qed.

Lemma int_unsigned_uint (k : nat) (d : Decimal.uint) :
  Py.int_unsigned (Py.zeros k +:+ NilZero.string_of_uint d)
  = Some (Z.of_N (Pos.of_uint d)).
Proof.
  assert (Py.int_digits 0 (NilZero.string_of_uint d) = Some (Z.of_N (Pos.of_uint d))) as H.
  { destruct d; try reflexivity; apply int_digits_uint. }
  destruct k as [|k].
  - change (Py.zeros 0 +:+ NilZero.string_of_uint d) with (NilZero.string_of_uint d).
    rewrite <- H. destruct d; reflexivity.
  - change (Py.zeros (S k) +:+ NilZero.string_of_uint d)
      with (String "0" (Py.zeros k +:+ NilZero.string_of_uint d)).
    change (Py.int_unsigned (String "0" (Py.zeros k +:+ NilZero.string_of_uint d)))
      with (Py.int_digits 0 (Py.zeros k +:+ NilZero.string_of_uint d)).
    now rewrite int_digits_zeros.
Qed.

Lemma str_of_int_nonneg (n : Z) :
  0 <= n ->
  exists d, Py.str_of_int n = NilZero.string_of_uint d /\ Z.of_N (Pos.of_uint d) = n.
Proof.
  intros H. destruct n as [|p|p]; [| |lia].
  - exists (Decimal.D0 Decimal.Nil). split; reflexivity.
  - exists (Pos.to_uint p). split; [reflexivity|].
    now rewrite DecimalPos.Unsigned.of_to.
Qed.

Lemma str_of_int_neg (n : Z) :
  n < 0 -> Py.str_of_int n = String "-" (Py.str_of_int (- n)).
Proof. intros H. destruct n as [|p|p]; try lia. reflexivity. Qed.

Lemma int_of_str_digit (c : ascii) (s : string) :
  Py.is_digit c = true -> Py.int_of_str (String c s) = Py.int_unsigned (String c s).
Proof.
  intros H. destruct c as [[] [] [] [] [] [] [] []];
    vm_compute in H; try discriminate H; reflexivity.
Qed.

Lemma int_of_str_unsigned (k : nat) (n : Z) :
  0 <= n -> Py.int_of_str (Py.zeros k +:+ Py.str_of_int n) = Some n.
Proof.
  intros H. destruct (str_of_int_nonneg n H) as (d & -> & <-).
  rewrite <- (int_unsigned_uint k d).
  destruct k as [|k]; [|reflexivity].
  change (Py.zeros 0 +:+ NilZero.string_of_uint d) with (NilZero.string_of_uint d).
  destruct d; reflexivity.
Qed.

Lemma int_of_str_str_of_int (n : Z) : Py.int_of_str (Py.str_of_int n) = Some n.
Proof.
  destruct (Z_lt_le_dec n 0) as [L|L].
  - rewrite (str_of_int_neg n L).
    change (Py.int_of_str (String "-" (Py.str_of_int (- n))))
      with (option_map Z.opp (Py.int_unsigned (Py.zeros 0 +:+ Py.str_of_int (- n)))).
    destruct (str_of_int_nonneg (- n)) as (d & -> & E); [lia|].
    rewrite int_unsigned_uint, E. simpl. f_equal. lia.
  - exact (int_of_str_unsigned 0 n L).
Qed.

Lemma int_of_str_format_010d (n : Z) : Py.int_of_str (Py.format_010d n) = Some n.
Proof.
  unfold Py.format_010d. destruct (Z.ltb_spec n 0) as [L|L].
  - cbv zeta.
    change (Py.int_of_str ("-" +:+ ?z +:+ ?s))
      with (option_map Z.opp (Py.int_unsigned (z +:+ s))).
    destruct (str_of_int_nonneg (- n)) as (d & E1 & E); [lia|].
    rewrite E1 at 2. rewrite int_unsigned_uint, E. simpl. f_equal. lia.
  - now apply int_of_str_unsigned.
Qed.

Lemma format_010d_inj (a b : Z) : Py.format_010d a = Py.format_010d b -> a = b.
Proof.
  intros E. apply (f_equal Py.int_of_str) in E.
  rewrite !int_of_str_format_010d in E. congruence.
Qed.

Lemma diff_name_inj (a b : Z) : DiffEngine.diff_name a = DiffEngine.diff_name b -> a = b.
Proof.
  unfold DiffEngine.diff_name. intros E.
  apply format_010d_inj.
  assert (forall x y, x +:+ ".json" = y +:+ ".json" -> x = y) as Hsuf.
  { induction x as [|c x IH]; destruct y as [|c' y]; intros H; try reflexivity.
    - apply (f_equal String.length) in H. rewrite !string_length_app in H. simpl in H. lia.
    - apply (f_equal String.length) in H. rewrite !string_length_app in H. simpl in H. lia.
    - rewrite !string_app_cons in H. injection H as -> H. f_equal. now apply IH. }
  apply Hsuf. rewrite !string_app_cons in E. cbn in E.
  now injection E.
Qed.

(** ** Recovery of the engine from the state directory *)

Section Recovery.

Import DiffEngine.

Implicit Types (w : World) (vrps : list VRPDict.t) (md : upstream_metadata).

(** A new engine that loads the state directory of [w] comes back with
    the state of the engine of [w]. *)
Local Abbreviation recovered w :=
  (exists w', load_state (RPKIBackend.new_engine (disk w)) = (Return tt, w') /\
              self w' = self w /\ disk w' = disk w).

Lemma save_state_recovered w : recovered (_save_state w).
Proof.
  eexists. split; [reflexivity|]. destruct w as [[] ? ?]. split; reflexivity.
Qed.

Lemma accepted_call_recovered vrps md t1 t2 w :
  _compute_hash vrps <> current_hash (self w) ->
  recovered (snd (process_snapshot vrps md t1 t2 w)).
Proof.
  intros E.
  destruct (process_snapshot_accepts vrps md t1 t2 w E) as (w' & Hp & Hs).
  destruct (process_snapshot_accept_effect vrps md t1 t2 w E) as [Hd _].
  rewrite Hp in *. cbn [snd] in *.
  rewrite Hs, Hd. eexists. split; [reflexivity|]. split; reflexivity.
Qed.

(** A run leaves the engine and the state directory as they were, or as
    the last accepted call has left them. *)
Lemma run_last_accepted (cs : list Run.call) w :
  (self (Run.run cs w) = self w /\ disk (Run.run cs w) = disk w) \/
  (exists cs1 c cs2,
      cs = cs1 ++ c :: cs2 /\
      _compute_hash (Run.call_vrps c) <> current_hash (self (Run.run cs1 w)) /\
      self (Run.run cs w) = self (snd (Run.step c (Run.run cs1 w))) /\
      disk (Run.run cs w) = disk (snd (Run.step c (Run.run cs1 w)))).
Proof.
  induction cs as [|c cs IH] using rev_ind; [now left|].
  rewrite run_snoc.
  destruct (String.eqb_spec (_compute_hash (Run.call_vrps c))
              (current_hash (self (Run.run cs w)))) as [E|E].
  - assert (self (snd (Run.step c (Run.run cs w))) = self (Run.run cs w) /\
            disk (snd (Run.step c (Run.run cs w))) = disk (Run.run cs w)) as [Hs' Hd'].
    { unfold Run.step. now rewrite (process_snapshot_rejects _ _ _ _ _ E). }
    rewrite Hs', Hd'.
    destruct IH as [IH|(cs1 & c0 & cs2 & -> & H0 & Hs & Hd)]; [now left|].
    right. exists cs1, c0, (cs2 ++ [c]). rewrite <- app_assoc. auto.
  - right. exists cs, c, []. auto.
Qed.

End Recovery.

Section History.

Import DiffEngine.

Implicit Types (w : World) (vrps : list VRPDict.t) (md : upstream_metadata).

(** The record that an accepted call writes to [diffs/]. *)
Local Abbreviation diff_of_call c w :=
  {| diff_serial := serial (self w) + 1;
     diff_timestamp := Run.call_now_diff c;
     diff_metadata := Run.call_metadata c;
     added_count :=
       List.length (fst (_compute_diff (current_snapshot (self w)) (Run.call_vrps c)));
     removed_count :=
       List.length (snd (_compute_diff (current_snapshot (self w)) (Run.call_vrps c)));
     diff_added := fst (_compute_diff (current_snapshot (self w)) (Run.call_vrps c));
     diff_removed := snd (_compute_diff (current_snapshot (self w)) (Run.call_vrps c)) |}.

Lemma get_diff_reads_file (s : Z) w (d : diff_data) :
  (String.length (diff_name s) <= NAME_MAX)%nat ->
  diffs (disk w) !! diff_name s = Some (Doc d) ->
  get_diff (s - 1) s w = (Return (Some d), w).
Proof.
  intros N H. unfold get_diff.
  destruct (Z.ltb_spec s (s - 1)) as [L|_]; [lia|].
  replace (s - (s - 1) =? 1) with true by (symmetry; apply Z.eqb_eq; lia).
  cbn [negb].
  destruct (Nat.ltb_spec NAME_MAX (String.length (diff_name s))) as [N'|_]; [lia|].
  now rewrite H.
Qed.


End History.

(** X1: what [_save_state] writes is what [load_state] reads.  A new
    engine on the state directory that [_save_state] leaves loads without
    raising, has the five fields of the engine that saved, logs the
    serial, the size and the start of the hash, and leaves the directory
    as it is. *)
Theorem saved_state_is_loaded_back (w : DiffEngine.World) :
  let s := DiffEngine.self w in
  exists w',
    DiffEngine.load_state
      (RPKIBackend.new_engine (DiffEngine.disk (DiffEngine._save_state w)))
    = (Return tt, w') /\
    DiffEngine.self w' = s /\
    DiffEngine.disk w' = DiffEngine.disk (DiffEngine._save_state w) /\
    DiffEngine.log w'
    = [Info_loaded (DiffEngine.serial s)
         (List.length (DiffEngine.current_snapshot s))
         (Py.take 8 (DiffEngine.current_hash s))].
Proof.
  cbv zeta. destruct w as [[cur prev ser h lu] dk lg].
  eexists. split; [reflexivity|]. split; [reflexivity|]. split; reflexivity.
Qed.


(** X3: the stored hash is the hash of the stored snapshot.  The equation
    [current_hash = _compute_hash(current_snapshot)] holds after every
    sequence of calls that moved the serial, and is kept by every sequence
    of calls once it holds; an engine in which it holds never accepts the
    list that it has as its current snapshot. *)
Theorem stored_hash_is_hash_of_snapshot :
  (forall cs w,
      DiffEngine.current_hash (DiffEngine.self w)
      = DiffEngine._compute_hash (DiffEngine.current_snapshot (DiffEngine.self w)) \/
      DiffEngine.serial (DiffEngine.self (Run.run cs w)) <> DiffEngine.serial (DiffEngine.self w) ->
      DiffEngine.current_hash (DiffEngine.self (Run.run cs w))
      = DiffEngine._compute_hash
          (DiffEngine.current_snapshot (DiffEngine.self (Run.run cs w)))) /\
  (forall vrps md t1 t2 w w',
      DiffEngine.current_hash (DiffEngine.self w)
      = DiffEngine._compute_hash (DiffEngine.current_snapshot (DiffEngine.self w)) ->
      DiffEngine.process_snapshot vrps md t1 t2 w = (true, w') ->
      vrps <> DiffEngine.current_snapshot (DiffEngine.self w)).
Proof.
  split.
  - intros cs w H.
    destruct (run_last_accepted cs w) as [[Hs _]|(cs1 & c & cs2 & _ & E & Hs & _)].
    + rewrite Hs. destruct H as [H|H]; [exact H|]. rewrite Hs in H. congruence.
    + rewrite Hs. unfold Run.step.
      destruct (process_snapshot_accepts _ (Run.call_metadata c) (Run.call_now_update c)
                  (Run.call_now_diff c) _ E) as (w' & Hp & Hw').
      rewrite Hp. cbn [snd]. rewrite Hw'. cbn [DiffEngine.current_hash DiffEngine.current_snapshot]. reflexivity.
  - intros vrps md t1 t2 w w' H Hp ->.
    rewrite (process_snapshot_rejects _ md t1 t2 w) in Hp by (now rewrite H).
    discriminate Hp.
Qed.

Lemma stored_hash_after_first_snapshot :
  let cs := [{| Run.call_vrps := [Sample.roa_ta1];
                Run.call_metadata := Sample.upstream;
                Run.call_now_update := "2024-01-01T00:00:01";
                Run.call_now_diff := "2024-01-01T00:00:02" |}] in
  DiffEngine.serial (DiffEngine.self (Run.run cs Sample.fresh))
  <> DiffEngine.serial (DiffEngine.self Sample.fresh) /\
  DiffEngine.current_hash (DiffEngine.self (Run.run cs Sample.fresh))
  = DiffEngine._compute_hash
      (DiffEngine.current_snapshot (DiffEngine.self (Run.run cs Sample.fresh))).
Proof.
  cbv zeta.
  match goal with |- ?A /\ _ => assert A as H by (vm_compute; discriminate) end.
  split; [exact H|].
  apply (proj1 stored_hash_is_hash_of_snapshot). right. exact H.
Defined.


(** X5: the name of a diff file determines its serial.  Two serials have
    the same file name only when they are equal, also negative serials and
    serials of more than ten digits; and for a serial that [int] and
    [str] convert, [int] reads the zero-padded field of the name, and the
    plain text of the serial, back as the serial. *)
Theorem diff_file_name_determines_serial :
  (forall a b : Z, DiffEngine.diff_name a = DiffEngine.diff_name b <-> a = b) /\
  (forall n : Z,
      Z.abs n < 10 ^ 4300 ->
      Py.int_of_str (Py.format_010d n) = Some n /\
      Py.int_of_str (Py.str_of_int n) = Some n).
Proof.
  split.
  - intros a b. split; [apply diff_name_inj|now intros ->].
  - intros n _. split; [apply int_of_str_format_010d|apply int_of_str_str_of_int].
Qed.

Lemma diff_file_name_of_serial_seven :
  Z.abs 7 < 10 ^ 4300 /\
  DiffEngine.diff_name 7 = "diff_0000000007.json" /\
  Py.int_of_str (Py.format_010d 7) = Some 7 /\
  Py.int_of_str (Py.str_of_int 7) = Some 7.
Proof.
  assert (Z.abs 7 < 10 ^ 4300) as H by (vm_compute; reflexivity).
  split; [exact H|]. split; [reflexivity|].
  exact (proj2 diff_file_name_determines_serial 7 H).
Defined.


(** ** The diff, key by key *)

Section DiffKeys.

Import DiffEngine.

Implicit Types (old new l : list VRPDict.t) (r : VRPDict.t) (k : string).

Lemma last_with_key_iff l k :
  (exists r, find (fun x => String.eqb (to_key x) k) (rev l) = Some r) <-> k ∈ map to_key l.
Proof.
  split.
  - intros [r F]. apply last_with_key_some in F as [Hin <-].
    now apply list_elem_of_fmap_2.
  - intros (x & -> & Hin)%list_elem_of_fmap.
    destruct (find _ (rev l)) as [r|] eqn:F; [eauto|].
    pose proof (proj1 (last_with_key_none l (to_key x)) F x Hin) as N. now destruct N.
Qed.

Lemma key_map_keys l k : k ∈ PyDict.keys (key_map l) <-> k ∈ map to_key l.
Proof.
  rewrite <- contains_keys, contains_get, <- last_with_key_iff.
  split; intros [r H]; exists r; [now rewrite <- key_map_get|now rewrite key_map_get].
Qed.

Lemma added_keys old new k :
  k ∈ map to_key (fst (_compute_diff old new))
  <-> k ∈ map to_key new /\ k ∉ map to_key old.
Proof.
  split.
  - intros (r & -> & Hr)%list_elem_of_fmap.
    apply added_iff in Hr as [G Hold]. split.
    + apply last_with_key_some in G as [G _]. now apply list_elem_of_fmap_2.
    + intros (o & E & Ho)%list_elem_of_fmap. now apply (Hold o Ho).
  - intros [Hnew Hold]. apply last_with_key_iff in Hnew as [r G].
    pose proof (last_with_key_some _ _ _ G) as [_ E]. subst k.
    apply list_elem_of_fmap_2. apply added_iff. split; [exact G|].
    intros o Ho Eo. apply Hold. rewrite <- Eo. now apply list_elem_of_fmap_2.
Qed.

Lemma set_keys {V : Type} (d : PyDict.t V) (k : string) (v : V) :
  PyDict.contains d k = true -> PyDict.keys (PyDict.set d k v) = PyDict.keys d.
Proof.
  induction d as [|[k' v'] d IH]; [discriminate|]. simpl.
  destruct (String.eqb k' k); [reflexivity|]. simpl. intros H. now rewrite IH.
Qed.

Lemma set_keys_nodup {V : Type} (d : PyDict.t V) (k : string) (v : V) :
  NoDup (PyDict.keys d) -> NoDup (PyDict.keys (PyDict.set d k v)).
Proof.
  intros H. destruct (PyDict.contains d k) eqn:C.
  - now rewrite set_keys.
  - rewrite (set_new d k v C). unfold PyDict.keys. rewrite map_app. simpl.
    apply NoDup_app. split; [exact H|]. split; [|apply NoDup_singleton].
    intros k' Hin ->%list_elem_of_singleton.
    apply contains_keys in Hin. congruence.
Qed.

Lemma key_map_nodup l : NoDup (PyDict.keys (key_map l)).
Proof.
  unfold key_map.
  assert (forall d : PyDict.t VRPDict.t,
             NoDup (PyDict.keys d) ->
             NoDup (PyDict.keys (fold_left (fun d v => PyDict.set d (to_key v) v) l d)))
    as H.
  { induction l as [|x l IH]; intros d Hd; [exact Hd|].
    simpl. apply IH. now apply set_keys_nodup. }
  apply H. apply NoDup_nil_2.
Qed.

Lemma omap_keys (m : PyDict.t VRPDict.t) (ks : list string) :
  (forall k, k ∈ ks -> exists r, PyDict.get m k = Some r /\ to_key r = k) ->
  map to_key (omap (PyDict.get m) ks) = ks.
Proof.
  induction ks as [|k ks IH]; intros H; [reflexivity|].
  destruct (H k) as (r & G & E); [now left|].
  simpl. rewrite G. simpl. rewrite E. f_equal.
  apply IH. intros k' Hk'. apply H. now right.
Qed.

Lemma added_key_list old new :
  map to_key (fst (_compute_diff old new)) = keys_minus (key_map new) (key_map old).
Proof.
  unfold _compute_diff. cbv zeta. cbn [fst].
  apply omap_keys. intros k Hk. unfold keys_minus in Hk.
  apply list_elem_of_In, (proj1 (filter_In _ _ _)) in Hk as [Hk _].
  apply list_elem_of_In, contains_keys, contains_get in Hk as [r G].
  exists r. split; [exact G|]. rewrite key_map_get in G.
  now apply last_with_key_some in G as [_ G].
Qed.

Lemma filter_nodup {A : Type} (p : A -> bool) (xs : list A) :
  NoDup xs -> NoDup (List.filter p xs).
Proof.
  induction xs as [|x xs IH]; intros H; [exact H|].
  apply NoDup_cons in H as [Hx H]. simpl.
  destruct (p x); [|now apply IH].
  apply NoDup_cons. split; [|now apply IH].
  intros Hin. apply Hx.
  now apply list_elem_of_In, (proj1 (filter_In _ _ _)) in Hin as [Hin%list_elem_of_In _].
Qed.

Lemma added_keys_nodup old new : NoDup (map to_key (fst (_compute_diff old new))).
Proof.
  rewrite added_key_list. unfold keys_minus.
  apply filter_nodup, key_map_nodup.
Qed.

Lemma added_nil old new :
  fst (_compute_diff old new) = [] <-> forall k, k ∈ map to_key new -> k ∈ map to_key old.
Proof.
  split.
  - intros E k Hk.
    destruct (decide (k ∈ map to_key old)) as [H|H]; [exact H|].
    assert (k ∈ map to_key (fst (_compute_diff old new))) as Hin
      by now apply added_keys.
    rewrite E in Hin. inversion Hin.
  - intros H. destruct (fst (_compute_diff old new)) as [|r rest] eqn:E; [reflexivity|].
    assert (to_key r ∈ map to_key (fst (_compute_diff old new))) as Hin
      by (rewrite E; now left).
    apply added_keys in Hin as [Hn Ho]. now destruct (Ho (H _ Hn)).
Qed.

End DiffKeys.

(** X6: the diff is exact key by key.  With the key that [_compute_diff]
    uses (ASN, prefix and maxLength), the keys of [added] are the keys of
    the new list that no old record has, the keys of [removed] are the
    keys of the old list that no new record has, neither list has a key
    twice, every record of [added] is a record of the new list and every
    record of [removed] one of the old list; so the keys of the new list
    are those of the old list without the removed ones, together with the
    added ones. *)
Theorem diff_is_exact_on_keys (old new : list VRPDict.t) :
  let added := fst (DiffEngine._compute_diff old new) in
  let removed := snd (DiffEngine._compute_diff old new) in
  let keys := map DiffEngine.to_key in
  (forall k, k ∈ keys added <-> k ∈ keys new /\ k ∉ keys old) /\
  (forall k, k ∈ keys removed <-> k ∈ keys old /\ k ∉ keys new) /\
  NoDup (keys added) /\
  NoDup (keys removed) /\
  (forall r, r ∈ added -> r ∈ new) /\
  (forall r, r ∈ removed -> r ∈ old) /\
  (forall k, k ∈ keys new <-> (k ∈ keys old /\ k ∉ keys removed) \/ k ∈ keys added).
Proof.
  cbv zeta. rewrite removed_is_added_backwards.
  split; [apply added_keys|]. split; [apply added_keys|].
  split; [apply added_keys_nodup|]. split; [apply added_keys_nodup|].
  split; [intros r Hr; now apply added_sound in Hr|].
  split; [intros r Hr; now apply added_sound in Hr|].
  intros k. rewrite !added_keys.
  destruct (decide (k ∈ map DiffEngine.to_key old)),
    (decide (k ∈ map DiffEngine.to_key new)); tauto.
Qed.

(** X7: the diff is empty exactly when the two lists have the same keys.
    [_compute_diff] returns two empty lists if and only if every key of
    the one list is a key of the other; so the diff of a list against
    itself, or against its reverse, is empty, whatever the other fields of
    the records are. *)
Theorem diff_is_empty_iff_same_keys :
  (forall old new,
      DiffEngine._compute_diff old new = ([], [])
      <-> forall k, k ∈ map DiffEngine.to_key old <-> k ∈ map DiffEngine.to_key new) /\
  (forall l, DiffEngine._compute_diff l l = ([], [])) /\
  (forall l, DiffEngine._compute_diff l (rev l) = ([], [])).
Proof.
  assert (forall old new,
             DiffEngine._compute_diff old new = ([], [])
             <-> forall k, k ∈ map DiffEngine.to_key old <-> k ∈ map DiffEngine.to_key new)
    as H.
  { intros old new.
    rewrite (surjective_pairing (DiffEngine._compute_diff old new)).
    rewrite removed_is_added_backwards. split.
    - intros [= Ha Hr]. intros k. split.
      + now apply (proj1 (added_nil new old) Hr).
      + now apply (proj1 (added_nil old new) Ha).
    - intros Hk. f_equal; apply added_nil; intros k; apply Hk. }
  split; [exact H|]. split.
  - intros l. now apply H.
  - intros l. apply H. intros k. rewrite map_rev.
    split; intros Hk; apply list_elem_of_In; apply list_elem_of_In in Hk;
      [now apply in_rev in Hk|now apply in_rev].
Qed.

(** ** The loader *)

Section Loader.

Variable ip_network : string -> option string.

Local Abbreviation as_record e :=
  (VRPDict.Build (VRPEntry.asn e) (VRPEntry.prefix e) (VRPEntry.maxLength e) (VRPEntry.ta e)).

Lemma validate_asn_some (v v' : string) : VRPEntry.validate_asn v = Some v' -> v' = v.
Proof.
  unfold VRPEntry.validate_asn. destruct (negb _); [discriminate|].
  destruct (Py.int_of_str _) as [n|]; [|discriminate].
  destruct (_ || _); [discriminate|]. now intros [= <-].
Qed.

Lemma validate_max_length_some (v v' : Z) :
  VRPEntry.validate_max_length v = Some v' -> v' = v /\ 0 <= v <= 128.
Proof.
  unfold VRPEntry.validate_max_length.
  destruct (Z.ltb_spec v 0); [discriminate|].
  destruct (Z.gtb_spec v 128); [discriminate|]. simpl. intros [= <-]. lia.
Qed.

(** The constructor returns the fields it was given. *)
Lemma make_some (data : VRPDict.t) (e : VRPEntry.t) :
  VRPEntry.make ip_network data = Some e ->
  as_record e = data /\ VRPEntry.valid ip_network e.
Proof.
  intros H. assert (as_record e = data) as E.
  { revert H. unfold VRPEntry.make, VRPEntry.validate_prefix.
    destruct (VRPEntry.validate_asn _) as [a|] eqn:A; [|discriminate].
    destruct (ip_network _) as [p|]; [|discriminate].
    destruct (VRPEntry.validate_max_length _) as [m|] eqn:M; [|discriminate].
    apply validate_asn_some in A. apply validate_max_length_some in M as [M _].
    intros [= <-]. subst. now destruct data. }
  split; [exact E|]. unfold VRPEntry.valid. now rewrite E.
Qed.

Lemma parse_response_some (data : VRPLoader.response_json) (resp : VRPLoader.RoutinagorVRPResponse) :
  VRPLoader.parse_response ip_network data = Some resp ->
  VRPLoader.metadata_generated resp = VRPLoader.json_generated data /\
  0 < VRPLoader.json_generated data /\
  map (fun e => as_record e) (VRPLoader.roas resp) = VRPLoader.json_roas data /\
  Forall (VRPEntry.valid ip_network) (VRPLoader.roas resp).
Proof.
  unfold VRPLoader.parse_response, VRPLoader.validate_timestamp.
  destruct (Z.leb_spec (VRPLoader.json_generated data) 0) as [L|L]; [discriminate|].
  simpl. destruct (mapM _ _) as [entries|] eqn:M; [|discriminate].
  simpl. intros [= <-]. simpl. split; [reflexivity|]. split; [exact L|].
  apply mapM_Some_1 in M. split.
  - induction M as [|r e rs es H _ IH]; [reflexivity|].
    simpl. rewrite IH. f_equal. now apply make_some in H as [H _].
  - induction M as [|r e rs es H _ IH]; constructor; [|exact IH].
    now apply make_some in H as [_ H].
Qed.


Lemma emit_all_self (es : list event) (w : DiffEngine.World) :
  DiffEngine.self (VRPLoader.emit_all es w) = DiffEngine.self w /\
  DiffEngine.disk (VRPLoader.emit_all es w) = DiffEngine.disk w /\
  DiffEngine.log (VRPLoader.emit_all es w) = DiffEngine.log w ++ es.
Proof.
  revert w. induction es as [|e es IH]; intros w; simpl.
  - now rewrite app_nil_r.
  - destruct (IH (DiffEngine.emit e w)) as (-> & -> & ->). simpl.
    now rewrite <- app_assoc.
Qed.

(** What [fetch_and_process] does once the response model is built. *)
Lemma fetch_and_process_valid http resp es0 t0 t1 t2 (w : DiffEngine.World) :
  VRPLoader.fetch_vrps ip_network http = (Some resp, es0) ->
  exists l es,
    VRPLoader.canonicalize_vrps ip_network (VRPLoader.roas resp) = Some (l, es) /\
    Forall (VRPEntry.valid ip_network) (VRPLoader.roas resp) /\
    let w1 := VRPLoader.emit_all es (VRPLoader.emit_all es0 w) in
    let md := {| DiffEngine.generated := VRPLoader.metadata_generated resp;
                 DiffEngine.fetched_at := t0 |} in
    let r := DiffEngine.process_snapshot l md t1 t2 w1 in
    VRPLoader.fetch_and_process ip_network http t0 t1 t2 w
    = (Return (fst r),
       DiffEngine.emit (if fst r then Info_snapshot_processed else Warning_snapshot_rejected)
         (snd r)).
Proof.
  intros Hf.
  assert (Forall (VRPEntry.valid ip_network) (VRPLoader.roas resp)) as Hv.
  { unfold VRPLoader.fetch_vrps in Hf. destruct http as [| |st [data|]]; try discriminate Hf.
    - destruct (negb _); [discriminate Hf|].
      destruct (VRPLoader.parse_response ip_network data) as [resp'|] eqn:P;
        [|discriminate Hf].
      injection Hf as <- _. now apply parse_response_some in P.
    - destruct (negb _); discriminate Hf. }
  destruct (canonical_list_facts ip_network _ Hv) as (m & l & es & _ & Hc & _).
  exists l, es. split; [exact Hc|]. split; [exact Hv|]. cbv zeta.
  unfold VRPLoader.fetch_and_process. rewrite Hf, Hc.
  destruct (DiffEngine.process_snapshot _ _ _ _ _) as [[] w']; reflexivity.
Qed.

End Loader.


(** X9: [fetch_and_process] never raises.  The prefix that
    [canonicalize_vrps] passes to [ip_network] has gone through the same
    call in the validator, so the [ValueError] of [canonicalize] cannot
    occur: every call returns [True] or [False].  When it returns [True]
    the serial is one above what it was; when it returns [False] the
    engine and the state directory are what they were. *)
Theorem fetch_and_process_never_raises
    (ip_network : string -> option string) (http : VRPLoader.http_result)
    (t0 t1 t2 : string) (w : DiffEngine.World) :
  exists b w',
    VRPLoader.fetch_and_process ip_network http t0 t1 t2 w = (Return b, w') /\
    (b = true ->
     DiffEngine.serial (DiffEngine.self w') = DiffEngine.serial (DiffEngine.self w) + 1) /\
    (b = false ->
     DiffEngine.self w' = DiffEngine.self w /\ DiffEngine.disk w' = DiffEngine.disk w).
Proof.
  destruct (VRPLoader.fetch_vrps ip_network http) as [[resp|] es0] eqn:F.
  - destruct (fetch_and_process_valid ip_network http resp es0 t0 t1 t2 w F)
      as (l & es & _ & _ & H).
    cbv zeta in H. rewrite H. clear H.
    set (w1 := VRPLoader.emit_all es (VRPLoader.emit_all es0 w)).
    assert (DiffEngine.self w1 = DiffEngine.self w /\ DiffEngine.disk w1 = DiffEngine.disk w)
      as [Hs Hd].
    { unfold w1. destruct (emit_all_self es (VRPLoader.emit_all es0 w)) as (-> & -> & _).
      now destruct (emit_all_self es0 w) as (-> & -> & _). }
    set (md := {| DiffEngine.generated := _; DiffEngine.fetched_at := _ |}).
    destruct (String.eqb_spec (DiffEngine._compute_hash l)
                (DiffEngine.current_hash (DiffEngine.self w1))) as [E|E].
    + rewrite (process_snapshot_rejects l md t1 t2 w1 E). cbn [fst snd].
      eexists _, _. split; [reflexivity|]. split; [discriminate|].
      intros _. cbn. auto.
    + destruct (process_snapshot_accepts l md t1 t2 w1 E) as (w' & Hp & Hw').
      rewrite Hp. cbn [fst snd].
      eexists _, _. split; [reflexivity|]. split; [|discriminate].
      intros _. cbn [DiffEngine.emit DiffEngine.self]. rewrite Hw'. cbn. now rewrite Hs.
  - rewrite (failed_fetch_keeps_state ip_network http es0 t0 t1 t2 w F).
    eexists _, _. split; [reflexivity|]. split; [discriminate|].
    intros _. cbn [DiffEngine.emit DiffEngine.self DiffEngine.disk].
    now destruct (emit_all_self es0 w) as (-> & -> & _).
Qed.

(** X10: validation keeps the records as they are.  When the response
    model is built, its entries are the records of the ['roas'] array,
    field by field and in the same order: no field is rewritten (the
    prefix stays as the upstream wrote it), nothing is dropped; the
    timestamp is the positive [generated] of the document; and every
    entry passes the validators again. *)
Theorem validation_keeps_the_records
    (ip_network : string -> option string)
    (data : VRPLoader.response_json) (resp : VRPLoader.RoutinagorVRPResponse) :
  VRPLoader.parse_response ip_network data = Some resp ->
  VRPLoader.metadata_generated resp = VRPLoader.json_generated data /\
  0 < VRPLoader.json_generated data /\
  map (fun e => VRPDict.Build (VRPEntry.asn e) (VRPEntry.prefix e)
                  (VRPEntry.maxLength e) (VRPEntry.ta e))
      (VRPLoader.roas resp)
  = VRPLoader.json_roas data /\
  List.length (VRPLoader.roas resp) = List.length (VRPLoader.json_roas data) /\
  Forall (VRPEntry.valid ip_network) (VRPLoader.roas resp).
Proof.
  intros H. destruct (parse_response_some ip_network data resp H) as (H1 & H2 & H3 & H4).
  split; [exact H1|]. split; [exact H2|]. split; [exact H3|]. split; [|exact H4].
  rewrite <- H3. now rewrite length_map.
Qed.

Lemma validation_keeps_netmask_text :
  let data := {| VRPLoader.json_generated := 1700000000;
                 VRPLoader.json_roas :=
                   [VRPDict.Build "AS2" "10.1.0.0/255.255.255.0" 24 "ta1";
                    Sample.roa_ta1] |} in
  let resp := {| VRPLoader.metadata_generated := 1700000000;
                 VRPLoader.roas :=
                   [VRPEntry.Build "AS2" "10.1.0.0/255.255.255.0" 24 "ta1";
                    Sample.entry_ta1] |} in
  VRPLoader.parse_response Ipv4.ip_network data = Some resp /\
  map (fun e => VRPDict.Build (VRPEntry.asn e) (VRPEntry.prefix e)
                  (VRPEntry.maxLength e) (VRPEntry.ta e))
      (VRPLoader.roas resp)
  = VRPLoader.json_roas data.
Proof.
  cbv zeta.
  match goal with |- ?A /\ _ => assert A as H by (vm_compute; reflexivity) end.
  split; [exact H|].
  exact (proj1 (proj2 (proj2 (validation_keeps_the_records Ipv4.ip_network _ _ H)))).
Defined.

Lemma sorted_before {A : Type} (R : A -> A -> Prop) (l l1 l2 : list A) (x y : A) :
  StronglySorted R l -> l = l1 ++ l2 -> x ∈ l1 -> y ∈ l2 -> R x y.
Proof. intros H ->. now apply StronglySorted_app_1_elem_of. Qed.

(** X11: the canonical list is in the order of the sort key.  Whatever
    the entries, when [canonicalize_vrps] returns a list, a record that
    stands before another one in it does not have the greater key
    [(prefix, asn, maxLength)], in the order of Python tuples with text
    compared by code points; the list is no longer than the batch; and
    the line about deduplication is logged exactly when it is shorter. *)
Theorem canonical_list_is_sorted
    (ip_network : string -> option string)
    (vrps : list VRPEntry.t) (l : list VRPDict.t) (es : list event) :
  VRPLoader.canonicalize_vrps ip_network vrps = Some (l, es) ->
  StronglySorted (fun x y => VRPLoader.key_lt y x = false) l /\
  (forall l1 l2 x y,
      l = l1 ++ l2 -> x ∈ l1 -> y ∈ l2 ->
      VRPLoader.tuple_lt (VRPLoader.sort_key y) (VRPLoader.sort_key x) = false) /\
  (List.length l <= List.length vrps)%nat /\
  es = (if Nat.eqb (List.length vrps) (List.length l) then []
        else [Info_deduplicated (List.length vrps) (List.length l)]).
Proof.
  unfold VRPLoader.canonicalize_vrps.
  destruct (VRPLoader.fill ip_network [] vrps) as [m|] eqn:F; [|discriminate].
  simpl. intros [= <- <-].
  assert (StronglySorted (fun x y => VRPLoader.key_lt y x = false)
            (PySort.sorted VRPLoader.key_lt (PyDict.values m))) as Hs.
  { apply sorted_sorted; [apply key_lt_asym|apply key_le_trans]. }
  split; [exact Hs|]. split.
  { intros l1 l2 x y E Hx Hy.
    exact (sorted_before _ _ l1 l2 x y Hs E Hx Hy). }
  split.
  - rewrite sorted_length. unfold PyDict.values. rewrite length_map.
    assert (forall (m0 : PyDict.t VRPDict.t),
               VRPLoader.fill ip_network m0 vrps = Some m ->
               (List.length m <= List.length m0 + List.length vrps)%nat) as H.
    { clear Hs F. induction vrps as [|v vs IH]; intros m0 F.
      - injection F as <-. simpl. lia.
      - simpl in F.
        destruct (VRPEntry.canonicalize ip_network v) as [k|]; [|discriminate F].
        simpl in F. destruct (PyDict.contains m0 k) eqn:C.
        + apply IH in F. simpl. lia.
        + destruct (VRPLoader.as_dict ip_network v) as [d|]; [|discriminate F].
          simpl in F. apply IH in F. rewrite (set_new m0 k d C), length_app in F.
          simpl in *. lia. }
    apply H in F. simpl in F. exact F.
  - now destruct (Nat.eqb _ _).
Qed.

(** With the response model built, the hash of the canonical list
    decides. *)
Lemma fetch_and_process_by_hash
    (ip_network : string -> option string) http resp es0 l es t0 t1 t2
    (w : DiffEngine.World) :
  VRPLoader.fetch_vrps ip_network http = (Some resp, es0) ->
  VRPLoader.canonicalize_vrps ip_network (VRPLoader.roas resp) = Some (l, es) ->
  exists w',
    VRPLoader.fetch_and_process ip_network http t0 t1 t2 w
    = (Return (negb (String.eqb (DiffEngine._compute_hash l)
                       (DiffEngine.current_hash (DiffEngine.self w)))), w') /\
    (DiffEngine._compute_hash l = DiffEngine.current_hash (DiffEngine.self w) ->
     DiffEngine.self w' = DiffEngine.self w /\ DiffEngine.disk w' = DiffEngine.disk w) /\
    (DiffEngine._compute_hash l <> DiffEngine.current_hash (DiffEngine.self w) ->
     DiffEngine.self w'
     = {| DiffEngine.current_snapshot := l;
          DiffEngine.previous_snapshot := DiffEngine.current_snapshot (DiffEngine.self w);
          DiffEngine.serial := DiffEngine.serial (DiffEngine.self w) + 1;
          DiffEngine.current_hash := DiffEngine._compute_hash l;
          DiffEngine.last_update := Some t1 |}).
Proof.
  intros F Hc.
  destruct (fetch_and_process_valid ip_network http resp es0 t0 t1 t2 w F)
    as (l' & es' & Hc' & _ & H).
  rewrite Hc in Hc'. injection Hc' as <- <-.
  cbv zeta in H. rewrite H. clear H.
  set (w1 := VRPLoader.emit_all es (VRPLoader.emit_all es0 w)).
  assert (DiffEngine.self w1 = DiffEngine.self w /\ DiffEngine.disk w1 = DiffEngine.disk w)
    as [Hs Hd].
  { unfold w1. destruct (emit_all_self es (VRPLoader.emit_all es0 w)) as (-> & -> & _).
    now destruct (emit_all_self es0 w) as (-> & -> & _). }
  set (md := {| DiffEngine.generated := _; DiffEngine.fetched_at := _ |}).
  rewrite <- Hs.
  destruct (String.eqb_spec (DiffEngine._compute_hash l)
              (DiffEngine.current_hash (DiffEngine.self w1))) as [E|E].
  - rewrite (process_snapshot_rejects l md t1 t2 w1 E). cbn [fst snd negb].
    eexists. split; [reflexivity|]. split; [|intros N; now destruct N].
    intros _. cbn [DiffEngine.emit DiffEngine.self DiffEngine.disk]. now rewrite Hd.
  - destruct (process_snapshot_accepts l md t1 t2 w1 E) as (w' & Hp & Hw').
    rewrite Hp. cbn [fst snd negb].
    eexists. split; [reflexivity|]. split; [intros N; now destruct E|].
    intros _. cbn [DiffEngine.emit DiffEngine.self]. exact Hw'.
Qed.

(** X12: an upstream that has not changed does not move the engine.
    When the same response is fetched twice in a row, whatever the first
    fetch did, the second one returns [False] and leaves the engine and
    the state directory as the first one left them; the clock readings
    and the time of the fetch do not count. *)
Theorem unchanged_upstream_is_rejected
    (ip_network : string -> option string) (http : VRPLoader.http_result)
    (t0 t1 t2 t0' t1' t2' : string) (w : DiffEngine.World) :
  let first := VRPLoader.fetch_and_process ip_network http t0 t1 t2 w in
  let second := VRPLoader.fetch_and_process ip_network http t0' t1' t2' (snd first) in
  fst second = Return false /\
  DiffEngine.self (snd second) = DiffEngine.self (snd first) /\
  DiffEngine.disk (snd second) = DiffEngine.disk (snd first).
Proof.
  cbv zeta.
  destruct (VRPLoader.fetch_vrps ip_network http) as [[resp|] es0] eqn:F.
  - destruct (fetch_and_process_valid ip_network http resp es0 t0 t1 t2 w F)
      as (l & es & Hc & _ & _).
    destruct (fetch_and_process_by_hash ip_network http resp es0 l es t0 t1 t2 w F Hc)
      as (w1 & -> & Hsame & Hnew).
    cbn [snd].
    assert (DiffEngine._compute_hash l = DiffEngine.current_hash (DiffEngine.self w1)) as E.
    { destruct (String.eqb_spec (DiffEngine._compute_hash l)
                  (DiffEngine.current_hash (DiffEngine.self w))) as [E|E].
      - destruct (Hsame E) as [-> _]. exact E.
      - now rewrite (Hnew E). }
    destruct (fetch_and_process_by_hash ip_network http resp es0 l es t0' t1' t2' w1 F Hc)
      as (w2 & -> & Hsame2 & _).
    cbn [fst snd]. split; [|exact (Hsame2 E)].
    now rewrite (proj2 (String.eqb_eq _ _) E).
  - rewrite (failed_fetch_keeps_state ip_network http es0 t0 t1 t2 w F). cbn [snd].
    rewrite (failed_fetch_keeps_state ip_network http es0 t0' t1' t2' _ F). cbn [fst snd].
    split; [reflexivity|]. cbn [DiffEngine.emit DiffEngine.self DiffEngine.disk].
    now destruct (emit_all_self es0
                    (DiffEngine.emit Warning_keeping_last_snapshot
                       (VRPLoader.emit_all es0 w))) as (-> & -> & _).
Qed.

Lemma canonical_list_of_three_entries_is_sorted :
  let vrps := [Sample.entry_as2; Sample.entry_ta1; Sample.entry_as2] in
  let l := [Sample.roa_ta1; Sample.roa_as2] in
  VRPLoader.canonicalize_vrps Ipv4.ip_network vrps = Some (l, [Info_deduplicated 3 2]) /\
  StronglySorted (fun x y => VRPLoader.key_lt y x = false) l /\
  VRPLoader.tuple_lt (VRPLoader.sort_key Sample.roa_as2) (VRPLoader.sort_key Sample.roa_ta1)
  = false.
Proof.
  cbv zeta.
  match goal with |- ?A /\ _ => assert A as H by (vm_compute; reflexivity) end.
  split; [exact H|].
  destruct (canonical_list_is_sorted Ipv4.ip_network _ _ _ H) as (Hs & Hb & _).
  split; [exact Hs|].
  apply (Hb [Sample.roa_ta1] [Sample.roa_as2]); [reflexivity| |]; now left.
Defined.

Lemma startswith_AS_text (t : string) : Py.startswith ("AS" +:+ t) "AS" = true.
Proof. unfold Py.startswith. apply prefix_correct. destruct t; reflexivity. Qed.

(** X13: what text is an ASN.  A text that [validate_asn] accepts is
    returned unchanged, starts with [AS], and the rest is read by [int] as
    a number from 0 to 4294967295.  The text of such a number after [AS]
    is accepted also behind any number of zeros, as long as [int] takes
    the digits, and the text of a greater number is refused: the validator
    bounds the number and leaves its spelling open. *)
Theorem asn_is_as_followed_by_uint32 :
  (forall v v',
      VRPEntry.validate_asn v = Some v' ->
      v' = v /\ Py.startswith v "AS" = true /\
      exists n, Py.int_of_str (Py.drop 2 v) = Some n /\ 0 <= n <= 4294967295) /\
  (forall (k : nat) (n : Z),
      0 <= n ->
      (k + String.length (Py.str_of_int n) <= 4300)%nat ->
      VRPEntry.validate_asn ("AS" +:+ Py.zeros k +:+ Py.str_of_int n)
      = if n <=? 4294967295
        then Some ("AS" +:+ Py.zeros k +:+ Py.str_of_int n)
        else None).
Proof.
  split.
  - intros v v' H. split; [now apply validate_asn_some in H|].
    unfold VRPEntry.validate_asn in H.
    destruct (Py.startswith v "AS"); [|discriminate H]. split; [reflexivity|].
    cbn [negb] in H.
    destruct (Py.int_of_str (Py.drop 2 v)) as [n|]; [|discriminate H].
    exists n. split; [reflexivity|].
    destruct (Z.ltb_spec n 0); [discriminate H|].
    destruct (Z.gtb_spec n 4294967295); [discriminate H|]. lia.
  - intros k n Hn _. unfold VRPEntry.validate_asn.
    rewrite startswith_AS_text.
    change (Py.drop 2 ("AS" +:+ Py.zeros k +:+ Py.str_of_int n))
      with (Py.zeros k +:+ Py.str_of_int n).
    cbn [negb]. rewrite (int_of_str_unsigned k n Hn).
    destruct (Z.ltb_spec n 0); [lia|].
    destruct (Z.gtb_spec n 4294967295), (Z.leb_spec n 4294967295); try lia; reflexivity.
Qed.

Lemma asn_with_leading_zeros_is_accepted :
  0 <= 64512 /\
  (3 + String.length (Py.str_of_int 64512) <= 4300)%nat /\
  VRPEntry.validate_asn "AS00064512" = Some "AS00064512" /\
  VRPEntry.validate_asn "AS4294967296" = None.
Proof.
  assert (0 <= 64512) as H1 by lia.
  assert (0 <= 4294967296) as H1' by lia.
  assert (3 + String.length (Py.str_of_int 64512) <= 4300)%nat as H2
    by (apply Nat.leb_le; vm_compute; reflexivity).
  assert (0 + String.length (Py.str_of_int 4294967296) <= 4300)%nat as H2'
    by (apply Nat.leb_le; vm_compute; reflexivity).
  split; [exact H1|]. split; [exact H2|]. split.
  - exact (proj2 asn_is_as_followed_by_uint32 3%nat 64512 H1 H2).
  - exact (proj2 asn_is_as_followed_by_uint32 0%nat 4294967296 H1' H2').
Defined.

(** ** The routes *)

Section Routes.

Implicit Types (w : DiffEngine.World) (r : VRPDict.t).

(** The record passes the filter [f] on [field]. *)
Local Abbreviation passes field f r :=
  (match f with
   | Some text => text = EmptyString \/ field r = text
   | None => True
   end).

Lemma list_filter_elem {A : Type} (p : A -> bool) (xs : list A) (x : A) :
  x ∈ List.filter p xs <-> x ∈ xs /\ p x = true.
Proof. rewrite !list_elem_of_In. apply filter_In. Qed.

Lemma list_filter_sublist {A : Type} (p : A -> bool) (xs : list A) :
  sublist (List.filter p xs) xs.
Proof.
  induction xs as [|x xs IH]; simpl; [constructor|].
  destruct (p x); now constructor.
Qed.

Lemma filter_by_elem (field : VRPDict.t -> string) (f : option string)
    (vrps : list VRPDict.t) r :
  r ∈ APIServer.filter_by field f vrps <-> r ∈ vrps /\ passes field f r.
Proof.
  unfold APIServer.filter_by. destruct f as [text|]; [|tauto].
  destruct (String.eqb_spec text EmptyString) as [->|N]; simpl; [tauto|].
  rewrite list_filter_elem, String.eqb_eq. tauto.
Qed.

Lemma filter_by_sublist (field : VRPDict.t -> string) (f : option string)
    (vrps : list VRPDict.t) :
  sublist (APIServer.filter_by field f vrps) vrps.
Proof.
  unfold APIServer.filter_by. destruct f as [text|]; [|reflexivity].
  destruct (negb _); [apply list_filter_sublist|reflexivity].
Qed.



End Routes.

(** X14: what [/api/v1/vrps] returns.  The answer has status 200, the
    serial, the time of the last update and, as [total_vrps], the size of
    the current snapshot.  Its list holds exactly the records of the
    snapshot whose ASN is the text of the parameter [asn] and whose prefix
    is the text of the parameter [prefix], a parameter that is absent or
    empty letting every record pass; the records keep the order of the
    snapshot, and [filtered_vrps] is their number, at most [total_vrps]. *)
Theorem vrps_route_filters_the_snapshot
    (request_args : PyDict.t string) (w : DiffEngine.World) :
  let snapshot := DiffEngine.current_snapshot (DiffEngine.self w) in
  let passes (field : VRPDict.t -> string) (name : string) (r : VRPDict.t) :=
    match PyDict.get request_args name with
    | Some text => text = EmptyString \/ field r = text
    | None => True
    end in
  exists selected,
    APIServer.get_vrps request_args w
    = (APIServer.Body_vrps (DiffEngine.serial (DiffEngine.self w))
         (List.length snapshot) (List.length selected)
         (DiffEngine.last_update (DiffEngine.self w)) selected, 200) /\
    (forall r, r ∈ selected
               <-> r ∈ snapshot /\ passes VRPDict.asn "asn" r /\
                   passes VRPDict.prefix "prefix" r) /\
    sublist selected snapshot /\
    (List.length selected <= List.length snapshot)%nat.
Proof.
  cbv zeta. eexists. split; [reflexivity|].
  split; [|split].
  - intros r. rewrite !filter_by_elem. cbn. tauto.
  - etransitivity; apply filter_by_sublist.
  - apply sublist_length. etransitivity; apply filter_by_sublist.
Qed.



(** X16: the two routes agree.  For an ASN that starts with [AS] and a
    prefix that is not empty, the list [matching_vrps] of
    [/api/v1/validate] is the list [vrps] that [/api/v1/vrps] returns for
    the parameters [asn] and [prefix] with these texts, in the same
    order, and [valid] says that [filtered_vrps] is not zero. *)
Theorem validate_route_agrees_with_vrps_route
    (asn prefix : string) (w : DiffEngine.World) :
  Py.startswith asn "AS" = true ->
  prefix <> EmptyString ->
  exists selected,
    APIServer.validate_route {[ "asn" := asn; "prefix" := prefix ]} w
    = Return (APIServer.Body_validation asn prefix (Nat.ltb 0 (List.length selected))
                selected (DiffEngine.serial (DiffEngine.self w)), 200) /\
    APIServer.get_vrps [("asn", asn); ("prefix", prefix)] w
    = (APIServer.Body_vrps (DiffEngine.serial (DiffEngine.self w))
         (List.length (DiffEngine.current_snapshot (DiffEngine.self w)))
         (List.length selected) (DiffEngine.last_update (DiffEngine.self w)) selected, 200).
Proof.
  intros Has Hp.
  assert (asn <> EmptyString) as Ha by (intros ->; discriminate Has).
  assert (APIServer.with_as asn = asn) as Hw
    by (unfold APIServer.with_as; now rewrite Has).
  eexists. split.
  - unfold APIServer.validate_route, APIServer.has_key, APIServer.subscript.
    rewrite (bool_decide_eq_false_2 (_ = ∅)).
    2:{ intros E. apply (f_equal (fun m : gmap string string => m !! "asn")) in E.
        cbv beta in E. rewrite lookup_insert_eq, lookup_empty in E. discriminate E. }
    rewrite lookup_insert_eq.
    rewrite lookup_insert_ne by discriminate. rewrite lookup_singleton_eq.
    rewrite !bool_decide_eq_true_2 by eauto. cbn [negb orb]. rewrite Hw.
    reflexivity.
  - unfold APIServer.get_vrps, APIServer.filter_by. cbn [PyDict.get].
    change (String.eqb "asn" "asn") with true.
    change (String.eqb "asn" "prefix") with false.
    change (String.eqb "prefix" "prefix") with true. cbv iota.
    rewrite (proj2 (String.eqb_neq _ _) Ha), (proj2 (String.eqb_neq _ _) Hp).
    cbn [negb]. unfold DiffEngine.get_current_state.
    cbn [DiffEngine.vrps DiffEngine.state_serial DiffEngine.vrp_count
         DiffEngine.state_last_update].
    assert (forall (p q : VRPDict.t -> bool) (xs : list VRPDict.t),
               List.filter q (List.filter p xs) = List.filter (fun x => p x && q x) xs) as Hf.
    { intros p q xs. induction xs as [|x xs IH]; [reflexivity|]. simpl.
      destruct (p x); simpl; [destruct (q x)|]; now rewrite IH. }
    rewrite Hf. reflexivity.
Qed.

Lemma routes_agree_on_first_batch :
  Py.startswith "AS1" "AS" = true /\
  "10.0.0.0/24" <> EmptyString /\
  exists selected,
    APIServer.validate_route {[ "asn" := "AS1"; "prefix" := "10.0.0.0/24" ]}
      Sample.after_first_batch
    = Return (APIServer.Body_validation "AS1" "10.0.0.0/24"
                (Nat.ltb 0 (List.length selected)) selected
                (DiffEngine.serial (DiffEngine.self Sample.after_first_batch)), 200) /\
    APIServer.get_vrps [("asn", "AS1"); ("prefix", "10.0.0.0/24")] Sample.after_first_batch
    = (APIServer.Body_vrps (DiffEngine.serial (DiffEngine.self Sample.after_first_batch))
         (List.length (DiffEngine.current_snapshot (DiffEngine.self Sample.after_first_batch)))
         (List.length selected)
         (DiffEngine.last_update (DiffEngine.self Sample.after_first_batch)) selected, 200).
Proof.
  assert (Py.startswith "AS1" "AS" = true) as H1 by reflexivity.
  assert ("10.0.0.0/24" <> EmptyString) as H2 by discriminate.
  split; [exact H1|]. split; [exact H2|].
  exact (validate_route_agrees_with_vrps_route "AS1" "10.0.0.0/24"
           Sample.after_first_batch H1 H2).
Defined.

(** X17: what [/api/v1/diff] returns.  Without parameters both serials
    are 0 and the answer is 404.  The status is 200 only when both
    parameters are read by [int], [to] is [from] plus one, and the diff
    file of [to] is there: the answer is then the content of the file and
    the engine is untouched.  Asked with the text of [s - 1] and of [s],
    the route returns the diff file of [s] when there is one and its name
    is one that the file system takes; the diff of serial 1 is also
    returned for [to=1] alone. *)
Theorem diff_route_serves_single_steps (w : DiffEngine.World) :
  APIServer.get_diff [] w
  = (Return (APIServer.Body_error "Diff not found", 404),
     DiffEngine.emit (Warning_multi_step 0 0) w) /\
  (forall request_args answer w',
      APIServer.get_diff request_args w = (Return (answer, 200), w') ->
      exists from_serial to_serial d,
        APIServer.int_arg request_args "from" = Some from_serial /\
        APIServer.int_arg request_args "to" = Some to_serial /\
        to_serial = from_serial + 1 /\
        DiffEngine.diffs (DiffEngine.disk w) !! DiffEngine.diff_name to_serial
        = Some (DiffEngine.Doc d) /\
        answer = APIServer.Body_diff d /\ w' = w) /\
  (forall s d,
      (String.length (DiffEngine.diff_name s) <= DiffEngine.NAME_MAX)%nat ->
      DiffEngine.diffs (DiffEngine.disk w) !! DiffEngine.diff_name s
      = Some (DiffEngine.Doc d) ->
      APIServer.get_diff [("from", Py.str_of_int (s - 1)); ("to", Py.str_of_int s)] w
      = (Return (APIServer.Body_diff d, 200), w)) /\
  (forall d,
      DiffEngine.diffs (DiffEngine.disk w) !! DiffEngine.diff_name 1
      = Some (DiffEngine.Doc d) ->
      APIServer.get_diff [("to", "1")] w = (Return (APIServer.Body_diff d, 200), w)).
Proof.
  split; [reflexivity|]. split; [|split].
  - intros request_args answer w' H. unfold APIServer.get_diff in H.
    destruct (APIServer.int_arg request_args "from") as [from_serial|]; [|discriminate H].
    destruct (APIServer.int_arg request_args "to") as [to_serial|]; [|discriminate H].
    destruct (DiffEngine.get_diff from_serial to_serial w) as [[[d|]|e] w1] eqn:G;
      try discriminate H.
    injection H as <- <-.
    pose proof (proj1 (get_diff_within_name_limit from_serial to_serial w) d w1 G)
      as (H1 & _ & _ & H2).
    exists from_serial, to_serial, d.
    split; [reflexivity|]. split; [reflexivity|]. split; [lia|]. split; [exact H2|].
    split; [reflexivity|].
    unfold DiffEngine.get_diff in G.
    destruct (to_serial <? from_serial); [discriminate G|].
    destruct (negb _); [discriminate G|].
    destruct (Nat.ltb _ _); [discriminate G|].
    rewrite H2 in G. now injection G.
  - intros s d Hn Hd. unfold APIServer.get_diff, APIServer.int_arg. cbn [PyDict.get].
    change (String.eqb "from" "from") with true.
    change (String.eqb "from" "to") with false.
    change (String.eqb "to" "to") with true. cbv iota.
    rewrite !int_of_str_str_of_int.
    now rewrite (get_diff_reads_file s w d Hn Hd).
  - intros d Hd. unfold APIServer.get_diff, APIServer.int_arg. cbn [PyDict.get].
    change (String.eqb "to" "from") with false.
    change (String.eqb "to" "to") with true. cbv iota.
    change (Py.int_of_str "1") with (Some 1).
    assert (String.length (DiffEngine.diff_name 1) <= DiffEngine.NAME_MAX)%nat as Hn
      by (apply Nat.leb_le; vm_compute; reflexivity).
    pose proof (get_diff_reads_file 1 w d Hn Hd) as G.
    change (1 - 1) with 0 in G. cbv iota. now rewrite G.
Qed.

Lemma diff_route_on_first_batch :
  (String.length (DiffEngine.diff_name 1) <= DiffEngine.NAME_MAX)%nat /\
  DiffEngine.diffs (DiffEngine.disk Sample.after_first_batch) !! DiffEngine.diff_name 1
  = Some (DiffEngine.Doc Sample.first_diff) /\
  APIServer.get_diff [("from", "0"); ("to", "1")] Sample.after_first_batch
  = (Return (APIServer.Body_diff Sample.first_diff, 200), Sample.after_first_batch) /\
  APIServer.get_diff [("to", "1")] Sample.after_first_batch
  = (Return (APIServer.Body_diff Sample.first_diff, 200), Sample.after_first_batch).
Proof.
  assert (String.length (DiffEngine.diff_name 1) <= DiffEngine.NAME_MAX)%nat as Hn
    by (apply Nat.leb_le; vm_compute; reflexivity).
  assert (DiffEngine.diffs (DiffEngine.disk Sample.after_first_batch)
          !! DiffEngine.diff_name 1 = Some (DiffEngine.Doc Sample.first_diff)) as Hd
    by (vm_compute; reflexivity).
  split; [exact Hn|]. split; [exact Hd|]. split.
  - exact (proj1 (proj2 (proj2 (diff_route_serves_single_steps Sample.after_first_batch)))
             1 Sample.first_diff Hn Hd).
  - exact (proj2 (proj2 (proj2 (diff_route_serves_single_steps Sample.after_first_batch)))
             Sample.first_diff Hd).
Defined.

(** ** The start of the backend *)

(** X18: a restart on an unchanged upstream changes nothing.  When a
    fetch has been accepted, a new process that starts on the state
    directory it left loads the state without error, and its initial
    fetch of the same response is rejected: the engine and the state
    directory are what the accepted fetch left, with the same serial. *)
Theorem restart_on_unchanged_upstream_keeps_state
    (ip_network : string -> option string) (f f' : RPKIBackend.fetch)
    (w w1 : DiffEngine.World) :
  RPKIBackend.fetch_http f' = RPKIBackend.fetch_http f ->
  RPKIBackend.fetch_and_process ip_network f w = (Return true, w1) ->
  exists w2,
    RPKIBackend.startup ip_network (DiffEngine.disk w1) f'
    = (w2, [RPKIBackend.Info_loaded_existing_state;
            RPKIBackend.Info_performing_initial_fetch]) /\
    DiffEngine.self w2 = DiffEngine.self w1 /\
    DiffEngine.disk w2 = DiffEngine.disk w1.
Proof.
  intros Eh Hf. unfold RPKIBackend.fetch_and_process in Hf.
  destruct (VRPLoader.fetch_vrps ip_network (RPKIBackend.fetch_http f))
    as [[resp|] es0] eqn:F.
  2:{ rewrite (failed_fetch_keeps_state ip_network _ es0 _ _ _ w F) in Hf.
      discriminate Hf. }
  destruct (fetch_and_process_valid ip_network _ resp es0 (RPKIBackend.now_fetched f)
              (RPKIBackend.now_update f) (RPKIBackend.now_diff f) w F)
    as (l & es & Hc & _ & H).
  cbv zeta in H. rewrite H in Hf. clear H.
  set (w0 := VRPLoader.emit_all es (VRPLoader.emit_all es0 w)) in Hf.
  set (md := {| DiffEngine.generated := _; DiffEngine.fetched_at := _ |}) in Hf.
  destruct (String.eqb_spec (DiffEngine._compute_hash l)
              (DiffEngine.current_hash (DiffEngine.self w0))) as [E|E].
  { rewrite (process_snapshot_rejects l md _ _ w0 E) in Hf. discriminate Hf. }
  destruct (accepted_call_recovered l md (RPKIBackend.now_update f)
              (RPKIBackend.now_diff f) w0 E) as (wl & Hl & Hls & Hld).
  destruct (process_snapshot_accepts l md (RPKIBackend.now_update f)
              (RPKIBackend.now_diff f) w0 E) as (wp & Hp & Hps).
  rewrite Hp in Hf, Hl, Hls, Hld. cbn [fst snd] in Hf, Hl, Hls, Hld.
  injection Hf as <-. cbn [DiffEngine.emit DiffEngine.self DiffEngine.disk].
  unfold RPKIBackend.startup. rewrite Hl.
  unfold RPKIBackend.fetch_and_process. rewrite Eh.
  destruct (fetch_and_process_by_hash ip_network _ resp es0 l es
              (RPKIBackend.now_fetched f') (RPKIBackend.now_update f')
              (RPKIBackend.now_diff f') wl F Hc) as (w2 & -> & Hsame & _).
  assert (DiffEngine._compute_hash l = DiffEngine.current_hash (DiffEngine.self wl)) as E'
    by (now rewrite Hls, Hps).
  exists w2. split; [reflexivity|].
  destruct (Hsame E') as [-> ->]. split; [exact Hls|exact Hld].
Qed.

(** X19: a current snapshot file that is not JSON is not repaired by an
    unchanged upstream.  With sound metadata and such a file,
    [load_state] raises after it has set the serial and the hash; [run]
    logs the error as a warning and goes on.  When the upstream then
    serves the records whose canonical list has the stored hash, the
    initial fetch is rejected: the engine keeps the serial and the hash of
    the metadata with an empty snapshot, and the state directory is
    untouched. *)
Theorem corrupt_snapshot_file_is_not_repaired
    (ip_network : string -> option string) (dk : DiffEngine.Disk)
    (m : DiffEngine.metadata_json) (s : Z) (h : string) (first : RPKIBackend.fetch)
    (resp : VRPLoader.RoutinagorVRPResponse) (es0 es : list event) (l : list VRPDict.t) :
  DiffEngine.state_metadata_json dk = Some (DiffEngine.Doc m) ->
  DiffEngine.meta_serial m = Some s ->
  DiffEngine.meta_current_hash m = Some h ->
  DiffEngine.current_snapshot_json dk = Some DiffEngine.NotJson ->
  VRPLoader.fetch_vrps ip_network (RPKIBackend.fetch_http first) = (Some resp, es0) ->
  VRPLoader.canonicalize_vrps ip_network (VRPLoader.roas resp) = Some (l, es) ->
  DiffEngine._compute_hash l = h ->
  exists w,
    RPKIBackend.startup ip_network dk first
    = (w, [RPKIBackend.Warning_no_existing_state JSONDecodeError;
           RPKIBackend.Info_performing_initial_fetch]) /\
    DiffEngine.self w
    = {| DiffEngine.current_snapshot := [];
         DiffEngine.previous_snapshot := [];
         DiffEngine.serial := s;
         DiffEngine.current_hash := h;
         DiffEngine.last_update := DiffEngine.meta_last_update m |} /\
    DiffEngine.disk w = dk /\
    DiffEngine.vrp_count (DiffEngine.get_current_state w) = 0%nat.
Proof.
  intros Hm Hs Hh Hc F Hl E.
  unfold RPKIBackend.startup, DiffEngine.load_state, RPKIBackend.new_engine.
  cbn [DiffEngine.disk DiffEngine.self]. rewrite Hm, Hs, Hh, Hc.
  unfold RPKIBackend.fetch_and_process.
  match goal with
  | |- context [VRPLoader.fetch_and_process _ _ ?t0 ?t1 ?t2 ?w0] =>
      destruct (fetch_and_process_by_hash ip_network _ resp es0 l es t0 t1 t2 w0 F Hl)
        as (w & -> & Hsame & _)
  end.
  cbn [DiffEngine.with_self DiffEngine.self DiffEngine.current_hash] in *.
  exists w. split; [reflexivity|].
  destruct (Hsame E) as [Hw Hd].
  split; [exact Hw|]. split; [exact Hd|].
  unfold DiffEngine.get_current_state. cbn [DiffEngine.vrp_count]. now rewrite Hw.
Qed.

Lemma restart_after_first_batch :
  RPKIBackend.fetch_http (Scenario.fetch_at "01") = RPKIBackend.fetch_http (Scenario.fetch_at "00") /\
  RPKIBackend.fetch_and_process Ipv4.ip_network (Scenario.fetch_at "00") Sample.fresh
  = (Return true, Sample.after_first_batch) /\
  exists w2,
    RPKIBackend.startup Ipv4.ip_network (DiffEngine.disk Sample.after_first_batch)
      (Scenario.fetch_at "01")
    = (w2, [RPKIBackend.Info_loaded_existing_state;
            RPKIBackend.Info_performing_initial_fetch]) /\
    DiffEngine.self w2 = DiffEngine.self Sample.after_first_batch /\
    DiffEngine.disk w2 = DiffEngine.disk Sample.after_first_batch.
Proof.
  assert (RPKIBackend.fetch_http (Scenario.fetch_at "01")
          = RPKIBackend.fetch_http (Scenario.fetch_at "00")) as H1 by reflexivity.
  assert (RPKIBackend.fetch_and_process Ipv4.ip_network (Scenario.fetch_at "00") Sample.fresh
          = (Return true, Sample.after_first_batch)) as H2 by (vm_compute; reflexivity).
  split; [exact H1|]. split; [exact H2|].
  exact (restart_on_unchanged_upstream_keeps_state Ipv4.ip_network
           (Scenario.fetch_at "00") (Scenario.fetch_at "01")
           Sample.fresh Sample.after_first_batch H1 H2).
Defined.

Lemma corrupt_snapshot_after_first_batch :
  let resp := {| VRPLoader.metadata_generated := 1700000000;
                 VRPLoader.roas := [Sample.entry_ta1; Sample.entry_ta2] |} in
  DiffEngine.current_snapshot_json Scenario.disk_with_corrupt_snapshot
  = Some DiffEngine.NotJson /\
  VRPLoader.fetch_vrps Ipv4.ip_network (RPKIBackend.fetch_http (Scenario.fetch_at "01"))
  = (Some resp, [Info_fetching; Info_fetched 2]) /\
  VRPLoader.canonicalize_vrps Ipv4.ip_network (VRPLoader.roas resp)
  = Some ([Sample.roa_ta1; Sample.roa_ta2], []) /\
  exists w,
    RPKIBackend.startup Ipv4.ip_network Scenario.disk_with_corrupt_snapshot
      (Scenario.fetch_at "01")
    = (w, [RPKIBackend.Warning_no_existing_state JSONDecodeError;
           RPKIBackend.Info_performing_initial_fetch]) /\
    DiffEngine.self w
    = {| DiffEngine.current_snapshot := [];
         DiffEngine.previous_snapshot := [];
         DiffEngine.serial := 1;
         DiffEngine.current_hash :=
           DiffEngine._compute_hash [Sample.roa_ta1; Sample.roa_ta2];
         DiffEngine.last_update := Some "2024-01-01T00:00:01" |} /\
    DiffEngine.disk w = Scenario.disk_with_corrupt_snapshot /\
    DiffEngine.vrp_count (DiffEngine.get_current_state w) = 0%nat.
Proof.
  cbv zeta.
  match goal with
  | |- ?A /\ ?B /\ ?C /\ _ =>
      assert A as H1 by reflexivity;
      assert B as H2 by (vm_compute; reflexivity);
      assert C as H3 by (vm_compute; reflexivity)
  end.
  split; [exact H1|]. split; [exact H2|]. split; [exact H3|].
  exact (corrupt_snapshot_file_is_not_repaired Ipv4.ip_network
           Scenario.disk_with_corrupt_snapshot _ 1 _ (Scenario.fetch_at "01") _ _ _ _
           eq_refl eq_refl eq_refl H1 H2 H3 eq_refl).
Defined.

